(** * fastNLP core: the training and evaluation loop

    A shallow embedding of [fastNLP/core/tester.py] and
    [fastNLP/core/trainer.py].  Python objects are records, dictionaries
    are finite maps with string keys, and every method is a function in a
    state-and-exception monad that also writes a log of the calls made
    into the tensor framework (forward passes, losses, gradient steps,
    summary scalars, checkpoints). *)

From Stdlib Require Import ZArith List Bool Lia.
From stdpp Require Import base gmap strings list fin_maps.

Local Open Scope string_scope.
Local Open Scope list_scope.
Local Open Scope Z_scope.

(** ** Exceptions and outcomes *)

(** The Python exceptions the two files raise or let through. *)
Inductive exn : Type :=
| TypeError | ValueError | AttributeError | KeyError | NameError
| AssertionError | StopIteration | RuntimeError
| CheckError (func_signature : string)
| OtherError (name : string).

(** What a call yields: a value, a raised exception, or (for the one
    [while] loop, which the model runs on fuel) exhaustion of the fuel. *)
Inductive Outcome (A : Type) : Type :=
| Ok (a : A)
| Raise (e : exn)
| OutOfFuel.
Arguments Ok {A} a.
Arguments Raise {A} e.
Arguments OutOfFuel {A}.

Definition is_Ok {A} (o : Outcome A) : bool :=
  match o with Ok _ => true | _ => false end.

Definition is_CheckError (e : exn) : bool :=
  match e with CheckError _ => true | _ => false end.

(** ** Tensors, batches and data sets *)

(** A tensor is seen through its rows along the first dimension, which is
    what iteration over it yields; a row is an abstract number. *)
Abbreviation tensor := (list Z).
Abbreviation fields := (gmap string tensor).

Record Instance : Type := {
  ins_x : gmap string Z;      (* input fields *)
  ins_y : gmap string Z       (* target fields *)
}.

Abbreviation DataSet := (list Instance).

Inductive Sampler : Type := SequentialSampler | RandomSampler.

(** ** The log *)

(** Calls that leave the two files, in the order they happen.  A call of
    [Tester.test] is one node holding the events of that call. *)
#[warnings="-register-all"]
Inductive event : Type :=
| EBatchIter (s : Sampler) (batch_size : Z)
| EMove (device : string) (batch_x batch_y : fields)
| ECall (signature : string) (kwargs : fields) (training grad : bool)
| ELoss (predict truth : fields)
| EZeroGrad
| EBackward
| EOptStep
| EAddScalar (tag : string) (global_step : Z)
| EPrint
| EModeEval
| EModeTrain
| EMetric (class_name : string) (output truths : fields)
| ESave (path : string)
| EWriterOpen (path : string)
| EWriterClose
| ETest (sub : list event).

(** ** The world

    The mutable state outside the two classes: the module (one shared
    object: its training flag, device and number of optimizer updates),
    the global gradient switch, the random source and the clock. *)
Record World : Type := {
  training : bool;
  grad_enabled : bool;
  on_cuda : bool;
  updates : nat;
  rng : list nat;
  now : string
}.

Definition set_training (b : bool) (w : World) : World :=
  {| training := b; grad_enabled := grad_enabled w; on_cuda := on_cuda w;
     updates := updates w; rng := rng w; now := now w |}.
Definition set_grad_enabled (b : bool) (w : World) : World :=
  {| training := training w; grad_enabled := b; on_cuda := on_cuda w;
     updates := updates w; rng := rng w; now := now w |}.
Definition set_on_cuda (b : bool) (w : World) : World :=
  {| training := training w; grad_enabled := grad_enabled w; on_cuda := b;
     updates := updates w; rng := rng w; now := now w |}.
Definition set_updates (n : nat) (w : World) : World :=
  {| training := training w; grad_enabled := grad_enabled w; on_cuda := on_cuda w;
     updates := n; rng := rng w; now := now w |}.
Definition set_rng (r : list nat) (w : World) : World :=
  {| training := training w; grad_enabled := grad_enabled w; on_cuda := on_cuda w;
     updates := updates w; rng := r; now := now w |}.

(** ** The monad: state, exceptions and the log *)

Section monad.
Context {S : Type}.

Definition M (A : Type) : Type := S -> Outcome A * S * list event.

Definition ret {A} (a : A) : M A := fun s => (Ok a, s, []).

Definition bind {A B} (m : M A) (k : A -> M B) : M B := fun s =>
  match m s with
  | (Ok a, s1, l1) =>
      match k a s1 with (o, s2, l2) => (o, s2, l1 ++ l2) end
  | (Raise e, s1, l1) => (Raise e, s1, l1)
  | (OutOfFuel, s1, l1) => (OutOfFuel, s1, l1)
  end.

Definition raise {A} (e : exn) : M A := fun s => (Raise e, s, []).
Definition emit (e : event) : M unit := fun s => (Ok tt, s, [e]).
Definition get : M S := fun s => (Ok s, s, []).
Definition gets {A} (f : S -> A) : M A := fun s => (Ok (f s), s, []).
Definition modify (f : S -> S) : M unit := fun s => (Ok tt, f s, []).
Definition lift {A} (o : Outcome A) : M A := fun s => (o, s, []).

(** [try: body finally: fin]: [fin] runs whatever [body] did; an
    exception of [fin] replaces the one of [body]. *)
Definition try_finally {A} (body : M A) (fin : M unit) : M A := fun s =>
  match body s with
  | (o, s1, l1) =>
      match fin s1 with
      | (Ok _, s2, l2) => (o, s2, l1 ++ l2)
      | (Raise e, s2, l2) => (Raise e, s2, l1 ++ l2)
      | (OutOfFuel, s2, l2) => (OutOfFuel, s2, l1 ++ l2)
      end
  end.

(** [try: body except CheckError as e: handler e]. *)
Definition try_except_CheckError {A} (body : M A) (handler : exn -> M A) : M A :=
  fun s =>
  match body s with
  | (Raise e, s1, l1) =>
      if is_CheckError e
      then match handler e s1 with (o, s2, l2) => (o, s2, l1 ++ l2) end
      else (Raise e, s1, l1)
  | r => r
  end.

(** The events of [m] become one node of the log. *)
Definition scoped {A} (node : list event -> event) (m : M A) : M A := fun s =>
  match m s with (o, s1, l1) => (o, s1, [node l1]) end.

(** [for x in l: body x], threading an accumulator. *)
Fixpoint foldM {A B} (body : B -> A -> M B) (acc : B) (l : list A) : M B :=
  match l with
  | [] => ret acc
  | x :: l' => bind (body acc x) (fun acc' => foldM body acc' l')
  end.

Definition forM_ {A} (body : A -> M unit) (l : list A) : M unit :=
  foldM (fun _ x => body x) tt l.
End monad.
Arguments M : clear implicits.

Declare Scope py_scope.
Delimit Scope py_scope with py.
Notation "x <- m ;; k" := (bind m (fun x => k))
  (at level 100, m at next level, right associativity) : py_scope.
Notation "m ;; k" := (bind m (fun _ => k))
  (at level 100, right associativity) : py_scope.
Local Open Scope py_scope.

Definition outcome {S A} (r : Outcome A * S * list event) : Outcome A := r.1.1.
Definition state {S A} (r : Outcome A * S * list event) : S := r.1.2.
Definition log {S A} (r : Outcome A * S * list event) : list event := r.2.

(** ** Callables with a signature *)

(** What a model returns: a dictionary of named tensors, or something
    that is not a [dict]. *)
Inductive pyret : Type :=
| RDict (d : fields)
| RNonDict.

(** A function whose parameter names can be inspected.  Its body reads
    the world (mode, weights) and does not change it. *)
Record Callable : Type := {
  func_signature : string;
  declared : list string;
  body : World -> fields -> Outcome pyret
}.

(** Modelled from the spec: [fastNLP.core.utils._build_args] is not part of
    the two files.  "Signature matching: filtering a mapping of named
    values down to the subset a target callable declares as parameters." *)
Definition _build_args (func : Callable) (kwargs : fields) : fields :=
  filter (fun kv => kv.1 ∈ declared func) kwargs.

(** A call with keyword arguments: the call is logged with the keyword arguments it gets
    and the module's mode and gradient switch at that moment. *)
Definition call (func : Callable) (kwargs : fields) : M World pyret :=
  w <- get ;;
  emit (ECall (func_signature func) kwargs (training w) (grad_enabled w)) ;;
  lift (body func w kwargs).

(** ** Models, losses, metrics *)

(** An attribute that may be missing, present but not callable, or a
    function. *)
Inductive attr : Type :=
| NoAttr
| NonCallable
| IsCallable (c : Callable).

(** A [torch.nn.Module]: its [forward], an optional [predict] attribute,
    and its parameters (name, [requires_grad], device) in order. *)
Record Module : Type := {
  forward : Callable;
  predict : attr;
  named_parameters : list (string * bool * string)
}.

(** [model.parameters().__next__().device] *)
Definition first_parameter_device (model : Module) : Outcome string :=
  match named_parameters model with
  | [] => Raise StopIteration
  | (_, _, device) :: _ => Ok device
  end.

(** What a loss function may hand back: a tensor of some shape, or an
    object that is not a tensor (which may still have a [backward]). *)
Inductive lossval : Type :=
| LTensor (size : list nat)
| LObject (has_backward : bool).

Definition numel (size : list nat) : nat := foldr Nat.mul 1%nat size.

(** [loss.backward()]: torch creates the gradient implicitly for
    one-element outputs only. *)
Definition backward (loss : lossval) : Outcome unit :=
  match loss with
  | LTensor size => if (numel size =? 1)%nat then Ok tt else Raise RuntimeError
  | LObject true => Ok tt
  | LObject false => Raise AttributeError
  end.

(** [loss.item()] *)
Definition item (loss : lossval) : Outcome unit :=
  match loss with
  | LTensor size => if (numel size =? 1)%nat then Ok tt else Raise ValueError
  | LObject _ => Raise AttributeError
  end.

Record Losser : Type := {
  loss_signature : string;
  loss_call : World -> fields -> fields -> Outcome lossval
}.

(** A metric object.  It is called on two dictionaries of iterators (one
    per field, over the rows of the whole pass); an iterator is shared by
    all who hold the dictionary, so the call also says what it left in
    them. *)
Record Metric : Type := {
  metric_class : string;      (* metric.__class__.__name__ *)
  metric_call : fields -> fields -> Outcome Z * (fields * fields)
}.

(** Python values that reach an [isinstance] test or an instance
    dictionary. *)
Inductive pyobj : Type :=
| PNone
| PBool (b : bool)
| PInt (z : Z)
| PStr (s : string)
| PDataSet (d : DataSet)
| PModule (m : Module)
| PMetric (m : Metric)
| PMetrics (l : list Metric)
| PFunc (c : Callable)
| PObject (class_name : string).

Definition is_DataSet (o : pyobj) : bool :=
  match o with PDataSet _ => true | _ => false end.
Definition is_Module (o : pyobj) : bool :=
  match o with PModule _ => true | _ => false end.
Definition callable (o : pyobj) : bool :=
  match o with PFunc _ => true | _ => false end.

(** ** What the two files import from the rest of the package

    Helpers of [fastNLP.core.utils], [.metrics], [.losses] and
    [.dataset] whose code is elsewhere: they are parameters. *)
Record Externals : Type := {
  _prepare_metrics : pyobj -> Outcome (list Metric);
  _prepare_losser : option Losser -> Outcome Losser;
  _check_forward_error : Callable -> Z -> fields -> Outcome unit;
  _check_loss_evaluate : string -> exn -> fields -> fields -> Outcome unit;
  cuda_is_available : bool;
  dataset_bool : DataSet -> bool       (* the truth value of a DataSet *)
}.

Section truthiness.
Context (env : Externals).

(** [bool(o)] *)
Definition truthy (o : pyobj) : bool :=
  match o with
  | PNone => false
  | PBool b => b
  | PInt z => negb (z =? 0)
  | PStr s => negb (String.eqb s "")
  | PDataSet d => dataset_bool env d
  | PMetrics l => match l with [] => false | _ => true end
  | PModule _ | PMetric _ | PFunc _ | PObject _ => true
  end.
End truthiness.

(** ** The batch iterator *)

(** Modelled from the spec: [fastNLP.core.sampler.RandomSampler] is not
    part of the two files.  "in either sequential or randomized order": the
    randomized order draws the next instance among those left, by the
    random source. *)
Fixpoint draw_order {A} (n : nat) (r : list nat) (l : list A) : list A * list nat :=
  match n with
  | O => (l, r)
  | S n' =>
      match r with
      | [] => (l, [])
      | x :: r' =>
          let i := (x mod length l)%nat in
          match l !! i with
          | Some a =>
              let '(rest, r'') := draw_order n' r' (delete i l) in (a :: rest, r'')
          | None => (l, r')
          end
      end
  end.

(** Groups of [n] consecutive elements, the last one possibly shorter. *)
Fixpoint chunks_fuel {A} (fuel n : nat) (l : list A) : list (list A) :=
  match fuel with
  | O => []
  | S fuel' =>
      match l with
      | [] => []
      | _ => take n l :: chunks_fuel fuel' n (drop n l)
      end
  end.

Definition chunks {A} (n : nat) (l : list A) : list (list A) :=
  match n with
  | O => []
  | _ => chunks_fuel (length l) n l
  end.

(** The named tensors of a group of instances: per field, the values of
    the instances in order. *)
Definition column (proj : Instance -> gmap string Z) (l : list Instance) : fields :=
  foldr (fun i acc => union_with (fun a b => Some (a ++ b)) ((fun v => [v]) <$> proj i) acc)
        ∅ l.

Definition collate (l : list Instance) : fields * fields :=
  (column ins_x l, column ins_y l).

Definition batches_of (batch_size : Z) (order : DataSet) : list (fields * fields) :=
  collate <$> chunks (Z.to_nat batch_size) order.

(** Modelled from the spec: [fastNLP.core.batch.Batch] is not part of the
    two files.  "yields (input-fields, target-fields) mappings from a
    dataset, in either sequential or randomized order, for a fixed batch
    size."  A batch size that is not positive yields nothing. *)
Definition Batch (dataset : DataSet) (batch_size : Z) (sampler : Sampler)
  : M World (list (fields * fields)) :=
  emit (EBatchIter sampler batch_size) ;;
  order <- match sampler with
           | SequentialSampler => ret dataset
           | RandomSampler =>
               w <- get ;;
               let '(order, r) := draw_order (length dataset) (rng w) dataset in
               modify (set_rng r) ;;
               ret order
           end ;;
  ret (batches_of batch_size order).

(** Modelled from the spec: [fastNLP.core.utils._move_dict_value_to_device]
    is not part of the two files.  It moves the tensors of both
    dictionaries to the device, in place; their rows stay as they are. *)
Definition _move_dict_value_to_device (device : string) (batch_x batch_y : fields)
  : M World unit :=
  emit (EMove device batch_x batch_y).

(** ** Instance dictionaries

    While [__init__] runs, the attributes of [self] are the entries of
    its dictionary: reading one that was not assigned yet raises
    [AttributeError]. *)
Abbreviation instance_dict := (gmap string pyobj).

Definition getattr (self : instance_dict) (name : string) : M World pyobj :=
  match self !! name with
  | Some v => ret v
  | None => raise AttributeError
  end.

(** Attributes of a value that is not an instance dictionary; only a
    module has some here. *)
Definition object_attr (o : pyobj) (name : string) : option pyobj :=
  match o with
  | PModule m =>
      if String.eqb name "forward" then Some (PFunc (forward m))
      else if String.eqb name "predict" then
        match predict m with
        | NoAttr => None
        | NonCallable => Some (PObject "object")
        | IsCallable c => Some (PFunc c)
        end
      else None
  | _ => None
  end.

Definition hasattr (o : pyobj) (name : string) : bool :=
  match object_attr o name with Some _ => true | None => false end.

Definition getattr_of (o : pyobj) (name : string) : M World pyobj :=
  match object_attr o name with
  | Some v => ret v
  | None => raise AttributeError
  end.

(** ** Text *)

Definition newline : string :=
  String (Stdlib.Strings.Ascii.ascii_of_nat 10) EmptyString.
Definition tab : string :=
  String (Stdlib.Strings.Ascii.ascii_of_nat 9) EmptyString.

(** [sep.join(l)] *)
Definition join (sep : string) (l : list string) : string :=
  match l with
  | [] => ""
  | x :: l' => foldl (fun acc y => String.append acc (String.append sep y)) x l'
  end.

(** ** tester.py *)

Module Tester.

Record self : Type := {
  metrics : list Metric;
  _predict_func : Callable;
  data : DataSet;
  _model : Module;
  use_cuda : bool;
  batch_size : Z;
  verbose : Z;
  _model_device : string
}.

(** The object an instance dictionary stands for, once every attribute
    is there. *)
Definition view (d : instance_dict) : M World self :=
  match d !! "metrics", d !! "_predict_func", d !! "data", d !! "_model",
        d !! "use_cuda", d !! "batch_size", d !! "verbose", d !! "_model_device" with
  | Some (PMetrics ms), Some (PFunc f), Some (PDataSet ds), Some (PModule m),
    Some (PBool uc), Some (PInt bs), Some (PInt v), Some (PStr dev) =>
      ret {| metrics := ms; _predict_func := f; data := ds; _model := m;
             use_cuda := uc; batch_size := bs; verbose := v; _model_device := dev |}
  | _, _, _, _, _, _, _, _ => raise AttributeError
  end.

(** [_format_eval_results(self, results)], on the items of the
    dictionary in their order and for any type of values with its
    [str]. *)
Definition _format_eval_results {V} (str : V -> string)
    (results : list (string * V)) : string :=
  let _str := "" in
  let _str :=
    foldl (fun _str (item : string * V) =>
             let '(metric_name, metric_result) := item in
             let _str := String.append _str
                           (String.append metric_name (String.append newline tab)) in
             String.append _str
               (join ", " ((fun kv : string * V =>
                              String.append kv.1 (String.append "=" (str kv.2)))
                           <$> results)))
          _str results in
  String.append _str newline.

Section methods.
Context (env : Externals).

Definition __init__ (data model metrics : pyobj) (batch_size : Z)
    (use_cuda : bool) (verbose : Z) : M World self :=
  let d : instance_dict := ∅ in
  if negb (is_DataSet data) then raise TypeError else
  if negb (is_Module model) then raise TypeError else
  ms <- lift (_prepare_metrics env metrics) ;;
  let d := <["metrics" := PMetrics ms]> d in
  (* check predict *)
  m <- getattr d "_model" ;;
  d <- (if hasattr m "predict" then
          m <- getattr d "_model" ;;
          p <- getattr_of m "predict" ;;
          let d := <["_predict_func" := p]> d in
          if negb (callable p) then raise TypeError else ret d
        else
          m <- getattr d "_model" ;;
          f <- getattr_of m "forward" ;;
          ret (<["_predict_func" := f]> d)) ;;
  let d := <["data" := data]> d in
  to_cuda <- (if cuda_is_available env
              then (uc <- getattr d "use_cuda" ;; ret (truthy env uc))
              else ret false) ;;
  d <- (if to_cuda : bool
        then (modify (set_on_cuda true) ;; ret (<["_model" := model]> d))
        else ret (<["_model" := model]> d)) ;;
  let d := <["use_cuda" := PBool use_cuda]> d in
  let d := <["batch_size" := PInt batch_size]> d in
  let d := <["verbose" := PInt verbose]> d in
  device <- match model with
            | PModule m => lift (first_parameter_device m)
            | _ => raise AttributeError
            end ;;
  let d := <["_model_device" := PStr device]> d in
  view d.

Definition _mode (model : Module) (is_test : bool) : M World unit :=
  if is_test
  then (emit EModeEval ;; modify (set_training false))
  else (emit EModeTrain ;; modify (set_training true)).

Definition _data_forward (func : Callable) (x : fields) : M World pyret :=
  let x := _build_args func x in
  y <- call func x ;;
  ret y.

(** [with torch.no_grad(): body] *)
Definition no_grad {A} (body : M World A) : M World A :=
  prev <- gets grad_enabled ;;
  modify (set_grad_enabled false) ;;
  try_finally body (modify (set_grad_enabled prev)).

(** [for k, v in d.items(): acc[k].append(v)] on a [defaultdict(list)] *)
Definition append_items (acc : gmap string (list tensor)) (d : fields)
  : gmap string (list tensor) :=
  map_fold (fun k v acc => <[k := default [] (acc !! k) ++ [v]]> acc) acc d.

(** [for k, v in acc.items(): acc[k] = itertools.chain( *v)] *)
Definition chain_all (acc : gmap string (list tensor)) : fields :=
  (fun v => concat v) <$> acc.

(** The body of the loop over the batches. *)
Definition test_batch (s : self)
    (acc : gmap string (list tensor) * gmap string (list tensor))
    (batch : fields * fields)
  : M World (gmap string (list tensor) * gmap string (list tensor)) :=
  let '(output, truths) := acc in
  let '(batch_x, batch_y) := batch in
  _move_dict_value_to_device (_model_device s) batch_x batch_y ;;
  prediction <- _data_forward (_predict_func s) batch_x ;;
  match prediction with
  | RNonDict => raise AssertionError
  | RDict prediction =>
      ret (append_items output prediction, append_items truths batch_y)
  end.

(** The loop over the metrics inside [try].  It ends with the results
    so far and, when a metric raised [CheckError], that exception;
    the iterators are what the calls left of them. *)
Fixpoint apply_metrics (ms : list Metric) (eval_results : gmap string Z)
    (output truths : fields)
  : M World (gmap string Z * option exn * (fields * fields)) :=
  match ms with
  | [] => ret (eval_results, None, (output, truths))
  | metric :: ms' =>
      emit (EMetric (metric_class metric) output truths) ;;
      match metric_call metric output truths with
      | (Ok eval_result, (output', truths')) =>
          let metric_name := metric_class metric in
          apply_metrics ms' (<[metric_name := eval_result]> eval_results)
                        output' truths'
      | (Raise e, (output', truths')) =>
          if is_CheckError e
          then ret (eval_results, Some e, (output', truths'))
          else raise e
      | (OutOfFuel, _) => lift OutOfFuel
      end
  end.

Definition test_body (s : self) : M World (gmap string Z) :=
  let network := _model s in
  _mode network true ;;
  data_iterator <- Batch (data s) (batch_size s) SequentialSampler ;;
  r <- no_grad (
         acc <- foldM (test_batch s) (∅, ∅) data_iterator ;;
         let '(output, truths) := acc in
         ret (chain_all output, chain_all truths, (∅ : gmap string Z))) ;;
  let '(output, truths, eval_results) := r in
  r <- apply_metrics (metrics s) eval_results output truths ;;
  let '(eval_results, caught, (output, truths)) := r in
  match caught with
  | Some e =>
      lift (_check_loss_evaluate env (func_signature (_predict_func s)) e
                                 output truths)
  | None => ret tt
  end ;;
  (if 0 <=? verbose s then emit EPrint else ret tt) ;;
  _mode network false ;;
  ret eval_results.

Definition test (s : self) : M World (gmap string Z) :=
  scoped ETest (test_body s).
End methods.
End Tester.

(** ** trainer.py *)

Module Trainer.

(** [self._summary_writer]: the stand-in whose every method does
    nothing, or a tensorboard writer. *)
Inductive writer : Type :=
| psudoSW
| SummaryWriter (path : string).

Record self : Type := {
  train_data : DataSet;
  dev_data : option DataSet;
  model : Module;
  losser : Losser;
  metrics : list Metric;
  n_epochs : Z;
  batch_size : Z;
  use_cuda : bool;
  save_path : option string;
  print_every : Z;
  validate_every : Z;
  _best_accuracy : Z;
  _model_device : string;
  tester : option Tester.self;
  extra : gmap string pyobj;       (* attributes set from kwargs *)
  step : Z;
  start_time : option string;
  _summary_writer : option writer  (* None: the attribute does not exist *)
}.

Definition set__best_accuracy (v : Z) (s : self) : self :=
  {| train_data := train_data s; dev_data := dev_data s; model := model s;
     losser := losser s; metrics := metrics s; n_epochs := n_epochs s;
     batch_size := batch_size s; use_cuda := use_cuda s; save_path := save_path s;
     print_every := print_every s; validate_every := validate_every s;
     _best_accuracy := v; _model_device := _model_device s; tester := tester s;
     extra := extra s; step := step s; start_time := start_time s;
     _summary_writer := _summary_writer s |}.
Definition set_extra (v : gmap string pyobj) (s : self) : self :=
  {| train_data := train_data s; dev_data := dev_data s; model := model s;
     losser := losser s; metrics := metrics s; n_epochs := n_epochs s;
     batch_size := batch_size s; use_cuda := use_cuda s; save_path := save_path s;
     print_every := print_every s; validate_every := validate_every s;
     _best_accuracy := _best_accuracy s; _model_device := _model_device s;
     tester := tester s; extra := v; step := step s; start_time := start_time s;
     _summary_writer := _summary_writer s |}.
Definition set_step (v : Z) (s : self) : self :=
  {| train_data := train_data s; dev_data := dev_data s; model := model s;
     losser := losser s; metrics := metrics s; n_epochs := n_epochs s;
     batch_size := batch_size s; use_cuda := use_cuda s; save_path := save_path s;
     print_every := print_every s; validate_every := validate_every s;
     _best_accuracy := _best_accuracy s; _model_device := _model_device s;
     tester := tester s; extra := extra s; step := v; start_time := start_time s;
     _summary_writer := _summary_writer s |}.
Definition set_start_time (v : option string) (s : self) : self :=
  {| train_data := train_data s; dev_data := dev_data s; model := model s;
     losser := losser s; metrics := metrics s; n_epochs := n_epochs s;
     batch_size := batch_size s; use_cuda := use_cuda s; save_path := save_path s;
     print_every := print_every s; validate_every := validate_every s;
     _best_accuracy := _best_accuracy s; _model_device := _model_device s;
     tester := tester s; extra := extra s; step := step s; start_time := v;
     _summary_writer := _summary_writer s |}.
Definition set__summary_writer (v : option writer) (s : self) : self :=
  {| train_data := train_data s; dev_data := dev_data s; model := model s;
     losser := losser s; metrics := metrics s; n_epochs := n_epochs s;
     batch_size := batch_size s; use_cuda := use_cuda s; save_path := save_path s;
     print_every := print_every s; validate_every := validate_every s;
     _best_accuracy := _best_accuracy s; _model_device := _model_device s;
     tester := tester s; extra := extra s; step := step s;
     start_time := start_time s; _summary_writer := v |}.

(** A method runs on the object and the world; what it did to the
    object stays when it raises. *)
Record TState : Type := { obj : self; world : World }.

Definition liftW {A} (m : M World A) : M TState A := fun s =>
  match m (world s) with
  | (o, w, l) => (o, {| obj := obj s; world := w |}, l)
  end.

Definition attr {A} (f : self -> A) : M TState A := gets (fun s => f (obj s)).
Definition assign (f : self -> self) : M TState unit :=
  modify (fun s => {| obj := f (obj s); world := world s |}).

Definition DEFAULT_CHECK_BATCH_SIZE : Z := 2.
Definition DEFAULT_CHECK_NUM_BATCH : Z := 2.

(** [l[:n]] *)
Definition slice_to {A} (n : Z) (l : list A) : list A :=
  if 0 <=? n then take (Z.to_nat n) l
  else take (length l - Z.to_nat (- n))%nat l.

(** [os.path.join] of a directory and a name *)
Definition path_join (dir name : string) : string :=
  String.append dir (String.append "/" name).

Section methods.
Context (env : Externals).

Definition mode (model : Module) (is_test : bool) : M TState unit :=
  if is_test
  then liftW (emit EModeEval ;; modify (set_training false))
  else liftW (emit EModeTrain ;; modify (set_training true)).

Definition update : M TState unit :=
  liftW (emit EOptStep ;; modify (fun w => set_updates (S (updates w)) w)).

Definition data_forward (network : Module) (x : fields) : M TState fields :=
  let x := _build_args (forward network) x in
  y <- liftW (call (forward network) x) ;;
  match y with
  | RNonDict => raise TypeError
  | RDict y => ret y
  end.

Definition grad_backward (loss : lossval) : M TState unit :=
  liftW (emit EZeroGrad) ;;
  liftW (emit EBackward) ;;
  lift (backward loss).

Definition get_loss (predict truth : fields) : M TState lossval :=
  l <- attr losser ;;
  liftW (emit (ELoss predict truth)) ;;
  w <- gets world ;;
  lift (loss_call l w predict truth).

Definition save_model (model : Module) (model_name : string) : M TState unit :=
  sp <- attr save_path ;;
  match sp with
  | None => raise TypeError
  | Some dir => liftW (emit (ESave (path_join dir model_name)))
  end.

(** [self._summary_writer.add_scalar]: the attribute is looked up
    first, the arguments are evaluated next, then the call is made
    with [global_step=self.step]. *)
Definition get_summary_writer : M TState writer :=
  sw <- attr _summary_writer ;;
  match sw with
  | None => raise AttributeError
  | Some sw => ret sw
  end.

Definition add_scalar (sw : writer) (tag : string) : M TState unit :=
  match sw with
  | psudoSW => ret tt
  | SummaryWriter _ =>
      st <- attr step ;;
      liftW (emit (EAddScalar tag st))
  end.

Definition best_eval_result (metrics : gmap string Z) : M TState bool :=
  accuracy <- match map_to_list metrics with
              | [(_, v)] => ret v
              | _ =>
                  ex <- attr extra ;;
                  match ex !! "eval_sort_key" with
                  | None => raise AttributeError
                  | Some (PStr key) =>
                      match metrics !! key with
                      | Some v => ret v
                      | None => raise KeyError
                      end
                  | Some _ => raise KeyError
                  end
              end ;;
  best <- attr _best_accuracy ;;
  if best <? accuracy
  then (assign (set__best_accuracy accuracy) ;; ret true)
  else ret false.

Definition do_validation : M TState unit :=
  t <- attr tester ;;
  res <- match t with
         | None => raise AttributeError
         | Some t => liftW (Tester.test env t)
         end ;;
  forM_ (fun kv => sw <- get_summary_writer ;;
                   add_scalar sw (String.append "valid_" kv.1))
        (map_to_list res) ;;
  sp <- attr save_path ;;
  match sp with
  | None => ret tt
  | Some _ =>
      better <- best_eval_result res ;;
      if better : bool then
        m <- attr model ;;
        st <- attr start_time ;;
        match st with
        | None => raise TypeError
        | Some st => save_model m (String.append "best_model_" st)
        end
      else ret tt
  end.

(** The body of the loop over the batches of one epoch. *)
Definition train_batch (model : Module) (batch : fields * fields)
  : M TState unit :=
  let '(batch_x, batch_y) := batch in
  device <- attr _model_device ;;
  liftW (_move_dict_value_to_device device batch_x batch_y) ;;
  prediction <- data_forward model batch_x ;;
  loss <- get_loss prediction batch_y ;;
  grad_backward loss ;;
  update ;;
  sw <- get_summary_writer ;;
  lift (item loss) ;;
  add_scalar sw "loss" ;;
  m <- attr Trainer.model ;;
  forM_ (fun p : string * bool * string =>
           if p.1.2
           then (sw <- get_summary_writer ;;
                 add_scalar sw (String.append p.1.1 "_mean"))
           else ret tt)
        (named_parameters m) ;;
  pe <- attr print_every ;;
  st <- attr step ;;
  (if (0 <? pe) && (st mod pe =? 0) then liftW (emit EPrint) else ret tt) ;;
  ve <- attr validate_every ;;
  st <- attr step ;;
  (if (0 <? ve) && (st mod ve =? 0) then do_validation else ret tt) ;;
  st <- attr step ;;
  assign (set_step (st + 1)).

Definition _train_epoch (data_iterator : list (fields * fields))
    (model : Module) (epoch : Z) (dev_data : option DataSet) : M TState unit :=
  forM_ (train_batch model) data_iterator.

(** [while epoch <= self.n_epochs: ...], on fuel. *)
Fixpoint train_loop (fuel : nat) (epoch : Z) : M TState unit :=
  n <- attr n_epochs ;;
  if epoch <=? n then
    match fuel with
    | O => lift OutOfFuel
    | S fuel' =>
        td <- attr train_data ;;
        bs <- attr batch_size ;;
        data_iterator <- liftW (Batch td bs RandomSampler) ;;
        m <- attr model ;;
        dd <- attr dev_data ;;
        _train_epoch data_iterator m epoch dd ;;
        (* validate_every override validation at end of epochs *)
        dd <- attr dev_data ;;
        ve <- attr validate_every ;;
        (if match dd with Some d => dataset_bool env d | None => false end
            && (ve <=? 0)
         then do_validation else ret tt) ;;
        train_loop fuel' (epoch + 1)
    end
  else ret tt.

Definition train : M TState unit :=
  try_finally
    (uc <- attr use_cuda ;;
     (if cuda_is_available env && uc
      then liftW (modify (set_on_cuda true)) else ret tt) ;;
     m <- attr model ;;
     mode m false ;;
     t <- gets (fun s => now (world s)) ;;
     assign (set_start_time (Some t)) ;;
     liftW (emit EPrint) ;;
     sp <- attr save_path ;;
     match sp with
     | None => assign (set__summary_writer (Some psudoSW))
     | Some dir =>
         let path := path_join dir (String.append "tensorboard_logs_" t) in
         liftW (emit (EWriterOpen path)) ;;
         assign (set__summary_writer (Some (SummaryWriter path)))
     end ;;
     n <- attr n_epochs ;;
     train_loop (Z.to_nat n) 1)
    (sw <- get_summary_writer ;;
     match sw with
     | psudoSW => ret tt
     | SummaryWriter _ => liftW (emit EWriterClose)
     end ;;
     assign (set__summary_writer None)).

(** The body of the loop of [_check_code]. *)
Definition check_batch (model : Module) (losser : Losser) (check_level : Z)
    (model_devcie : string) (batch_count : Z) (batch : fields * fields)
  : M World unit :=
  let '(batch_x, batch_y) := batch in
  _move_dict_value_to_device model_devcie batch_x batch_y ;;
  (* forward check *)
  (if batch_count =? 0
   then lift (_check_forward_error env (forward model) check_level batch_x)
   else ret tt) ;;
  let refined_batch_x := _build_args (forward model) batch_x in
  output <- call (forward model) refined_batch_x ;;
  let func_signature := func_signature (forward model) in
  match output with
  | RNonDict => raise TypeError
  | RDict output =>
      (* loss check *)
      try_except_CheckError
        (emit (ELoss output batch_y) ;;
         w <- get ;;
         loss <- lift (loss_call losser w output batch_y) ;;
         (* check loss output *)
         (if batch_count =? 0 then
            match loss with
            | LObject _ => raise TypeError
            | LTensor size =>
                if negb (Z.of_nat (length size) =? 0) then raise ValueError
                else ret tt
            end
          else ret tt) ;;
         emit EBackward ;;
         lift (backward loss))
        (fun e => lift (_check_loss_evaluate env func_signature e output batch_y)) ;;
      emit EZeroGrad
  end.

(** [for batch_count, batch in enumerate(batch): ...; if batch_count+1 >=
    DEFAULT_CHECK_NUM_BATCH: break] *)
Fixpoint check_loop (model : Module) (losser : Losser) (check_level : Z)
    (model_devcie : string) (batch_count : Z) (batches : list (fields * fields))
  : M World unit :=
  match batches with
  | [] => ret tt
  | batch :: rest =>
      check_batch model losser check_level model_devcie batch_count batch ;;
      if DEFAULT_CHECK_NUM_BATCH <=? batch_count + 1 then ret tt
      else check_loop model losser check_level model_devcie (batch_count + 1) rest
  end.

Definition _check_code (dataset : DataSet) (model : Module) (losser : Losser)
    (metrics : list Metric) (batch_size : Z) (dev_data : option DataSet)
    (check_level : Z) : M World unit :=
  (* check get_loss *)
  model_devcie <- lift (first_parameter_device model) ;;
  batch <- Batch dataset batch_size SequentialSampler ;;
  check_loop model losser check_level model_devcie 0 batch ;;
  match dev_data with
  | None => ret tt
  | Some _ =>
      tester <- Tester.__init__ env
                  (PDataSet (slice_to (batch_size * DEFAULT_CHECK_NUM_BATCH) dataset))
                  (PModule model) (PMetrics metrics) batch_size false (-1) ;;
      Tester.test env tester ;;
      ret tt
  end.

(** [setattr(self, k, v)] for a keyword argument: [_best_accuracy]
    is the one typed attribute a number given this way replaces;
    anything else is kept as an extra attribute. *)
Definition setattr_kwarg (k : string) (v : pyobj) (s : self) : self :=
  match v with
  | PInt z =>
      if String.eqb k "_best_accuracy" then set__best_accuracy z s
      else set_extra (<[k := v]> (extra s)) s
  | _ => set_extra (<[k := v]> (extra s)) s
  end.

Definition __init__ (train_data model : pyobj) (losser : option Losser)
    (metrics : pyobj) (n_epochs batch_size print_every validate_every : Z)
    (dev_data : option DataSet) (use_cuda : bool) (save_path : option string)
    (check_code_level : Z) (kwargs : gmap string pyobj) : M World self :=
  match train_data with
  | PDataSet train_data =>
    match model with
    | PModule model =>
      (* check metrics and dev_data *)
      if negb (truthy env metrics) && bool_decide (dev_data ≠ None)
      then raise ValueError else
      if truthy env metrics && bool_decide (dev_data = None)
      then raise ValueError else
      (* prepare evaluate *)
      metrics <- lift (_prepare_metrics env metrics) ;;
      (* prepare loss *)
      losser <- lift (_prepare_losser env losser) ;;
      (if -1 <? check_code_level
       then _check_code train_data model losser metrics DEFAULT_CHECK_BATCH_SIZE
                        dev_data check_code_level
       else ret tt) ;;
      device <- lift (first_parameter_device model) ;;
      tester <- match dev_data with
                | None => ret None
                | Some d =>
                    t <- Tester.__init__ env (PDataSet d) (PModule model)
                           (PMetrics metrics) batch_size use_cuda 0 ;;
                    ret (Some t)
                end ;;
      let s := {| train_data := train_data; dev_data := dev_data;
                  model := model; losser := losser; metrics := metrics;
                  n_epochs := n_epochs; batch_size := batch_size;
                  use_cuda := use_cuda; save_path := save_path;
                  print_every := print_every; validate_every := validate_every;
                  _best_accuracy := 0; _model_device := device;
                  tester := tester; extra := ∅; step := 0;
                  start_time := None; _summary_writer := None |} in
      ret (set_start_time None
             (set_step 0 (map_fold setattr_kwarg s kwargs)))
    | _ => raise TypeError
    end
  | _ => raise TypeError
  end.
End methods.
End Trainer.

(** ** Sample objects

    A small data set, model, loss and metrics, and one choice of the
    imported helpers, on which the statements below are run. *)
Module Sample.

Definition inst (a b : Z) : Instance :=
  {| ins_x := {[ "words" := a ]}; ins_y := {[ "label" := b ]} |}.

Definition data3 : DataSet := [inst 1 10; inst 2 20; inst 3 30].

(** [def forward(self, words)]; returns [{"pred": words}] *)
Definition fwd : Callable :=
  {| func_signature := "Net.forward(self, words)";
     declared := ["words"];
     body := fun _ kw => Ok (RDict {[ "pred" := default [] (kw !! "words") ]}) |}.

(** A forward that returns a tensor, not a dictionary. *)
Definition fwd_tensor : Callable :=
  {| func_signature := "Bad.forward(self, words)";
     declared := ["words"];
     body := fun _ _ => Ok RNonDict |}.

Definition net : Module :=
  {| forward := fwd; predict := NoAttr;
     named_parameters := [("weight", true, "cpu")] |}.

Definition bad_net : Module :=
  {| forward := fwd_tensor; predict := NoAttr;
     named_parameters := [("weight", true, "cpu")] |}.

(** A loss that is a scalar tensor. *)
Definition scalar_loss : Losser :=
  {| loss_signature := "Loss.get_loss(self, pred, label)";
     loss_call := fun _ _ _ => Ok (LTensor []) |}.

(** A loss that is a scalar tensor on batches of two rows and, on any
    other batch, a plain object with a [backward] method. *)
Definition pair_loss : Losser :=
  {| loss_signature := "PairLoss.get_loss(self, pred, label)";
     loss_call := fun _ pred _ =>
       if (length (default [] (pred !! "pred")) =? 2)%nat
       then Ok (LTensor []) else Ok (LObject true) |}.

(** A metric that reads its two iterators to the end and returns the
    sum of the predictions, plus [bonus]. *)
Definition sum_metric (name : string) (bonus : Z) : Metric :=
  {| metric_class := name;
     metric_call := fun output truths =>
       (Ok (foldr Z.add bonus (default [] (output !! "pred"))),
        ((fun _ => []) <$> output, (fun _ => []) <$> truths)) |}.

(** A metric that does not read its iterators and returns [v]. *)
Definition const_metric (name : string) (v : Z) : Metric :=
  {| metric_class := name;
     metric_call := fun output truths => (Ok v, (output, truths)) |}.

Definition env : Externals :=
  {| _prepare_metrics := fun o =>
       match o with
       | PNone => Ok []
       | PMetric m => Ok [m]
       | PMetrics l => Ok l
       | _ => Raise TypeError
       end;
     _prepare_losser := fun o =>
       match o with Some l => Ok l | None => Ok scalar_loss end;
     _check_forward_error := fun _ _ _ => Ok tt;
     _check_loss_evaluate := fun _ _ _ _ => Raise NameError;
     cuda_is_available := false;
     dataset_bool := fun d => match d with [] => false | _ => true end |}.

Definition world0 : World :=
  {| training := true; grad_enabled := true; on_cuda := false; updates := 0;
     rng := [5; 3; 8; 1; 4; 7; 2; 9; 6; 0]%nat; now := "2018-12-01-10-00-00" |}.

Definition tester (ms : list Metric) : Tester.self :=
  {| Tester.metrics := ms; Tester._predict_func := fwd; Tester.data := data3;
     Tester._model := net; Tester.use_cuda := false; Tester.batch_size := 2;
     Tester.verbose := 0; Tester._model_device := "cpu" |}.

Definition trainer (n ve : Z) (sp : option string) : Trainer.self :=
  {| Trainer.train_data := data3; Trainer.dev_data := Some data3;
     Trainer.model := net; Trainer.losser := scalar_loss;
     Trainer.metrics := [sum_metric "Acc" 0];
     Trainer.n_epochs := n; Trainer.batch_size := 2; Trainer.use_cuda := false;
     Trainer.save_path := sp; Trainer.print_every := -1;
     Trainer.validate_every := ve; Trainer._best_accuracy := 0;
     Trainer._model_device := "cpu";
     Trainer.tester := Some (tester [sum_metric "Acc" 0]);
     Trainer.extra := ∅; Trainer.step := 0; Trainer.start_time := None;
     Trainer._summary_writer := None |}.

(** A trainer as it is inside [train]: start time and writer set. *)
Definition running (n ve : Z) (sp : option string) : Trainer.TState :=
  {| Trainer.obj :=
       Trainer.set__summary_writer (Some Trainer.psudoSW)
         (Trainer.set_start_time (Some (now world0)) (trainer n ve sp));
     Trainer.world := world0 |}.

(** The two batches of [data3], of sizes two and one. *)
Definition batch0 : fields * fields :=
  ({[ "words" := [1; 2] ]}, {[ "label" := [10; 20] ]}).
Definition batch1 : fields * fields :=
  ({[ "words" := [3] ]}, {[ "label" := [30] ]}).

(** A trainer about to call [train]. *)
Definition fresh (n ve : Z) (sp : option string) : Trainer.TState :=
  {| Trainer.obj := trainer n ve sp; Trainer.world := world0 |}.

(** What [Tester.test] logs on [data3] with one metric of class
    ["Acc"], in batches of two. *)
Definition test_log3 : event :=
  ETest [EModeEval; EBatchIter SequentialSampler 2;
         EMove "cpu" {[ "words" := [1; 2] ]} {[ "label" := [10; 20] ]};
         ECall "Net.forward(self, words)" {[ "words" := [1; 2] ]} false false;
         EMove "cpu" {[ "words" := [3] ]} {[ "label" := [30] ]};
         ECall "Net.forward(self, words)" {[ "words" := [3] ]} false false;
         EMetric "Acc" {[ "pred" := [1; 2; 3] ]} {[ "label" := [10; 20; 30] ]};
         EPrint; EModeTrain].
End Sample.

(** ** Vocabulary of the statements *)

(** [l] written before the events of a run. *)
Definition prepend {S A} (l : list event) (r : Outcome A * S * list event)
  : Outcome A * S * list event :=
  (r.1, l ++ r.2).

(** What one batch writes to the log in [Tester.test]. *)
Definition test_batch_events (s : Tester.self) (w : World) (batch : fields * fields)
  : list event :=
  [EMove (Tester._model_device s) batch.1 batch.2;
   ECall (func_signature (Tester._predict_func s))
         (_build_args (Tester._predict_func s) batch.1)
         (training w) (grad_enabled w)].

(** The predictions of the batches: the dictionary the function returns
    on each. *)
Definition predicts (f : Callable) (w : World) (batches : list (fields * fields))
    (preds : list fields) : Prop :=
  Forall2 (fun b p => body f w (_build_args f b.1) = Ok (RDict p)) batches preds.



Definition metric_result (c : Metric * fields * fields) : Outcome Z :=
  (metric_call c.1.1 c.1.2 c.2).1.




(** The world in which [Tester.test] forwards the batches: the module in
    evaluation mode, gradients off. *)
Definition eval_world (w : World) : World :=
  set_grad_enabled false (set_training false w).

(** *** Reading a log *)

(** The batch iterators created: sampler and batch size. *)
Definition pass_of (e : event) : option (Sampler * Z) :=
  match e with EBatchIter sm bs => Some (sm, bs) | _ => None end.

(** The batches taken from an iterator (each is moved to the device
    first thing). *)
Definition batch_of (e : event) : option (fields * fields) :=
  match e with EMove _ batch_x batch_y => Some (batch_x, batch_y) | _ => None end.

(** The keyword arguments of the calls of the model. *)
Definition kwargs_of (e : event) : option fields :=
  match e with ECall _ kwargs _ _ => Some kwargs | _ => None end.


(** Between the two switches of mode: every call of the model is made in
    evaluation mode with gradients off, and the mode is not switched. *)
Definition in_eval_mode (e : event) : Prop :=
  match e with
  | ECall _ _ training grad => training = false ∧ grad = false
  | EModeEval | EModeTrain => False
  | _ => True
  end.

(** *** Validation *)

(** The score [best_eval_result] reads off the results of a validation:
    the one value when there is one, else the value under
    [self.eval_sort_key]. *)
Definition validation_score (s : Trainer.self) (res : gmap string Z) : option Z :=
  match map_to_list res with
  | [(_, v)] => Some v
  | _ =>
      match Trainer.extra s !! "eval_sort_key" with
      | Some (PStr key) => res !! key
      | _ => None
      end
  end.

Definition is_scalar (e : event) : Prop :=
  match e with EAddScalar _ _ => True | _ => False end.

(** The checkpoint written when a validation at start time [st] is the
    best so far. *)
Definition checkpoint (dir st : string) : event :=
  ESave (Trainer.path_join dir (String.append "best_model_" st)).

(** Work of the trainer between two validations: it may change the step
    counter and the world, nothing else. *)
Definition between_validations (ts ts1 : Trainer.TState) : Prop :=
  ∃ st, Trainer.obj ts1 = Trainer.set_step st (Trainer.obj ts).

(** A sequence of validations that return.  Each entry is the score of
    the validation (when its results have one) and what the call of
    [do_validation] logged. *)
Inductive validated (env : Externals)
  : Trainer.TState → list (option Z * list event) → Trainer.TState → Prop :=
| validated_nil ts : validated env ts [] ts
| validated_cons ts ts1 ts2 ts3 t res l rest :
    between_validations ts ts1 →
    Trainer.tester (Trainer.obj ts1) = Some t →
    outcome (Tester.test env t (Trainer.world ts1)) = Ok res →
    Trainer.do_validation env ts1 = (Ok tt, ts2, l) →
    validated env ts2 rest ts3 →
    validated env ts ((validation_score (Trainer.obj ts1) res, l) :: rest) ts3.

Definition is_save (e : event) : bool :=
  match e with ESave _ => true | _ => false end.

(** Whether each of a sequence of scores is above the best before it. *)
Fixpoint improvements (best : Z) (scores : list Z) : list bool :=
  match scores with
  | [] => []
  | a :: rest => (best <? a) :: improvements (Z.max best a) rest
  end.

(** *** One batch of training *)

(** What a batch of training writes to the log before anything else:
    move, forward, loss, zero the gradients and back-propagate, update. *)
Definition batch_core (device : string) (model : Module) (w : World)
    (batch : fields * fields) (pred : fields) : list event :=
  [EMove device batch.1 batch.2;
   ECall (func_signature (forward model)) (_build_args (forward model) batch.1)
         (training w) (grad_enabled w);
   ELoss pred batch.2;
   EZeroGrad; EBackward; EOptStep].

(** Summary scalars, printing and checkpoints. *)
Definition is_noise (e : event) : Prop :=
  match e with EAddScalar _ _ | EPrint | ESave _ => True | _ => False end.

(** Opening and closing the summary writer. *)
Definition is_writer (e : event) : Prop :=
  match e with EWriterOpen _ | EWriterClose => True | _ => False end.

(** Whether the batch at this step is followed by a validation. *)
Definition validates (validate_every step : Z) : bool :=
  (0 <? validate_every) && (step mod validate_every =? 0).

(** The log of a validation: the test, then scalars and maybe a
    checkpoint. *)
Definition validation_log (l : list event) : Prop :=
  ∃ sub noise, l = ETest sub :: noise ∧ Forall is_noise noise.

(** *** Epochs *)

(** The log of one epoch that starts at step counter [step]: for each
    batch in turn, its core, then scalars and printing, then a validation
    if the step counter calls for one. *)
Inductive epoch_log (device : string) (model : Module) (validate_every : Z)
  : Z → list (fields * fields) → list event → Prop :=
| epoch_log_nil step : epoch_log device model validate_every step [] []
| epoch_log_cons step batch batches w pred noise vl rest :
    body (forward model) w (_build_args (forward model) batch.1) = Ok (RDict pred) →
    Forall is_noise noise →
    (if validates validate_every step then validation_log vl else vl = []) →
    epoch_log device model validate_every (step + 1) batches rest →
    epoch_log device model validate_every step (batch :: batches)
              (batch_core device model w batch pred ++ noise ++ vl ++ rest).

(** The log of [n] epochs: each creates an iterator with the random
    sampler, goes through the batches of the training data in the order
    drawn, and ends with a validation when [end_validation] holds. *)
Inductive epochs_log (train_data : DataSet) (batch_size : Z) (device : string)
    (model : Module) (validate_every : Z) (end_validation : bool)
  : nat → Z → list event → Prop :=
| epochs_log_nil step :
    epochs_log train_data batch_size device model validate_every end_validation
               0 step []
| epochs_log_cons n step order l_epoch vl rest :
    order ≡ₚ train_data →
    epoch_log device model validate_every step (batches_of batch_size order) l_epoch →
    (if end_validation then validation_log vl else vl = []) →
    epochs_log train_data batch_size device model validate_every end_validation
               n (step + Z.of_nat (length (batches_of batch_size order))) rest →
    epochs_log train_data batch_size device model validate_every end_validation
               (S n) step
               (EBatchIter RandomSampler batch_size :: l_epoch ++ vl ++ rest).

(** Whether an epoch ends with a validation:
    [self.dev_data and self.validate_every <= 0]. *)
Definition validates_at_end (env : Externals) (s : Trainer.self) : bool :=
  match Trainer.dev_data s with
  | Some d => dataset_bool env d
  | None => false
  end && (Trainer.validate_every s <=? 0).

(** *** The steps of training *)

Inductive train_step : Type :=
| SMove (device : string) (batch_x batch_y : fields)
| SForward (kwargs : fields)
| SLoss (predict truth : fields)
| SZeroGrad
| SBackward
| SUpdate.

(** The steps of training in a log, in order; what happens inside a
    validation is not among them. *)
Definition step_of (e : event) : option train_step :=
  match e with
  | EMove device batch_x batch_y => Some (SMove device batch_x batch_y)
  | ECall _ kwargs _ _ => Some (SForward kwargs)
  | ELoss predict truth => Some (SLoss predict truth)
  | EZeroGrad => Some SZeroGrad
  | EBackward => Some SBackward
  | EOptStep => Some SUpdate
  | _ => None
  end.

(** The order the claim gives for one batch. *)
Definition batch_steps (device : string) (model : Module)
    (batch : fields * fields) (pred : fields) : list train_step :=
  [SMove device batch.1 batch.2;
   SForward (_build_args (forward model) batch.1);
   SLoss pred batch.2;
   SZeroGrad; SBackward; SUpdate].

(** *** The schedule of validations *)

Inductive tick : Type :=
| TEpoch        (* an epoch starts *)
| TBatch        (* a batch is trained on *)
| TValidate.    (* a validation runs *)

Definition tick_of (e : event) : option tick :=
  match e with
  | EBatchIter RandomSampler _ => Some TEpoch
  | EOptStep => Some TBatch
  | ETest _ => Some TValidate
  | _ => None
  end.



(** *** Code that only logs *)

(** A computation that leaves the world as it is and logs only events
    that satisfy [P]. *)
Definition only_logs {A} (P : event → Prop) (m : M World A) : Prop :=
  ∀ w, ∃ o l, m w = (o, w, l) ∧ Forall P l.

(** An event of the check of a batch, after the move to the device. *)
Definition is_check (e : event) : Prop :=
  match e with
  | ECall _ _ _ _ | ELoss _ _ | EBackward | EZeroGrad => True
  | _ => False
  end.

(** The losses computed: prediction and truth. *)
Definition loss_of (e : event) : option (fields * fields) :=
  match e with ELoss predict truth => Some (predict, truth) | _ => None end.

(** ** Vocabulary of the further properties *)

(** A method of the trainer seen from outside, whatever its outcome:
    from an object that satisfies [I] it leaves one that does, it logs
    only events that satisfy [P], and a value it returns satisfies [Q]. *)
Definition triple {A} (I : Trainer.self → Prop) (P : event → Prop)
    (m : M Trainer.TState A) (Q : A → Prop) : Prop :=
  ∀ ts, I (Trainer.obj ts) →
    I (Trainer.obj (state (m ts)))
    ∧ Forall P (log (m ts))
    ∧ ∀ a, outcome (m ts) = Ok a → Q a.

(** What the loop of [train] may have done to the object [s0]: moved the
    step counter and, when there is a save path, the best score. *)
Definition advanced (s0 s : Trainer.self) : Prop :=
  ∃ best st,
    s = Trainer.set_step st (Trainer.set__best_accuracy best s0)
    ∧ (Trainer.save_path s0 = None → best = Trainer._best_accuracy s0).

(** What the loop of [train] may log on the object [s0]: a summary
    scalar only with a tensorboard writer, a checkpoint only at
    [save_path/best_model_<start time>], a test only with a tester, and
    the writer is neither opened nor closed. *)
Definition train_event (s0 : Trainer.self) (e : event) : Prop :=
  match e with
  | EAddScalar _ _ => ∃ p, Trainer._summary_writer s0 = Some (Trainer.SummaryWriter p)
  | ESave p =>
      ∃ dir st, Trainer.save_path s0 = Some dir ∧ Trainer.start_time s0 = Some st
                ∧ p = Trainer.path_join dir (String.append "best_model_" st)
  | ETest _ => ∃ t, Trainer.tester s0 = Some t
  | EWriterOpen _ | EWriterClose => False
  | _ => True
  end.

(** The summary writer [train] creates at time [t], and what creating
    and closing it logs. *)
Definition writer_of (s : Trainer.self) (t : string) : Trainer.writer :=
  match Trainer.save_path s with
  | None => Trainer.psudoSW
  | Some dir =>
      Trainer.SummaryWriter
        (Trainer.path_join dir (String.append "tensorboard_logs_" t))
  end.

Definition writer_opened (s : Trainer.self) (t : string) : list event :=
  match Trainer.save_path s with
  | None => []
  | Some dir =>
      [EWriterOpen (Trainer.path_join dir (String.append "tensorboard_logs_" t))]
  end.

Definition writer_closed (s : Trainer.self) : list event :=
  match Trainer.save_path s with
  | None => []
  | Some _ => [EWriterClose]
  end.

(** The trainer object when the loop of [train] starts at time [t]. *)
Definition started (s : Trainer.self) (t : string) : Trainer.self :=
  Trainer.set__summary_writer (Some (writer_of s t))
    (Trainer.set_start_time (Some t) s).

(** The state in which the loop of [train] starts: the module in
    training mode, on the GPU when asked for and there is one. *)
Definition train_start (env : Externals) (ts : Trainer.TState) : Trainer.TState :=
  {| Trainer.obj := started (Trainer.obj ts) (now (Trainer.world ts));
     Trainer.world :=
       set_training true
         (if cuda_is_available env && Trainer.use_cuda (Trainer.obj ts)
          then set_on_cuda true (Trainer.world ts)
          else Trainer.world ts) |}.

(** Events that write outside the process: summary scalars, checkpoints
    and the life of the summary writer. *)
Definition writes_nothing (e : event) : Prop :=
  match e with
  | EAddScalar _ _ | ESave _ | EWriterOpen _ | EWriterClose => False
  | _ => True
  end.


(** *** More sample objects *)

(** The trainer that [Trainer(data3, net, n_epochs=n,
    validate_every=ve, save_path=sp, check_code_level=-1,
    eval_sort_key="Acc")] constructs, with batch size 2. *)
Definition constructed (n ve : Z) (sp : option string) : Trainer.self :=
  {| Trainer.train_data := Sample.data3; Trainer.dev_data := None;
     Trainer.model := Sample.net; Trainer.losser := Sample.scalar_loss;
     Trainer.metrics := [];
     Trainer.n_epochs := n; Trainer.batch_size := 2; Trainer.use_cuda := false;
     Trainer.save_path := sp; Trainer.print_every := -1;
     Trainer.validate_every := ve; Trainer._best_accuracy := 0;
     Trainer._model_device := "cpu"; Trainer.tester := None;
     Trainer.extra := {[ "eval_sort_key" := PStr "Acc" ]};
     Trainer.step := 0; Trainer.start_time := None;
     Trainer._summary_writer := None |}.

(** A module without parameters. *)
Definition bare_net : Module :=
  {| forward := Sample.fwd; predict := NoAttr; named_parameters := [] |}.


(** A tester whose function returns a tensor, not a dictionary. *)
Definition bad_tester : Tester.self :=
  {| Tester.metrics := [Sample.sum_metric "Acc" 0];
     Tester._predict_func := Sample.fwd_tensor; Tester.data := Sample.data3;
     Tester._model := Sample.bad_net; Tester.use_cuda := false;
     Tester.batch_size := 2; Tester.verbose := 0; Tester._model_device := "cpu" |}.

(** What the check before training may log: a sequential iterator, the
    moves of batches, calls of the model and of the loss, backward passes
    and the zeroing of gradients. *)
Definition is_check_event (e : event) : Prop :=
  match e with
  | EBatchIter SequentialSampler _ | EMove _ _ _ | ECall _ _ _ _ | ELoss _ _
  | EBackward | EZeroGrad => True
  | _ => False
  end.

(** A trainer inside [train], with a save path, whose tester has two
    metrics of different classes. *)
Definition running_two_metrics : Trainer.TState :=
  let s := Trainer.obj (Sample.running 1 (-1) (Some "./save")) in
  let ms := [Sample.sum_metric "Acc" 0; Sample.const_metric "F1" 7] in
  {| Trainer.obj :=
       {| Trainer.train_data := Trainer.train_data s;
          Trainer.dev_data := Trainer.dev_data s;
          Trainer.model := Trainer.model s; Trainer.losser := Trainer.losser s;
          Trainer.metrics := ms;
          Trainer.n_epochs := Trainer.n_epochs s;
          Trainer.batch_size := Trainer.batch_size s;
          Trainer.use_cuda := Trainer.use_cuda s;
          Trainer.save_path := Trainer.save_path s;
          Trainer.print_every := Trainer.print_every s;
          Trainer.validate_every := Trainer.validate_every s;
          Trainer._best_accuracy := Trainer._best_accuracy s;
          Trainer._model_device := Trainer._model_device s;
          Trainer.tester := Some (Sample.tester ms);
          Trainer.extra := Trainer.extra s; Trainer.step := Trainer.step s;
          Trainer.start_time := Trainer.start_time s;
          Trainer._summary_writer := Trainer._summary_writer s |};
     Trainer.world := Sample.world0 |}.

(** A method of the trainer that logs only events that satisfy [P] when
    it starts in a state that satisfies [I], and leaves such a state when
    it returns. *)
Definition safe {A} (I : Trainer.TState → Prop) (P : event → Prop)
    (m : M Trainer.TState A) : Prop :=
  ∀ ts, I ts →
    Forall P (log (m ts))
    ∧ ∀ a, outcome (m ts) = Ok a → I (state (m ts)).

(** The module is in training mode and the gradient switch is [g]. *)
Definition training_with (g : bool) (w : World) : Prop :=
  training w = true ∧ grad_enabled w = g.

(** A call of the model made in training mode with gradient switch [g];
    the calls inside a test are not looked at. *)
Definition call_in_training (g : bool) (e : event) : Prop :=
  match e with
  | ECall _ _ tr gr => tr = true ∧ gr = g
  | _ => True
  end.

Definition in_training (g : bool) (ts : Trainer.TState) : Prop :=
  training_with g (Trainer.world ts).

(** * Properties *)

(** ** Running the monad *)

Section monad_facts.
Context {S : Type}.
Implicit Types s : S.

Lemma prepend_nil {A} (r : Outcome A * S * list event) : prepend [] r = r.
Proof. by destruct r as [[??]?]. Qed.

Lemma prepend_prepend {A} l1 l2 (r : Outcome A * S * list event) :
  prepend l1 (prepend l2 r) = prepend (l1 ++ l2) r.
Proof. destruct r as [[??]?]. unfold prepend. simpl. by rewrite app_assoc. Qed.

Lemma prepend_Ok {A} l (r : Outcome A * S * list event) a s' l' :
  prepend l r = (Ok a, s', l') → ∃ l2, r = (Ok a, s', l2) ∧ l' = l ++ l2.
Proof. destruct r as [[??]?]. unfold prepend. simpl. intros [= -> -> <-]. eauto. Qed.

Lemma outcome_prepend {A} l (r : Outcome A * S * list event) :
  outcome (prepend l r) = outcome r.
Proof. by destruct r as [[??]?]. Qed.

Lemma state_prepend {A} l (r : Outcome A * S * list event) :
  state (prepend l r) = state r.
Proof. by destruct r as [[??]?]. Qed.

Lemma log_prepend {A} l (r : Outcome A * S * list event) :
  log (prepend l r) = l ++ log r.
Proof. by destruct r as [[??]?]. Qed.

Lemma bind_ret {A B} (a : A) (k : A → M S B) s : bind (ret a) k s = k a s.
Proof. unfold bind, ret. by destruct (k a s) as [[??]?]. Qed.

Lemma bind_gets {A B} (f : S → A) (k : A → M S B) s :
  bind (gets f) k s = k (f s) s.
Proof. unfold bind, gets. by destruct (k (f s) s) as [[??]?]. Qed.

Lemma bind_get {B} (k : S → M S B) s : bind get k s = k s s.
Proof. unfold bind, get. by destruct (k s s) as [[??]?]. Qed.

Lemma bind_modify {B} (f : S → S) (k : unit → M S B) s :
  bind (modify f) k s = k tt (f s).
Proof. unfold bind, modify. by destruct (k tt (f s)) as [[??]?]. Qed.

Lemma bind_emit {B} (e : event) (k : unit → M S B) s :
  bind (emit e) k s = prepend [e] (k tt s).
Proof. unfold bind, emit, prepend. by destruct (k tt s) as [[??]?]. Qed.

Lemma bind_raise {A B} (e : exn) (k : A → M S B) s :
  bind (raise e) k s = (Raise e, s, []).
Proof. reflexivity. Qed.

Lemma bind_lift {A B} (o : Outcome A) (k : A → M S B) s :
  bind (lift o) k s =
  match o with
  | Ok a => k a s
  | Raise e => (Raise e, s, [])
  | OutOfFuel => (OutOfFuel, s, [])
  end.
Proof. unfold bind, lift. destruct o; try done. by destruct (k a s) as [[??]?]. Qed.

Lemma bind_bind {A B C} (m : M S A) (k : A → M S B) (h : B → M S C) s :
  bind (bind m k) h s = bind m (fun a => bind (k a) h) s.
Proof.
  unfold bind. destruct (m s) as [[[a| |] s1] l1]; try done.
  destruct (k a s1) as [[[b| |] s2] l2]; try done.
  destruct (h b s2) as [[o s3] l3]. by rewrite app_assoc.
Qed.

Lemma bind_Ok {A B} (m : M S A) (k : A → M S B) s b s' l :
  bind m k s = (Ok b, s', l) →
  ∃ a s1 l1 l2, m s = (Ok a, s1, l1) ∧ k a s1 = (Ok b, s', l2) ∧ l = l1 ++ l2.
Proof.
  unfold bind. destruct (m s) as [[[a| |] s1] l1]; try done.
  destruct (k a s1) as [[o s2] l2] eqn:Hk. intros [= -> -> <-].
  by exists a, s1, l1, l2.
Qed.

Lemma bind_run {A B} (m : M S A) (k : A → M S B) s a s1 l1 :
  m s = (Ok a, s1, l1) → bind m k s = prepend l1 (k a s1).
Proof. unfold bind, prepend. intros ->. by destruct (k a s1) as [[??]?]. Qed.

Lemma bind_fail {A B} (m : M S A) (k : A → M S B) s o s1 l1 :
  m s = (o, s1, l1) → is_Ok o = false →
  ∃ o', bind m k s = (o', s1, l1) ∧ is_Ok o' = false.
Proof. unfold bind. intros -> Ho. destruct o; try done; eauto. Qed.
End monad_facts.

Lemma liftW_bind {A B} (m : M World A) (k : A → M World B) ts :
  Trainer.liftW (bind m k) ts = bind (Trainer.liftW m) (fun a => Trainer.liftW (k a)) ts.
Proof.
  unfold Trainer.liftW, bind. simpl.
  destruct (m (Trainer.world ts)) as [[[a| |] w1] l1]; try done. simpl.
  by destruct (k a w1) as [[o w2] l2].
Qed.

Lemma liftW_emit e ts : Trainer.liftW (emit e) ts = emit e ts.
Proof. by destruct ts. Qed.

(** ** Signature matching *)

Lemma _build_args_lookup (func : Callable) (x : fields) k v :
  _build_args func x !! k = Some v ↔ x !! k = Some v ∧ k ∈ declared func.
Proof. unfold _build_args. by rewrite map_lookup_filter_Some. Qed.

(** C1. [Trainer.data_forward] and [Tester._data_forward] call the function
    once, with exactly those named values of the batch whose names the
    function declares as parameters: a value reaches the call if and only
    if it is in the batch under a declared name.  (With [_build_args] as
    the specification describes it.) *)
Theorem C1_forward_receives_declared_fields
    (network : Module) (func : Callable) (x : fields)
    (ts : Trainer.TState) (w : World) :
  (∃ kwargs,
      log (Trainer.data_forward network x ts) =
        [ECall (func_signature (forward network)) kwargs
               (training (Trainer.world ts)) (grad_enabled (Trainer.world ts))]
      ∧ (∀ k v, kwargs !! k = Some v ↔ x !! k = Some v ∧ k ∈ declared (forward network))
      ∧ match body (forward network) (Trainer.world ts) kwargs with
        | Ok (RDict y) => outcome (Trainer.data_forward network x ts) = Ok y
        | Ok RNonDict => outcome (Trainer.data_forward network x ts) = Raise TypeError
        | Raise e => outcome (Trainer.data_forward network x ts) = Raise e
        | OutOfFuel => outcome (Trainer.data_forward network x ts) = OutOfFuel
        end)
  ∧ (∃ kwargs,
      log (Tester._data_forward func x w) =
        [ECall (func_signature func) kwargs (training w) (grad_enabled w)]
      ∧ (∀ k v, kwargs !! k = Some v ↔ x !! k = Some v ∧ k ∈ declared func)
      ∧ outcome (Tester._data_forward func x w) = body func w kwargs).
Proof.
  split.
  - exists (_build_args (forward network) x). split; [|split].
    + unfold Trainer.data_forward, call, Trainer.liftW, bind, emit, get, lift. simpl.
      by destruct (body _ _ _) as [[]| |].
    + apply _build_args_lookup.
    + unfold Trainer.data_forward, call, Trainer.liftW, bind, emit, get, lift. simpl.
      by destruct (body _ _ _) as [[]| |].
  - exists (_build_args func x). split; [|split].
    + unfold Tester._data_forward, call, bind, emit, get, lift. simpl.
      by destruct (body _ _ _) as [| |].
    + apply _build_args_lookup.
    + unfold Tester._data_forward, call, bind, emit, get, lift. simpl.
      by destruct (body _ _ _) as [| |].
Qed.

(** *** World computations inside a method of the trainer *)

Lemma bind_liftW_emit {B} e (k : unit → M Trainer.TState B) ts :
  bind (Trainer.liftW (emit e)) k ts = prepend [e] (k tt ts).
Proof.
  unfold bind, Trainer.liftW, emit, prepend. destruct ts as [s w]. simpl.
  by destruct (k tt _) as [[??]?].
Qed.

Lemma bind_liftW_bind {A B C} (m : M World A) (f : A → M World B)
    (k : B → M Trainer.TState C) ts :
  bind (Trainer.liftW (bind m f)) k ts
  = bind (Trainer.liftW m) (fun a => bind (Trainer.liftW (f a)) k) ts.
Proof.
  unfold bind, Trainer.liftW. simpl.
  destruct (m (Trainer.world ts)) as [[[a| |] w1] l1]; try done. simpl.
  destruct (f a w1) as [[[b| |] w2] l2]; try done.
  destruct (k b _) as [[o ts3] l3]. by rewrite app_assoc.
Qed.

Lemma bind_liftW_get {B} (k : World → M Trainer.TState B) ts :
  bind (Trainer.liftW get) k ts = k (Trainer.world ts) ts.
Proof.
  unfold bind, Trainer.liftW, get. destruct ts as [s w]. simpl.
  by destruct (k w _) as [[??]?].
Qed.

Lemma bind_liftW_modify {B} (f : World → World) (k : unit → M Trainer.TState B) ts :
  bind (Trainer.liftW (modify f)) k ts
  = k tt {| Trainer.obj := Trainer.obj ts; Trainer.world := f (Trainer.world ts) |}.
Proof.
  unfold bind, Trainer.liftW, modify. simpl. by destruct (k tt _) as [[??]?].
Qed.

Lemma bind_liftW_lift {A B} (o : Outcome A) (k : A → M Trainer.TState B) ts :
  bind (Trainer.liftW (lift o)) k ts = bind (lift o) k ts.
Proof. unfold bind, Trainer.liftW, lift. destruct ts as [s w]. by destruct o. Qed.

(** Straight-line code is run by rewriting at the head of the program. *)
Ltac mstep :=
  first [ rewrite bind_bind | rewrite bind_ret | rewrite bind_get
        | rewrite bind_gets | rewrite bind_modify | rewrite bind_emit
        | rewrite bind_raise | rewrite bind_lift
        | rewrite bind_liftW_emit | rewrite bind_liftW_bind
        | rewrite bind_liftW_get | rewrite bind_liftW_modify
        | rewrite bind_liftW_lift
        | rewrite liftW_bind | rewrite liftW_emit ];
  cbv beta.
Ltac mrun := repeat mstep.
Ltac mstep_in H :=
  first [ rewrite bind_bind in H | rewrite bind_ret in H | rewrite bind_get in H
        | rewrite bind_gets in H | rewrite bind_modify in H | rewrite bind_emit in H
        | rewrite bind_raise in H | rewrite bind_lift in H
        | rewrite bind_liftW_emit in H | rewrite bind_liftW_bind in H
        | rewrite bind_liftW_get in H | rewrite bind_liftW_modify in H
        | rewrite bind_liftW_lift in H
        | rewrite liftW_bind in H | rewrite liftW_emit in H ];
  cbv beta in H.
Ltac mrun_in H := repeat mstep_in H.

(** ** Construction of a Tester *)

Lemma Tester_init_reads_unset_model (env : Externals) (data model metrics : pyobj)
    (batch_size : Z) (use_cuda : bool) (verbose : Z) (w : World) ms :
  is_DataSet data = true →
  is_Module model = true →
  _prepare_metrics env metrics = Ok ms →
  Tester.__init__ env data model metrics batch_size use_cuda verbose w
  = (Raise AttributeError, w, []).
Proof.
  intros Hd Hm Hms. unfold Tester.__init__. rewrite Hd, Hm. simpl.
  rewrite bind_lift, Hms.
  unfold getattr at 1. rewrite lookup_insert_ne by done. rewrite lookup_empty.
  by rewrite bind_raise.
Qed.

Lemma Tester_init_never_Ok (env : Externals) (data model metrics : pyobj)
    (batch_size : Z) (use_cuda : bool) (verbose : Z) (w : World) :
  is_Ok (outcome (Tester.__init__ env data model metrics batch_size use_cuda verbose w))
  = false.
Proof.
  unfold Tester.__init__.
  destruct (is_DataSet data) eqn:Hd; [|done].
  destruct (is_Module model) eqn:Hm; [|done]. simpl.
  rewrite bind_lift.
  by destruct (_prepare_metrics env metrics) as [ms| |] eqn:Hms.
Qed.

(** C3. With a DataSet, a Module and metrics that [_prepare_metrics]
    accepts, [Tester.__init__] raises [AttributeError]: it reads
    [self._model] when only [self.metrics] is assigned.  Whatever the
    arguments, the constructor does not return. *)
Theorem C3_Tester_init_raises_AttributeError (env : Externals)
    (data model metrics : pyobj) (batch_size : Z) (use_cuda : bool) (verbose : Z)
    (w : World) (ms : list Metric) :
  is_DataSet data = true →
  is_Module model = true →
  _prepare_metrics env metrics = Ok ms →
  Tester.__init__ env data model metrics batch_size use_cuda verbose w
    = (Raise AttributeError, w, [])
  ∧ ∀ data' model' metrics' batch_size' use_cuda' verbose' w',
      is_Ok (outcome (Tester.__init__ env data' model' metrics' batch_size'
                                      use_cuda' verbose' w')) = false.
Proof.
  intros Hd Hm Hms. split.
  - by eapply Tester_init_reads_unset_model.
  - intros. apply Tester_init_never_Ok.
Qed.

Lemma C3_Tester_init_raises_AttributeError_witness :
  Tester.__init__ Sample.env (PDataSet Sample.data3) (PModule Sample.net)
                  (PMetrics [Sample.sum_metric "Acc" 0]) 16 false 0 Sample.world0
    = (Raise AttributeError, Sample.world0, [])
  ∧ ∀ data' model' metrics' batch_size' use_cuda' verbose' w',
      is_Ok (outcome (Tester.__init__ Sample.env data' model' metrics' batch_size'
                                      use_cuda' verbose' w')) = false.
Proof.
  apply (C3_Tester_init_raises_AttributeError Sample.env (PDataSet Sample.data3)
           (PModule Sample.net) (PMetrics [Sample.sum_metric "Acc" 0]) 16 false 0
           Sample.world0 [Sample.sum_metric "Acc" 0]); reflexivity.
Defined.

(** ** Construction of a Trainer *)

(** C9, as amended.  When [train_data] is a DataSet and [model] a Module,
    [Trainer.__init__] raises [ValueError], before anything else happens,
    if exactly one of [metrics] (non-empty) and [dev_data] (not None) is
    given. *)
Theorem C9_Trainer_init_metrics_dev_data (env : Externals)
    (train_data model : pyobj) (losser : option Losser) (metrics : pyobj)
    (n_epochs batch_size print_every validate_every : Z)
    (dev_data : option DataSet) (use_cuda : bool) (save_path : option string)
    (check_code_level : Z) (kwargs : gmap string pyobj) (w : World) :
  is_DataSet train_data = true →
  is_Module model = true →
  truthy env metrics ≠ bool_decide (dev_data ≠ None) →
  Trainer.__init__ env train_data model losser metrics n_epochs batch_size
                   print_every validate_every dev_data use_cuda save_path
                   check_code_level kwargs w
  = (Raise ValueError, w, []).
Proof.
  intros Hd Hm Hx. unfold Trainer.__init__.
  destruct train_data; try done. destruct model; try done.
  destruct (truthy env metrics), dev_data; simpl in *; try done.
Qed.

Lemma C9_Trainer_init_metrics_dev_data_witness :
  Trainer.__init__ Sample.env (PDataSet Sample.data3) (PModule Sample.net) None
                   (PMetrics [Sample.sum_metric "Acc" 0]) 3 32 (-1) (-1) None false
                   (Some "./save") 0 ∅ Sample.world0
  = (Raise ValueError, Sample.world0, []).
Proof.
  apply (C9_Trainer_init_metrics_dev_data Sample.env (PDataSet Sample.data3)
           (PModule Sample.net) None (PMetrics [Sample.sum_metric "Acc" 0])
           3 32 (-1) (-1) None false (Some "./save") 0 ∅ Sample.world0);
    [reflexivity | reflexivity | simpl; discriminate].
Defined.

(** C9 as first stated fails: with [metrics] given and no [dev_data], a
    [train_data] that is not a DataSet makes the constructor raise
    [TypeError], since the type tests come first. *)
Lemma C9_counterexample :
  ¬ (∀ (train_data model : pyobj) (metrics : pyobj) (dev_data : option DataSet),
       truthy Sample.env metrics ≠ bool_decide (dev_data ≠ None) →
       outcome (Trainer.__init__ Sample.env train_data model None metrics
                  3 32 (-1) (-1) dev_data false (Some "./save") 0 ∅ Sample.world0)
       = Raise ValueError).
Proof.
  intros H.
  specialize (H PNone (PModule Sample.net) (PMetrics [Sample.sum_metric "Acc" 0]) None).
  simpl in H. discriminate H. discriminate.
Qed.

(** ** The evaluation pass *)

Lemma test_batch_run (s : Tester.self) acc batch w :
  ∃ o, Tester.test_batch s acc batch w = (o, w, test_batch_events s w batch)
       ∧ match body (Tester._predict_func s) w
                     (_build_args (Tester._predict_func s) batch.1) with
         | Ok (RDict p) =>
             o = Ok (Tester.append_items acc.1 p, Tester.append_items acc.2 batch.2)
         | _ => is_Ok o = false
         end.
Proof.
  destruct acc as [output truths], batch as [bx b_y].
  unfold Tester.test_batch, test_batch_events, _move_dict_value_to_device,
    Tester._data_forward, call. simpl.
  mrun. destruct (body _ _ _) as [[p|]| |]; mrun; simpl; eauto.
Qed.

Lemma test_batches_Ok (s : Tester.self) batches : ∀ acc w acc' w' l,
  foldM (Tester.test_batch s) acc batches w = (Ok acc', w', l) →
  w' = w
  ∧ l = flat_map (test_batch_events s w) batches
  ∧ ∃ preds, predicts (Tester._predict_func s) w batches preds
      ∧ acc' = (foldl Tester.append_items acc.1 preds,
                foldl Tester.append_items acc.2 (snd <$> batches)).
Proof.
  induction batches as [|b batches IH]; intros acc w acc' w' l H.
  - injection H as <- <- <-. repeat split. exists []. split; [constructor|].
    by destruct acc.
  - simpl in H. apply bind_Ok in H as (a & w1 & l1 & l2 & Hb & Hrest & ->).
    destruct (test_batch_run s acc b w) as (o & Hrun & Hbody).
    rewrite Hrun in Hb. injection Hb as -> <- <-.
    destruct (body _ _ _) as [[p|]| |] eqn:Hp; try done.
    injection Hbody as ->.
    apply IH in Hrest as (-> & -> & preds & Hpreds & ->).
    repeat split. exists (p :: preds). split; [by constructor|done].
Qed.

(** The events of a failed or finished loop over the batches are moves
    and calls made with the mode and gradient switch of the world it ran
    in, which it leaves as it was. *)
Lemma test_batches_any (s : Tester.self) batches : ∀ acc w o w' l,
  foldM (Tester.test_batch s) acc batches w = (o, w', l) →
  w' = w ∧ ∃ n, l = flat_map (test_batch_events s w) (take n batches).
Proof.
  induction batches as [|b batches IH]; intros acc w o w' l H.
  - injection H as <- <- <-. split; [done|]. by exists 0%nat.
  - simpl in H. destruct (test_batch_run s acc b w) as (o1 & Hrun & _).
    unfold bind in H. rewrite Hrun in H. destruct o1 as [a| |].
    + destruct (foldM _ a batches w) as [[o2 w2] l2] eqn:Hrest.
      injection H as <- <- <-.
      apply IH in Hrest as (-> & n & ->). split; [done|]. by exists (S n).
    + injection H as <- <- <-. split; [done|]. by exists 1%nat.
    + injection H as <- <- <-. split; [done|]. by exists 1%nat.
Qed.

(** *** Accumulation per field *)




(** *** The metrics *)


Lemma apply_metrics_world (ms : list Metric) : ∀ er o t w out w' l,
  Tester.apply_metrics ms er o t w = (out, w', l) → w' = w.
Proof.
  induction ms as [|m ms IH]; intros er o t w out w' l H; simpl in H.
  - by injection H as <- <- <-.
  - rewrite bind_emit in H.
    destruct (metric_call m o t) as [[r| e |] [o' t']]; simpl in H.
    + destruct (Tester.apply_metrics ms _ o' t' w) as [[out2 w2] l2] eqn:Hrest.
      apply IH in Hrest as ->. by injection H as <- <- <-.
    + destruct (is_CheckError e); by injection H as <- <- <-.
    + by injection H as <- <- <-.
Qed.





(** *** The whole of [test] *)

Lemma no_grad_run {A} (body : M World A) (w : World) :
  Tester.no_grad body w =
  match body (set_grad_enabled false w) with
  | (o, w1, l) => (o, set_grad_enabled (grad_enabled w) w1, l)
  end.
Proof.
  unfold Tester.no_grad. mrun. unfold try_finally, modify.
  destruct (body _) as [[o w1] l]. by rewrite app_nil_r.
Qed.

Lemma mode_switch_back (w : World) :
  set_training true
    (set_grad_enabled (grad_enabled (set_training false w))
       (set_grad_enabled false (set_training false w)))
  = set_training true w.
Proof. by destruct w. Qed.

(** The world in which the batches are forwarded by [test]. *)
Lemma eval_world_flags (w : World) :
  training (set_grad_enabled false (set_training false w)) = false
  ∧ grad_enabled (set_grad_enabled false (set_training false w)) = false.
Proof. done. Qed.

Lemma test_body_Ok (env : Externals) (s : Tester.self) w res w' l :
  Tester.test_body env s w = (Ok res, w', l) →
  let batches := batches_of (Tester.batch_size s) (Tester.data s) in
  ∃ preds caught rest lm tail,
    predicts (Tester._predict_func s) (eval_world w) batches preds
    ∧ Tester.apply_metrics (Tester.metrics s) ∅
        (Tester.chain_all (foldl Tester.append_items ∅ preds))
        (Tester.chain_all (foldl Tester.append_items ∅ (snd <$> batches)))
        (set_training false w)
      = (Ok (res, caught, rest), set_training false w, lm)
    ∧ tail = (if 0 <=? Tester.verbose s then [EPrint] else [])
    ∧ l = EModeEval :: EBatchIter SequentialSampler (Tester.batch_size s)
            :: flat_map (test_batch_events s (eval_world w)) batches
            ++ lm ++ tail ++ [EModeTrain]
    ∧ w' = set_training true w.
Proof.
  intros H batches. unfold Tester.test_body, Tester._mode, Batch in H.
  mrun_in H. fold batches in H.
  apply prepend_Ok in H as (l1 & H & ->).
  apply prepend_Ok in H as (l2 & H & ->).
  apply bind_Ok in H as (r & w1 & l3 & l4 & Hpass & H & ->).
  rewrite no_grad_run in Hpass.
  destruct (bind _ _ (set_grad_enabled false (set_training false w)))
    as [[o w2] l5] eqn:Hloop.
  injection Hpass as -> <- <-.
  apply bind_Ok in Hloop as (acc & w3 & l6 & l7 & Hloop & Hret & ->).
  apply test_batches_Ok in Hloop as (-> & -> & preds & Hpreds & ->).
  simpl in Hret. injection Hret as <- <- <-.
  apply bind_Ok in H as (r & w4 & lm & l8 & Hm & H & ->).
  pose proof (apply_metrics_world _ _ _ _ _ _ _ _ Hm) as ->.
  destruct r as [[er caught] [o' t']].
  apply bind_Ok in H as ([] & w5 & l9 & l10 & Hcatch & H & ->).
  assert (w5 = set_grad_enabled (grad_enabled (set_training false w))
                 (set_grad_enabled false (set_training false w)) ∧ l9 = [])
    as [-> ->].
  { destruct caught as [e|]; [|by injection Hcatch as <- <-].
    unfold lift in Hcatch. by injection Hcatch as _ <- <-. }
  apply bind_Ok in H as ([] & w6 & tail & l11 & Hprint & H & ->).
  assert (w6 = set_grad_enabled (grad_enabled (set_training false w))
                 (set_grad_enabled false (set_training false w))
          ∧ tail = (if 0 <=? Tester.verbose s then [EPrint] else []))
    as [-> ->].
  { destruct (0 <=? Tester.verbose s); by injection Hprint as <- <-. }
  mrun_in H. apply prepend_Ok in H as (l12 & H & ->).
  injection H as <- <- <-.
  exists preds, caught, (o', t'), lm, (if 0 <=? Tester.verbose s then [EPrint] else []).
  split; [done|]. split.
  { replace (set_training false w)
      with (set_grad_enabled (grad_enabled (set_training false w))
              (set_grad_enabled false (set_training false w))) at 1 3
      by by destruct w.
    exact Hm. }
  split; [done|]. split.
  - simpl. by rewrite app_nil_r.
  - by destruct w.
Qed.

Lemma test_batches_predicts (s : Tester.self) w batches : ∀ preds acc,
  predicts (Tester._predict_func s) w batches preds →
  foldM (Tester.test_batch s) acc batches w =
  (Ok (foldl Tester.append_items acc.1 preds,
       foldl Tester.append_items acc.2 (snd <$> batches)),
   w, flat_map (test_batch_events s w) batches).
Proof.
  induction batches as [|b batches IH]; intros preds acc Hp.
  - inversion Hp; subst. by destruct acc.
  - inversion Hp as [|? p ? preds' Hb Hrest]; subst.
    destruct (test_batch_run s acc b w) as (o & Hrun & Hbody).
    rewrite Hb in Hbody. subst o.
    simpl foldM. rewrite (bind_run _ _ _ _ _ _ Hrun).
    by rewrite (IH preds' _ Hrest).
Qed.


Lemma omap_test_batch_events {A} (f : event → option A) s w batches :
  omap f (flat_map (test_batch_events s w) batches) =
  flat_map (fun b => omap f (test_batch_events s w b)) batches.
Proof.
  induction batches as [|b batches IH]; [done|].
  change (flat_map (test_batch_events s w) (b :: batches))
    with (test_batch_events s w b ++ flat_map (test_batch_events s w) batches).
  rewrite omap_app, IH. done.
Qed.

Lemma omap_None {A B} (f : A → option B) (l : list A) :
  (∀ x, x ∈ l → f x = None) → omap f l = [].
Proof.
  induction l as [|x l IH]; intros H; [done|].
  simpl. rewrite (H x) by left. apply IH. intros y Hy. apply H. by right.
Qed.



Lemma flat_map_singleton {A B} (f : A → B) (l : list A) :
  flat_map (fun x => [f x]) l = f <$> l.
Proof. induction l as [|x l IH]; [done|]. simpl. by rewrite IH. Qed.

Lemma flat_map_nil {A B} (l : list A) :
  flat_map (fun _ => @nil B) l = [].
Proof. by induction l. Qed.



Lemma apply_metrics_log (ms : list Metric) : ∀ er o t w out w' l,
  Tester.apply_metrics ms er o t w = (out, w', l) →
  Forall (fun e => ∃ n o t, e = EMetric n o t) l.
Proof.
  induction ms as [|m ms IH]; intros er o t w out w' l H; simpl in H.
  - injection H as <- <- <-. constructor.
  - rewrite bind_emit in H.
    destruct (metric_call m o t) as [[r| e |] [o' t']]; simpl in H.
    + destruct (Tester.apply_metrics ms _ o' t' w) as [[out2 w2] l2] eqn:Hrest.
      apply IH in Hrest. injection H as <- <- <-. constructor; eauto.
    + destruct (is_CheckError e); injection H as <- <- <-; repeat constructor; eauto.
    + injection H as <- <- <-. repeat constructor; eauto.
Qed.

Lemma test_batch_events_in_eval_mode (s : Tester.self) (w : World) batches :
  Forall in_eval_mode (flat_map (test_batch_events s (eval_world w)) batches).
Proof.
  induction batches as [|b batches IH]; [constructor|].
  simpl. by repeat constructor.
Qed.

(** C10. A call of [Tester.test] that returns leaves the module in
    training mode and the gradient switch as it found it: the first
    thing it does is to switch the module to evaluation mode, the last to
    switch it back to training mode, and every call of the model in
    between is made in evaluation mode with gradients off. *)
Theorem C10_test_returns_in_training_mode (env : Externals) (s : Tester.self)
    (w : World) (res : gmap string Z) :
  outcome (Tester.test env s w) = Ok res →
  training (state (Tester.test env s w)) = true
  ∧ grad_enabled (state (Tester.test env s w)) = grad_enabled w
  ∧ ∃ mid, log (Tester.test env s w) = [ETest (EModeEval :: mid ++ [EModeTrain])]
           ∧ Forall in_eval_mode mid.
Proof.
  unfold Tester.test, scoped.
  destruct (Tester.test_body env s w) as [[o w'] l] eqn:H.
  unfold outcome, state, log. simpl. intros ->.
  apply test_body_Ok in H as (preds & caught & rest & lm & tail & _ & Hm & -> & -> & ->).
  split; [done|]. split; [done|].
  exists (EBatchIter SequentialSampler (Tester.batch_size s)
            :: flat_map (test_batch_events s (eval_world w))
                        (batches_of (Tester.batch_size s) (Tester.data s))
            ++ lm ++ (if 0 <=? Tester.verbose s then [EPrint] else [])).
  split.
  - simpl. by rewrite <- !app_assoc.
  - constructor; [done|]. apply Forall_app. split.
    { apply test_batch_events_in_eval_mode. }
    apply Forall_app. split.
    + apply apply_metrics_log in Hm. eapply Forall_impl; [exact Hm|].
      by intros e (n & o & t & ->).
    + destruct (0 <=? Tester.verbose s); by repeat constructor.
Qed.

Lemma C10_test_returns_in_training_mode_witness :
  training (state (Tester.test Sample.env
                     (Sample.tester [Sample.sum_metric "Acc" 0]) Sample.world0)) = true
  ∧ grad_enabled (state (Tester.test Sample.env
                     (Sample.tester [Sample.sum_metric "Acc" 0]) Sample.world0))
    = grad_enabled Sample.world0
  ∧ ∃ mid, log (Tester.test Sample.env
                  (Sample.tester [Sample.sum_metric "Acc" 0]) Sample.world0)
           = [ETest (EModeEval :: mid ++ [EModeTrain])]
           ∧ Forall in_eval_mode mid.
Proof.
  apply (C10_test_returns_in_training_mode Sample.env
           (Sample.tester [Sample.sum_metric "Acc" 0]) Sample.world0
           {[ "Acc" := 6 ]}).
  vm_compute. reflexivity.
Defined.




(** ** Validation during training *)

Lemma get_summary_writer_run (ts : Trainer.TState) :
  Trainer.get_summary_writer ts =
  match Trainer._summary_writer (Trainer.obj ts) with
  | Some sw => (Ok sw, ts, [])
  | None => (Raise AttributeError, ts, [])
  end.
Proof.
  unfold Trainer.get_summary_writer, Trainer.attr. mrun.
  by destruct (Trainer._summary_writer _).
Qed.

Lemma add_scalar_run (sw : Trainer.writer) tag (ts : Trainer.TState) :
  ∃ l, Trainer.add_scalar sw tag ts = (Ok tt, ts, l) ∧ Forall is_scalar l.
Proof.
  destruct sw; simpl.
  - exists []. by split.
  - unfold Trainer.attr. mrun. destruct ts as [s w].
    eexists [_]. split; [reflexivity|]. by repeat constructor.
Qed.

(** Writing scalars leaves the object and the world alone and logs
    scalars only, also when the writer is missing. *)
Lemma write_scalars_run {A} (tag : A → string) (keep : A → bool) (items : list A)
    (ts : Trainer.TState) :
  ∃ o l,
    forM_ (fun x => if keep x
                    then bind Trainer.get_summary_writer
                              (fun sw => Trainer.add_scalar sw (tag x))
                    else ret tt) items ts = (o, ts, l)
    ∧ Forall is_scalar l.
Proof.
  unfold forM_. induction items as [|x items (o & l & IH & Hl)].
  - exists (Ok tt), []. by split.
  - simpl. unfold bind at 1. destruct (keep x).
    + unfold bind at 1. rewrite get_summary_writer_run.
      destruct (Trainer._summary_writer _) as [sw|].
      * destruct (add_scalar_run sw (tag x) ts) as (l1 & -> & Hl1).
        simpl. rewrite IH. exists o, (l1 ++ l). split; [done|]. by apply Forall_app.
      * by exists (Raise AttributeError), [].
    + simpl. rewrite IH. by exists o, l.
Qed.

Lemma best_eval_result_Ok (res : gmap string Z) (ts ts' : Trainer.TState) b l :
  Trainer.best_eval_result res ts = (Ok b, ts', l) →
  ∃ acc, validation_score (Trainer.obj ts) res = Some acc
    ∧ b = (Trainer._best_accuracy (Trainer.obj ts) <? acc)
    ∧ l = []
    ∧ Trainer.world ts' = Trainer.world ts
    ∧ Trainer.obj ts' = if b then Trainer.set__best_accuracy acc (Trainer.obj ts)
                        else Trainer.obj ts.
Proof.
  unfold Trainer.best_eval_result, validation_score. intros H.
  apply bind_Ok in H as (acc & ts1 & l1 & l2 & Hacc & H & ->).
  assert (ts1 = ts ∧ l1 = [] ∧
          match map_to_list res with
          | [(_, v)] => Some v
          | _ => match Trainer.extra (Trainer.obj ts) !! "eval_sort_key" with
                 | Some (PStr key) => res !! key
                 | _ => None
                 end
          end = Some acc) as (-> & -> & Hscore).
  { destruct (map_to_list res) as [|[k v] [|kv' rest]].
    - unfold Trainer.attr in Hacc. mrun_in Hacc.
      destruct (Trainer.extra _ !! _) as [[]|]; try done.
      destruct (res !! s) as [x|]; [|done]. by injection Hacc as <- <-.
    - by injection Hacc as <- <-.
    - unfold Trainer.attr in Hacc. mrun_in Hacc.
      destruct (Trainer.extra _ !! _) as [[]|]; try done.
      destruct (res !! s) as [x|]; [|done]. by injection Hacc as <- <-. }
  exists acc. split; [done|].
  unfold Trainer.attr, Trainer.assign in H. mrun_in H.
  destruct (Trainer._best_accuracy (Trainer.obj ts) <? acc).
  - mrun_in H. injection H as <- <- <-. by destruct ts.
  - by injection H as <- <- <-.
Qed.

Lemma liftW_Ok {A} (m : M World A) (ts ts' : Trainer.TState) a l :
  Trainer.liftW m ts = (Ok a, ts', l) →
  m (Trainer.world ts) = (Ok a, Trainer.world ts', l)
  ∧ Trainer.obj ts' = Trainer.obj ts.
Proof.
  unfold Trainer.liftW. destruct (m _) as [[o w] l']. by intros [= -> <- <-].
Qed.

Lemma test_log (env : Externals) (t : Tester.self) (w : World) :
  ∃ sub, log (Tester.test env t w) = [ETest sub].
Proof.
  unfold Tester.test, scoped. destruct (Tester.test_body env t w) as [[o w'] l].
  by exists l.
Qed.

(** What a validation that returns has done. *)
Lemma do_validation_Ok (env : Externals) (ts ts' : Trainer.TState) l :
  Trainer.do_validation env ts = (Ok tt, ts', l) →
  ∃ t res sub scalars saves,
    Trainer.tester (Trainer.obj ts) = Some t
    ∧ Tester.test env t (Trainer.world ts) = (Ok res, Trainer.world ts', [ETest sub])
    ∧ Forall is_scalar scalars
    ∧ l = ETest sub :: scalars ++ saves
    ∧ match Trainer.save_path (Trainer.obj ts) with
      | None => Trainer.obj ts' = Trainer.obj ts ∧ saves = []
      | Some dir =>
          ∃ acc, validation_score (Trainer.obj ts) res = Some acc
            ∧ if Trainer._best_accuracy (Trainer.obj ts) <? acc
              then Trainer.obj ts' = Trainer.set__best_accuracy acc (Trainer.obj ts)
                   ∧ ∃ st, Trainer.start_time (Trainer.obj ts) = Some st
                           ∧ saves = [checkpoint dir st]
              else Trainer.obj ts' = Trainer.obj ts ∧ saves = []
      end.
Proof.
  unfold Trainer.do_validation, Trainer.attr. intros H. mrun_in H.
  destruct (Trainer.tester (Trainer.obj ts)) as [t|] eqn:Ht; [|done].
  apply bind_Ok in H as (res & ts1 & l1 & l2 & Htest & H & ->).
  apply liftW_Ok in Htest as [Htest Hobj1].
  destruct (test_log env t (Trainer.world ts)) as [sub Hsub].
  rewrite Htest in Hsub. unfold log in Hsub. simpl in Hsub. subst l1.
  apply bind_Ok in H as ([] & ts2 & scalars & l3 & Hsc & H & ->).
  destruct (write_scalars_run (fun kv : string * Z => String.append "valid_" kv.1)
              (fun _ => true) (map_to_list res) ts1) as (o & l4 & Hrun & Hscalars).
  simpl in Hrun. rewrite Hrun in Hsc. injection Hsc as -> <- <-.
  mrun_in H. rewrite Hobj1 in H.
  exists t, res, sub, l4.
  destruct (Trainer.save_path (Trainer.obj ts)) as [dir|] eqn:Hsp.
  - apply bind_Ok in H as (b & ts3 & l5 & l6 & Hbest & H & ->).
    apply best_eval_result_Ok in Hbest as (acc & Hacc & -> & -> & Hw3 & Ho3).
    rewrite Hobj1 in Hacc, Ho3, H.
    destruct (Trainer._best_accuracy (Trainer.obj ts) <? acc) eqn:Hlt.
    + mrun_in H. rewrite Ho3 in H. simpl in H.
      destruct (Trainer.start_time (Trainer.obj ts)) as [st|] eqn:Hst; [|done].
      unfold Trainer.save_model, Trainer.attr in H. mrun_in H.
      rewrite Ho3 in H. simpl in H. rewrite Hsp, liftW_emit in H.
      unfold emit in H. injection H as <- <-.
      exists [checkpoint dir st].
      split; [done|]. split; [by rewrite Hw3|]. split; [done|]. split; [done|].
      exists acc. rewrite Hlt. split; [done|]. split; [done|]. by exists st.
    + injection H as <- <-. exists [].
      split; [done|]. split; [by rewrite Hw3|]. split; [done|]. split; [done|].
      exists acc. by rewrite Hlt, Ho3.
  - injection H as <- <-. exists []. by rewrite Hobj1.
Qed.

Lemma existsb_is_save_scalars (l : list event) :
  Forall is_scalar l → existsb is_save l = false.
Proof.
  induction 1 as [|e l He _ IH]; [done|]. simpl. rewrite IH. by destruct e.
Qed.

(** One validation: the best score moves only when there is a save path,
    and then to the larger of itself and the score. *)
Lemma do_validation_best (env : Externals) (ts ts' : Trainer.TState) t res l :
  Trainer.tester (Trainer.obj ts) = Some t →
  outcome (Tester.test env t (Trainer.world ts)) = Ok res →
  Trainer.do_validation env ts = (Ok tt, ts', l) →
  Trainer.save_path (Trainer.obj ts') = Trainer.save_path (Trainer.obj ts)
  ∧ match Trainer.save_path (Trainer.obj ts) with
    | None =>
        Trainer._best_accuracy (Trainer.obj ts') = Trainer._best_accuracy (Trainer.obj ts)
        ∧ existsb is_save l = false
    | Some _ =>
        ∃ acc, validation_score (Trainer.obj ts) res = Some acc
          ∧ Trainer._best_accuracy (Trainer.obj ts')
            = Z.max (Trainer._best_accuracy (Trainer.obj ts)) acc
          ∧ existsb is_save l = (Trainer._best_accuracy (Trainer.obj ts) <? acc)
    end.
Proof.
  intros Ht Hres H.
  apply do_validation_Ok in H
    as (t' & res' & sub & scalars & saves & Ht' & Htest & Hsc & -> & H).
  rewrite Ht in Ht'. injection Ht' as <-.
  rewrite Htest in Hres. injection Hres as ->.
  pose proof (existsb_is_save_scalars _ Hsc) as Hns.
  simpl. rewrite existsb_app, Hns. simpl.
  destruct (Trainer.save_path (Trainer.obj ts)) as [dir|] eqn:Hsp.
  - destruct H as (acc & Hacc & H).
    destruct (Trainer._best_accuracy (Trainer.obj ts) <? acc) eqn:Hlt.
    + destruct H as (-> & st & _ & ->). simpl. split; [done|].
      exists acc. split; [done|]. split; [|done].
      apply Z.ltb_lt in Hlt. lia.
    + destruct H as (-> & ->). split; [done|].
      exists acc. split; [done|]. split; [|done].
      apply Z.ltb_ge in Hlt. lia.
  - destruct H as [-> ->]. by rewrite Hsp.
Qed.

(** C7, as amended.  Over any sequence of validations the tracked best
    score never decreases.  With a save path, every validation has a
    score, the best score ends as the maximum of its value at the start
    and these scores, and a validation saves a checkpoint if and only if
    its score is strictly above the best before it.  Without a save
    path, the best score stays as it was and nothing is saved. *)
Theorem C7_best_score_and_checkpoints (env : Externals)
    (ts ts' : Trainer.TState) (steps : list (option Z * list event)) :
  validated env ts steps ts' →
  Trainer._best_accuracy (Trainer.obj ts) ≤ Trainer._best_accuracy (Trainer.obj ts')
  ∧ match Trainer.save_path (Trainer.obj ts) with
    | Some _ =>
        ∃ scores,
          fst <$> steps = Some <$> scores
          ∧ Trainer._best_accuracy (Trainer.obj ts')
            = foldl Z.max (Trainer._best_accuracy (Trainer.obj ts)) scores
          ∧ (fun step => existsb is_save step.2) <$> steps
            = improvements (Trainer._best_accuracy (Trainer.obj ts)) scores
    | None =>
        Trainer._best_accuracy (Trainer.obj ts') = Trainer._best_accuracy (Trainer.obj ts)
        ∧ Forall (fun step => existsb is_save step.2 = false) steps
    end.
Proof.
  induction 1 as [ts|ts ts1 ts2 ts3 t res l rest [st Hbetween] Ht Hres Hval _ IH].
  - split; [lia|]. destruct (Trainer.save_path _); [by exists []|done].
  - destruct (do_validation_best env ts1 ts2 t res l Ht Hres Hval) as [Hsp Hstep].
    rewrite Hbetween in Hsp, Hstep |- *. simpl in Hsp, Hstep.
    rewrite Hsp in IH. destruct IH as [Hle IH].
    destruct (Trainer.save_path (Trainer.obj ts)) as [dir|].
    + destruct Hstep as (acc & Hacc & Hbest & Hsave).
      destruct IH as (scores & Hscores & Hfinal & Hsaves).
      split; [lia|]. exists (acc :: scores). split; [|split].
      * rewrite !fmap_cons, Hscores. simpl. by rewrite Hacc.
      * simpl. by rewrite Hfinal, Hbest.
      * rewrite fmap_cons, Hsaves, Hbest. simpl. by rewrite Hsave.
    + destruct Hstep as [Hbest Hsave]. destruct IH as [Hfinal Hsaves].
      split; [lia|]. split; [lia|]. by constructor.
Qed.

Lemma C7_best_score_and_checkpoints_witness :
  let ts := Sample.running 1 (-1) (Some "save") in
  let ts' := {| Trainer.obj := Trainer.set__best_accuracy 6 (Trainer.obj ts);
                Trainer.world := Trainer.world ts |} in
  let steps :=
    [ (Some 6, [Sample.test_log3; checkpoint "save" "2018-12-01-10-00-00"]);
      (Some 6, [Sample.test_log3]) ] in
  validated Sample.env ts steps ts'
  ∧ Trainer._best_accuracy (Trainer.obj ts) ≤ Trainer._best_accuracy (Trainer.obj ts')
  ∧ match Trainer.save_path (Trainer.obj ts) with
    | Some _ =>
        ∃ scores,
          fst <$> steps = Some <$> scores
          ∧ Trainer._best_accuracy (Trainer.obj ts')
            = foldl Z.max (Trainer._best_accuracy (Trainer.obj ts)) scores
          ∧ (fun step => existsb is_save step.2) <$> steps
            = improvements (Trainer._best_accuracy (Trainer.obj ts)) scores
    | None =>
        Trainer._best_accuracy (Trainer.obj ts') = Trainer._best_accuracy (Trainer.obj ts)
        ∧ Forall (fun step => existsb is_save step.2 = false) steps
    end.
Proof.
  intros ts ts' steps.
  assert (Hv : validated Sample.env ts steps ts').
  { refine (validated_cons Sample.env ts ts ts' ts'
              (Sample.tester [Sample.sum_metric "Acc" 0]) {[ "Acc" := 6 ]}
              [Sample.test_log3; checkpoint "save" "2018-12-01-10-00-00"]
              [(Some 6, [Sample.test_log3])] _ _ _ _ _).
    - exists 0. reflexivity.
    - reflexivity.
    - vm_compute. reflexivity.
    - vm_compute. reflexivity.
    - refine (validated_cons Sample.env ts' ts' ts' ts'
                (Sample.tester [Sample.sum_metric "Acc" 0]) {[ "Acc" := 6 ]}
                [Sample.test_log3] [] _ _ _ _ _).
      + exists 0. reflexivity.
      + reflexivity.
      + vm_compute. reflexivity.
      + vm_compute. reflexivity.
      + apply validated_nil. }
  split; [exact Hv|].
  exact (C7_best_score_and_checkpoints _ _ _ _ Hv).
Defined.

(** C7 as first stated fails: without a save path a validation does not
    update the best score, whatever its score. *)
Lemma C7_counterexample :
  let ts := Sample.running 1 (-1) None in
  let res : gmap string Z := {[ "Acc" := 6 ]} in
  outcome (Tester.test Sample.env (Sample.tester [Sample.sum_metric "Acc" 0])
                       (Trainer.world ts)) = Ok res
  ∧ validation_score (Trainer.obj ts) res = Some 6
  ∧ outcome (Trainer.do_validation Sample.env ts) = Ok tt
  ∧ Trainer._best_accuracy (Trainer.obj ts) = 0
  ∧ Trainer._best_accuracy (Trainer.obj (state (Trainer.do_validation Sample.env ts)))
    ≠ Z.max 0 6.
Proof. vm_compute. repeat split; discriminate. Qed.

(** ** One batch of training *)

Lemma is_scalar_noise (l : list event) : Forall is_scalar l → Forall is_noise l.
Proof. intros H. eapply Forall_impl; [exact H|]. by intros []. Qed.

Lemma set__best_accuracy_id (s : Trainer.self) :
  Trainer.set__best_accuracy (Trainer._best_accuracy s) s = s.
Proof. by destruct s. Qed.

Lemma do_validation_frame (env : Externals) (ts ts' : Trainer.TState) l :
  Trainer.do_validation env ts = (Ok tt, ts', l) →
  validation_log l
  ∧ (∃ best', Trainer.obj ts' = Trainer.set__best_accuracy best' (Trainer.obj ts))
  ∧ updates (Trainer.world ts') = updates (Trainer.world ts).
Proof.
  intros H.
  apply do_validation_Ok in H
    as (t & res & sub & scalars & saves & Ht & Htest & Hsc & -> & H).
  assert (Hw : updates (Trainer.world ts') = updates (Trainer.world ts)).
  { pose proof Htest as Htest'. unfold Tester.test, scoped in Htest'.
    destruct (Tester.test_body env t (Trainer.world ts)) as [[o w'] l'] eqn:Hb.
    injection Htest' as -> <- _.
    apply test_body_Ok in Hb as (_ & _ & _ & _ & _ & _ & _ & _ & _ & ->).
    by destruct (Trainer.world ts). }
  apply is_scalar_noise in Hsc.
  destruct (Trainer.save_path (Trainer.obj ts)) as [dir|].
  - destruct H as (acc & _ & H).
    destruct (Trainer._best_accuracy (Trainer.obj ts) <? acc).
    + destruct H as (Hobj & st & _ & ->). split; [|split; [by exists acc|done]].
      exists sub, (scalars ++ [checkpoint dir st]). split; [done|].
      apply Forall_app. split; [done|]. by repeat constructor.
    + destruct H as (Hobj & ->). rewrite app_nil_r. split; [|split; [|done]].
      * by exists sub, scalars.
      * exists (Trainer._best_accuracy (Trainer.obj ts)).
        by rewrite set__best_accuracy_id.
  - destruct H as (Hobj & ->). rewrite app_nil_r. split; [|split; [|done]].
    + by exists sub, scalars.
    + exists (Trainer._best_accuracy (Trainer.obj ts)).
      by rewrite set__best_accuracy_id.
Qed.

Lemma train_batch_Ok (env : Externals) (model : Module) (batch : fields * fields)
    (ts ts' : Trainer.TState) l :
  Trainer.train_batch env model batch ts = (Ok tt, ts', l) →
  ∃ pred noise vl best',
    body (forward model) (Trainer.world ts) (_build_args (forward model) batch.1)
      = Ok (RDict pred)
    ∧ l = batch_core (Trainer._model_device (Trainer.obj ts)) model (Trainer.world ts)
                     batch pred ++ noise ++ vl
    ∧ Forall is_noise noise
    ∧ (if validates (Trainer.validate_every (Trainer.obj ts)) (Trainer.step (Trainer.obj ts))
       then validation_log vl else vl = [])
    ∧ Trainer.obj ts'
      = Trainer.set_step (Trainer.step (Trainer.obj ts) + 1)
          (Trainer.set__best_accuracy best' (Trainer.obj ts))
    ∧ updates (Trainer.world ts') = S (updates (Trainer.world ts)).
Proof.
  destruct batch as [bx b_y]. intros H.
  unfold Trainer.train_batch, Trainer.attr, _move_dict_value_to_device,
    Trainer.data_forward, call, Trainer.get_loss, Trainer.grad_backward,
    Trainer.update in H.
  mrun_in H.
  destruct (body (forward model) _ _) as [[pred|]| |] eqn:Hpred; try done.
  mrun_in H. unfold Trainer.attr in H. mrun_in H.
  destruct (loss_call _ _ _ _) as [loss| |] eqn:Hloss; try done.
  mrun_in H.
  destruct (backward loss) eqn:Hbw; try done.
  mrun_in H.
  rewrite !prepend_prepend in H. simpl app in H.
  apply prepend_Ok in H as (l0 & H & ->).
  set (tsu := {| Trainer.obj := Trainer.obj ts;
                 Trainer.world := set_updates (S (updates (Trainer.world ts)))
                                              (Trainer.world ts) |}) in *.
  apply bind_Ok in H as (sw & ts1 & l1 & l2 & Hsw & H & ->).
  rewrite get_summary_writer_run in Hsw.
  destruct (Trainer._summary_writer (Trainer.obj tsu)) as [sw'|]; [|done].
  injection Hsw as -> <- <-.
  mrun_in H. destruct (item loss) as [[]| |]; try done.
  apply bind_Ok in H as ([] & ts2 & l3 & l4 & Hsc & H & ->).
  destruct (add_scalar_run sw "loss" tsu) as (l3' & Hsc' & Hl3).
  rewrite Hsc' in Hsc. injection Hsc as <- <-.
  mrun_in H.
  apply bind_Ok in H as ([] & ts3 & l5 & l6 & Hps & H & ->).
  destruct (write_scalars_run
              (fun p : string * bool * string => String.append p.1.1 "_mean")
              (fun p : string * bool * string => p.1.2)
              (named_parameters (Trainer.model (Trainer.obj tsu))) tsu)
    as (o & l5' & Hps' & Hl5).
  rewrite Hps' in Hps. injection Hps as -> <- <-.
  mrun_in H.
  apply bind_Ok in H as ([] & ts4 & l7 & l8 & Hpr & H & ->).
  assert (ts4 = tsu ∧ Forall is_noise l7) as [-> Hl7].
  { destruct (_ && _).
    - rewrite liftW_emit in Hpr. injection Hpr as <- <-. by repeat constructor.
    - by injection Hpr as <- <-. }
  mrun_in H.
  apply bind_Ok in H as ([] & tsv & vl & l9 & Hv & H & ->).
  mrun_in H. unfold Trainer.assign in H. mrun_in H. simpl in H.
  unfold ret in H. injection H as <- <-.
  change (Trainer.obj tsu) with (Trainer.obj ts) in Hv.
  fold (validates (Trainer.validate_every (Trainer.obj ts))
                  (Trainer.step (Trainer.obj ts))) in Hv.
  assert (Hnoise : Forall is_noise (l3' ++ l5' ++ l7)).
  { repeat (apply Forall_app; split); auto using is_scalar_noise. }
  assert (Hlog : ∀ vl0 : list event,
             l3' ++ l5' ++ l7 ++ vl0 ++ [] = (l3' ++ l5' ++ l7) ++ vl0).
  { intros vl0. by rewrite app_nil_r, <- !app_assoc. }
  destruct (validates _ _).
  - apply do_validation_frame in Hv as (Hvl & [best' Hobj] & Hup).
    exists pred, (l3' ++ l5' ++ l7), vl, best'.
    split; [done|]. split; [unfold batch_core; simpl; do 6 f_equal; apply Hlog|].
    split; [done|]. split; [done|]. simpl. rewrite Hobj, Hup. by split.
  - injection Hv as <- <-.
    exists pred, (l3' ++ l5' ++ l7), [], (Trainer._best_accuracy (Trainer.obj ts)).
    split; [done|]. split; [unfold batch_core; simpl; do 6 f_equal; exact (Hlog [])|].
    split; [done|]. split; [done|]. simpl. by rewrite set__best_accuracy_id.
Qed.

(** ** Epochs *)

Lemma draw_order_perm {A} (n : nat) : ∀ (r : list nat) (l : list A),
  (draw_order n r l).1 ≡ₚ l.
Proof.
  induction n as [|n IH]; intros r l; simpl; [done|].
  destruct r as [|x r]; [done|].
  destruct (l !! (x mod length l)%nat) as [a|] eqn:Ha; [|done].
  specialize (IH r (delete (x mod length l)%nat l)).
  destruct (draw_order n r _) as [rest r'']. simpl in *.
  rewrite IH. symmetry. by apply delete_Permutation.
Qed.

Lemma Batch_random (dataset : DataSet) (batch_size : Z) (w : World) :
  ∃ order r,
    Batch dataset batch_size RandomSampler w
    = (Ok (batches_of batch_size order), set_rng r w,
       [EBatchIter RandomSampler batch_size])
    ∧ order ≡ₚ dataset.
Proof.
  unfold Batch. mrun.
  pose proof (draw_order_perm (length dataset) (rng w) dataset) as Hperm.
  destruct (draw_order _ _ _) as [order r]. mrun.
  exists order, r. split; [|done]. by rewrite prepend_nil || reflexivity.
Qed.

Lemma train_epoch_Ok (env : Externals) (model : Module) (epoch : Z) dd batches :
  ∀ (ts ts' : Trainer.TState) l,
  Trainer._train_epoch env batches model epoch dd ts = (Ok tt, ts', l) →
  epoch_log (Trainer._model_device (Trainer.obj ts)) model
            (Trainer.validate_every (Trainer.obj ts))
            (Trainer.step (Trainer.obj ts)) batches l
  ∧ (∃ best', Trainer.obj ts'
       = Trainer.set_step (Trainer.step (Trainer.obj ts) + Z.of_nat (length batches))
           (Trainer.set__best_accuracy best' (Trainer.obj ts)))
  ∧ updates (Trainer.world ts') = (updates (Trainer.world ts) + length batches)%nat.
Proof.
  unfold Trainer._train_epoch, forM_.
  induction batches as [|b batches IH]; intros ts ts' l H.
  - injection H as <- <-. split; [constructor|]. split; [|simpl; lia].
    exists (Trainer._best_accuracy (Trainer.obj ts)).
    rewrite set__best_accuracy_id, Z.add_0_r. by destruct (Trainer.obj ts).
  - simpl in H. apply bind_Ok in H as ([] & ts1 & l1 & l2 & Hb & H & ->).
    apply train_batch_Ok in Hb
      as (pred & noise & vl & best1 & Hpred & -> & Hnoise & Hvl & Hobj1 & Hup1).
    apply IH in H as (Hlog & [best2 Hobj2] & Hup2).
    rewrite Hobj1 in Hlog, Hobj2. simpl in Hlog, Hobj2.
    split; [|split].
    + rewrite <- !app_assoc. by econstructor.
    + exists best2. rewrite Hobj2. simpl length.
      replace (Trainer.step (Trainer.obj ts) + 1 + Z.of_nat (length batches))
        with (Trainer.step (Trainer.obj ts) + Z.of_nat (S (length batches))) by lia.
      done.
    + rewrite Hup2, Hup1. simpl. lia.
Qed.

Lemma train_loop_unfold (env : Externals) (fuel : nat) (epoch : Z) :
  Trainer.train_loop env fuel epoch =
  bind (Trainer.attr Trainer.n_epochs) (fun n =>
    if epoch <=? n then
      match fuel with
      | O => lift OutOfFuel
      | S fuel' =>
          bind (Trainer.attr Trainer.train_data) (fun td =>
          bind (Trainer.attr Trainer.batch_size) (fun bs =>
          bind (Trainer.liftW (Batch td bs RandomSampler)) (fun data_iterator =>
          bind (Trainer.attr Trainer.model) (fun m =>
          bind (Trainer.attr Trainer.dev_data) (fun dd =>
          bind (Trainer._train_epoch env data_iterator m epoch dd) (fun _ =>
          bind (Trainer.attr Trainer.dev_data) (fun dd =>
          bind (Trainer.attr Trainer.validate_every) (fun ve =>
          bind (if match dd with Some d => dataset_bool env d | None => false end
                   && (ve <=? 0)
                then Trainer.do_validation env else ret tt) (fun _ =>
          Trainer.train_loop env fuel' (epoch + 1))))))))))
      end
    else ret tt).
Proof. by destruct fuel. Qed.

Lemma liftW_run {A} (m : M World A) (ts : Trainer.TState) o w l :
  m (Trainer.world ts) = (o, w, l) →
  Trainer.liftW m ts = (o, {| Trainer.obj := Trainer.obj ts; Trainer.world := w |}, l).
Proof. unfold Trainer.liftW. by intros ->. Qed.

(** A loop that returns has run the epochs from [epoch] to [n_epochs]. *)
Lemma train_loop_Ok (env : Externals) (fuel : nat) :
  ∀ (epoch : Z) (ts ts' : Trainer.TState) l,
  Trainer.train_loop env fuel epoch ts = (Ok tt, ts', l) →
  epochs_log (Trainer.train_data (Trainer.obj ts)) (Trainer.batch_size (Trainer.obj ts))
             (Trainer._model_device (Trainer.obj ts)) (Trainer.model (Trainer.obj ts))
             (Trainer.validate_every (Trainer.obj ts))
             (validates_at_end env (Trainer.obj ts))
             (Z.to_nat (Trainer.n_epochs (Trainer.obj ts) - epoch + 1))
             (Trainer.step (Trainer.obj ts)) l
  ∧ ∃ best' step',
      Trainer.obj ts'
      = Trainer.set_step step' (Trainer.set__best_accuracy best' (Trainer.obj ts)).
Proof.
  induction fuel as [|fuel IH]; intros epoch ts ts' l H;
    rewrite train_loop_unfold in H; unfold Trainer.attr in H; mrun_in H.
  - destruct (epoch <=? _) eqn:Hle; [done|]. injection H as <- <-.
    apply Z.leb_gt in Hle.
    replace (Z.to_nat _) with 0%nat by lia. split; [constructor|].
    exists (Trainer._best_accuracy (Trainer.obj ts)), (Trainer.step (Trainer.obj ts)).
    rewrite set__best_accuracy_id. by destruct (Trainer.obj ts).
  - destruct (epoch <=? _) eqn:Hle.
    + apply Z.leb_le in Hle. mrun_in H.
      destruct (Batch_random (Trainer.train_data (Trainer.obj ts))
                  (Trainer.batch_size (Trainer.obj ts)) (Trainer.world ts))
        as (order & r & Hbatch & Hperm).
      rewrite (bind_run _ _ _ _ _ _ (liftW_run _ _ _ _ _ Hbatch)) in H.
      apply prepend_Ok in H as (l0 & H & ->).
      mrun_in H. simpl in H.
      apply bind_Ok in H as ([] & ts1 & l1 & l2 & Hepoch & H & ->).
      apply train_epoch_Ok in Hepoch as (Hlog & [best1 Hobj1] & _).
      simpl in Hlog, Hobj1.
      mrun_in H. rewrite Hobj1 in H. simpl in H.
      fold (validates_at_end env (Trainer.obj ts)) in H.
      apply bind_Ok in H as ([] & ts2 & vl & l3 & Hv & H & ->).
      assert (Hvl : (if validates_at_end env (Trainer.obj ts)
                     then validation_log vl else vl = [])
                    ∧ ∃ best2, Trainer.obj ts2
                        = Trainer.set__best_accuracy best2 (Trainer.obj ts1)).
      { destruct (validates_at_end env (Trainer.obj ts)).
        - by apply do_validation_frame in Hv as (? & ? & _).
        - injection Hv as <- <-. split; [done|].
          exists (Trainer._best_accuracy (Trainer.obj ts1)).
          by rewrite set__best_accuracy_id. }
      destruct Hvl as [Hvl [best2 Hobj2]].
      apply IH in H as (Hrest & best3 & step3 & Hobj3).
      rewrite Hobj2, Hobj1 in Hrest, Hobj3. simpl in Hrest, Hobj3.
      split.
      * replace (Z.to_nat (Trainer.n_epochs (Trainer.obj ts) - epoch + 1))
          with (S (Z.to_nat (Trainer.n_epochs (Trainer.obj ts) - (epoch + 1) + 1)))
          by lia.
        simpl. by econstructor.
      * by exists best3, step3.
    + injection H as <- <-. apply Z.leb_gt in Hle.
      replace (Z.to_nat _) with 0%nat by lia. split; [constructor|].
      exists (Trainer._best_accuracy (Trainer.obj ts)), (Trainer.step (Trainer.obj ts)).
      rewrite set__best_accuracy_id. by destruct (Trainer.obj ts).
Qed.

Lemma try_finally_Ok {S A} (body : M S A) (fin : M S unit) s a s' l :
  try_finally body fin s = (Ok a, s', l) →
  ∃ s1 l1 l2, body s = (Ok a, s1, l1) ∧ fin s1 = (Ok tt, s', l2) ∧ l = l1 ++ l2.
Proof.
  unfold try_finally. destruct (body s) as [[o s1] l1].
  destruct (fin s1) as [[[[]| |] s2] l2] eqn:Hfin; intros [= -> <- <-].
  by exists s1, l1, l2.
Qed.

(** What a call of [train] that returns has logged: the switch to
    training mode, the starting message, the opening of the writer, the
    epochs, the closing of the writer. *)
Lemma train_Ok (env : Externals) (ts ts' : Trainer.TState) l :
  Trainer.train env ts = (Ok tt, ts', l) →
  ∃ opener epochs closer,
    l = EModeTrain :: EPrint :: opener ++ epochs ++ closer
    ∧ Forall is_writer (opener ++ closer)
    ∧ epochs_log (Trainer.train_data (Trainer.obj ts))
                 (Trainer.batch_size (Trainer.obj ts))
                 (Trainer._model_device (Trainer.obj ts))
                 (Trainer.model (Trainer.obj ts))
                 (Trainer.validate_every (Trainer.obj ts))
                 (validates_at_end env (Trainer.obj ts))
                 (Z.to_nat (Trainer.n_epochs (Trainer.obj ts)))
                 (Trainer.step (Trainer.obj ts)) epochs.
Proof.
  unfold Trainer.train. intros H.
  apply try_finally_Ok in H as (ts1 & l1 & l2 & Hbody & Hfin & ->).
  unfold Trainer.attr, Trainer.mode, Trainer.assign in Hbody. mrun_in Hbody.
  assert (Hcuda : ∀ (c : bool) (k : unit → M Trainer.TState unit) ts0,
            bind (if c then Trainer.liftW (modify (set_on_cuda true)) else ret tt) k ts0
            = k tt {| Trainer.obj := Trainer.obj ts0;
                      Trainer.world := if c then set_on_cuda true (Trainer.world ts0)
                                       else Trainer.world ts0 |}).
  { intros [] k ts0; mrun; [done|]. by destruct ts0. }
  rewrite Hcuda in Hbody. mrun_in Hbody. simpl in Hbody.
  apply prepend_Ok in Hbody as (l3 & Hbody & ->).
  apply prepend_Ok in Hbody as (l4 & Hbody & ->).
  apply bind_Ok in Hbody as ([] & ts2 & opener & l5 & Hopen & Hbody & ->).
  mrun_in Hbody.
  apply train_loop_Ok in Hbody as (Hlog & best' & step' & Hobj).
  apply bind_Ok in Hfin as (sw & ts3 & l6 & closer & Hsw & Hfin & ->).
  rewrite get_summary_writer_run, Hobj in Hsw.
  unfold Trainer.assign in Hfin.
  destruct (Trainer.save_path (Trainer.obj ts)) as [dir|].
  - mrun_in Hopen. unfold prepend, modify in Hopen. simpl in Hopen.
    injection Hopen as <- <-. simpl in Hlog, Hobj, Hsw.
    injection Hsw as <- <- <-. mrun_in Hfin.
    unfold prepend, modify in Hfin. simpl in Hfin. injection Hfin as <- <-.
    eexists [_], l5, [_]. split; [done|]. split.
    + by repeat constructor.
    + rewrite Z.sub_simpl_r in Hlog. exact Hlog.
  - unfold modify in Hopen. injection Hopen as <- <-. simpl in Hlog, Hobj, Hsw.
    injection Hsw as <- <- <-. mrun_in Hfin.
    unfold modify in Hfin. injection Hfin as <- <-.
    exists [], l5, []. split; [simpl; by rewrite !app_nil_r|]. split.
    + constructor.
    + rewrite Z.sub_simpl_r in Hlog. exact Hlog.
Qed.

(** ** Reading the log of training *)

Lemma omap_noise {A} (f : event → option A) (l : list event) :
  (∀ e, is_noise e → f e = None) → Forall is_noise l → omap f l = [].
Proof.
  intros Hf Hl. apply omap_None. intros e He.
  apply Hf. by eapply Forall_forall in Hl.
Qed.

Lemma omap_validation_log {A} (f : event → option A) (vl : list event) :
  (∀ e, is_noise e → f e = None) → validation_log vl →
  ∃ sub, omap f vl = omap f [ETest sub].
Proof.
  intros Hf (sub & noise & -> & Hnoise). exists sub.
  change (ETest sub :: noise) with ([ETest sub] ++ noise).
  by rewrite omap_app, (omap_noise f noise), app_nil_r.
Qed.

Lemma omap_maybe_validation {A} (f : event → option A) (c : bool) (vl : list event)
    (v : list A) :
  (∀ e, is_noise e → f e = None) →
  (∀ sub, omap f [ETest sub] = v) →
  (if c then validation_log vl else vl = []) →
  omap f vl = if c then v else [].
Proof.
  intros Hf Hv H. destruct c; [|by subst].
  destruct (omap_validation_log f vl Hf H) as [sub ->]. apply Hv.
Qed.

Lemma step_of_noise e : is_noise e → step_of e = None.
Proof. by destruct e. Qed.
Lemma pass_of_noise e : is_noise e → pass_of e = None.
Proof. by destruct e. Qed.
Lemma batch_of_noise e : is_noise e → batch_of e = None.
Proof. by destruct e. Qed.

(** The steps of an epoch: those of each batch, in the order of the
    claim, on what the model returned for the batch. *)
Lemma epoch_log_steps device model ve step batches l :
  epoch_log device model ve step batches l →
  ∃ preds,
    Forall2 (fun b p => ∃ w, body (forward model) w (_build_args (forward model) b.1)
                             = Ok (RDict p)) batches preds
    ∧ omap step_of l = mjoin (zip_with (batch_steps device model) batches preds).
Proof.
  induction 1 as [step|step b batches w pred noise vl rest Hpred Hnoise Hvl _
                    (preds & Hpreds & IH)].
  - exists []. by split.
  - exists (pred :: preds). split; [constructor; eauto|].
    rewrite !omap_app, IH, (omap_noise step_of noise step_of_noise Hnoise).
    rewrite (omap_maybe_validation step_of _ vl [] step_of_noise (fun _ => eq_refl) Hvl).
    simpl. by destruct (validates ve step).
Qed.


Lemma epoch_log_batches device model ve step batches l :
  epoch_log device model ve step batches l →
  omap pass_of l = [] ∧ omap batch_of l = batches.
Proof.
  induction 1 as [step|step [bx b_y] batches w pred noise vl rest Hpred Hnoise Hvl _
                    [IH1 IH2]]; [done|].
  rewrite !omap_app, IH1, IH2.
  rewrite (omap_noise pass_of noise pass_of_noise Hnoise),
          (omap_noise batch_of noise batch_of_noise Hnoise).
  rewrite (omap_maybe_validation pass_of _ vl [] pass_of_noise (fun _ => eq_refl) Hvl),
          (omap_maybe_validation batch_of _ vl [] batch_of_noise (fun _ => eq_refl) Hvl).
  by destruct (validates ve step).
Qed.

(** *** Chunks *)

Lemma chunks_fuel_length {A B} (n fuel : nat) : ∀ (l : list A) (l' : list B),
  length l = length l' →
  length (chunks_fuel fuel n l) = length (chunks_fuel fuel n l').
Proof.
  induction fuel as [|fuel IH]; intros l l' Hlen; [done|].
  destruct l, l'; try done. simpl chunks_fuel. simpl length. f_equal.
  apply IH. by rewrite !length_drop, Hlen.
Qed.

Lemma batches_of_length (batch_size : Z) (order data : DataSet) :
  order ≡ₚ data →
  length (batches_of batch_size order) = length (batches_of batch_size data).
Proof.
  intros Hperm. apply Permutation_length in Hperm.
  unfold batches_of, chunks. rewrite !length_fmap.
  destruct (Z.to_nat batch_size); [done|].
  rewrite Hperm. by apply chunks_fuel_length.
Qed.

Lemma concat_chunks_fuel {A} (n fuel : nat) : ∀ l : list A,
  (0 < n)%nat → (length l ≤ fuel)%nat → concat (chunks_fuel fuel n l) = l.
Proof.
  induction fuel as [|fuel IH]; intros l Hn Hlen.
  - destruct l; [done|]. simpl in Hlen. lia.
  - destruct l as [|x l]; [done|].
    change (chunks_fuel (S fuel) n (x :: l))
      with (take n (x :: l) :: chunks_fuel fuel n (drop n (x :: l))).
    simpl concat. rewrite IH; [apply take_drop|done|].
    rewrite length_drop. simpl in *. lia.
Qed.

(** With a positive batch size, the batches of a pass hold every
    instance of the order once, in that order. *)
Lemma concat_chunks {A} (n : nat) (l : list A) :
  (0 < n)%nat → concat (chunks n l) = l.
Proof.
  intros Hn. unfold chunks. destruct n; [lia|]. by apply concat_chunks_fuel.
Qed.


Lemma epochs_log_batches td bs device model ve endv n step l :
  epochs_log td bs device model ve endv n step l →
  omap pass_of l = replicate n (RandomSampler, bs)
  ∧ ∃ orders,
      length orders = n
      ∧ Forall (fun order => order ≡ₚ td) orders
      ∧ omap batch_of l = mjoin (batches_of bs <$> orders).
Proof.
  induction 1 as [step|n step order l_epoch vl rest Hperm Hepoch Hvl _
                    (IH1 & orders & Hlen & Hperms & IH2)].
  - split; [done|]. by exists [].
  - apply epoch_log_batches in Hepoch as [He1 He2].
    change (EBatchIter RandomSampler bs :: ?l) with ([EBatchIter RandomSampler bs] ++ l).
    rewrite !omap_app, He1, He2, IH1, IH2.
    rewrite (omap_maybe_validation pass_of _ vl [] pass_of_noise (fun _ => eq_refl) Hvl),
            (omap_maybe_validation batch_of _ vl [] batch_of_noise (fun _ => eq_refl) Hvl).
    split.
    + simpl. by destruct endv.
    + exists (order :: orders). split; [simpl; by rewrite Hlen|].
      split; [by constructor|]. simpl. by destruct endv.
Qed.

Lemma omap_train_log {A} (f : event → option A) opener epochs closer :
  f EModeTrain = None → f EPrint = None →
  (∀ e, is_writer e → f e = None) →
  Forall is_writer (opener ++ closer) →
  omap f (EModeTrain :: EPrint :: opener ++ epochs ++ closer) = omap f epochs.
Proof.
  intros H1 H2 Hw [Ho Hc]%Forall_app.
  change (EModeTrain :: EPrint :: ?l) with ([EModeTrain; EPrint] ++ l).
  rewrite !omap_app.
  assert (∀ l, Forall is_writer l → omap f l = []) as Hnil.
  { intros l0 Hl0. apply omap_None. intros e He.
    apply Hw. by eapply Forall_forall in Hl0. }
  rewrite (Hnil opener Ho), (Hnil closer Hc), app_nil_r. simpl. by rewrite H1, H2.
Qed.

(** C4. In an epoch that runs to its end, every batch goes through the
    same steps in the same order: it is moved to the device of the model,
    forwarded through the model, the loss is computed from what the model
    returned and the targets of the batch, the gradients are zeroed and
    the loss back-propagated, and the optimizer is stepped; there is one
    update per batch. *)
Theorem C4_train_epoch_steps (env : Externals) (batches : list (fields * fields))
    (model : Module) (epoch : Z) (dev_data : option DataSet) (ts : Trainer.TState) :
  outcome (Trainer._train_epoch env batches model epoch dev_data ts) = Ok tt →
  (∃ preds,
      Forall2 (fun b p => ∃ w, body (forward model) w (_build_args (forward model) b.1)
                               = Ok (RDict p)) batches preds
      ∧ omap step_of (log (Trainer._train_epoch env batches model epoch dev_data ts))
        = mjoin (zip_with (batch_steps (Trainer._model_device (Trainer.obj ts)) model)
                          batches preds))
  ∧ updates (Trainer.world
               (state (Trainer._train_epoch env batches model epoch dev_data ts)))
    = (updates (Trainer.world ts) + length batches)%nat.
Proof.
  destruct (Trainer._train_epoch env batches model epoch dev_data ts)
    as [[o ts'] l] eqn:H.
  unfold outcome, state, log. simpl. intros ->.
  apply train_epoch_Ok in H as (Hlog & _ & Hup).
  split; [|done]. by apply epoch_log_steps in Hlog.
Qed.

(** The part of C5 on [Tester.test]: one iterator, with the sequential
    sampler; the batches are those of the data in its own order. *)
Lemma test_sequential (env : Externals) (t : Tester.self) (w : World) res :
  outcome (Tester.test env t w) = Ok res →
  ∃ sub, log (Tester.test env t w) = [ETest sub]
    ∧ omap pass_of sub = [(SequentialSampler, Tester.batch_size t)]
    ∧ omap batch_of sub = batches_of (Tester.batch_size t) (Tester.data t).
Proof.
  unfold Tester.test, scoped.
  destruct (Tester.test_body env t w) as [[o w'] l] eqn:H.
  unfold outcome, log. simpl. intros ->. exists l. split; [done|].
  apply test_body_Ok in H as (preds & caught & rest & lm & tail & _ & Hm & -> & -> & _).
  apply apply_metrics_log in Hm.
  assert (Hlm : ∀ {A} (f : event → option A),
             (∀ n o t, f (EMetric n o t) = None) → omap f lm = []).
  { intros A f Hf. apply omap_None. intros e He.
    eapply Forall_forall in Hm as (n & o & t' & ->); [|exact He]. apply Hf. }
  change (EModeEval :: EBatchIter SequentialSampler ?bs :: ?l0)
    with ([EModeEval; EBatchIter SequentialSampler bs] ++ l0).
  rewrite !omap_app, !omap_test_batch_events, !Hlm by done.
  split.
  - simpl. rewrite flat_map_nil. by destruct (0 <=? Tester.verbose t).
  - simpl. rewrite flat_map_singleton.
    destruct (0 <=? Tester.verbose t); simpl; rewrite app_nil_r;
      (transitivity (id <$> batches_of (Tester.batch_size t) (Tester.data t));
       [apply list_fmap_ext; by intros ? []|by rewrite list_fmap_id]).
Qed.

(** C5. A call of [train] that returns has made [n_epochs] passes (none
    when that is not positive): each creates one iterator with the random
    sampler and the batch size of the trainer, and trains on the batches
    of a permutation of the training data, cut at that batch size; with a
    positive batch size these batches hold every instance once.
    [Tester.test] creates one iterator with the sequential sampler and
    takes the batches of its data in their own order. *)
Theorem C5_train_passes (env : Externals) (ts : Trainer.TState) :
  outcome (Trainer.train env ts) = Ok tt →
  let s := Trainer.obj ts in
  omap pass_of (log (Trainer.train env ts))
    = replicate (Z.to_nat (Trainer.n_epochs s)) (RandomSampler, Trainer.batch_size s)
  ∧ (∃ orders,
        length orders = Z.to_nat (Trainer.n_epochs s)
        ∧ Forall (fun order => order ≡ₚ Trainer.train_data s) orders
        ∧ omap batch_of (log (Trainer.train env ts))
          = mjoin (batches_of (Trainer.batch_size s) <$> orders)
        ∧ (0 < Trainer.batch_size s →
           Forall (fun order =>
                     concat (chunks (Z.to_nat (Trainer.batch_size s)) order) = order)
                  orders))
  ∧ (∀ t w res,
        outcome (Tester.test env t w) = Ok res →
        ∃ sub, log (Tester.test env t w) = [ETest sub]
          ∧ omap pass_of sub = [(SequentialSampler, Tester.batch_size t)]
          ∧ omap batch_of sub = batches_of (Tester.batch_size t) (Tester.data t)).
Proof.
  destruct (Trainer.train env ts) as [[o ts'] l] eqn:H.
  unfold outcome, log. simpl. intros ->.
  apply train_Ok in H as (opener & epochs & closer & -> & Hw & Hlog).
  apply epochs_log_batches in Hlog as (Hpass & orders & Hlen & Hperms & Hbatches).
  rewrite !omap_train_log by (done || by intros []).
  split; [done|]. split.
  - exists orders. repeat split; try done.
    intros Hbs. apply Forall_forall. intros order _. apply concat_chunks. lia.
  - apply test_sequential.
Qed.


Lemma C4_train_epoch_steps_witness :
  let batches := batches_of 2 Sample.data3 in
  let ts := Sample.running 1 2 (Some "save") in
  (∃ preds,
      Forall2 (fun b p => ∃ w, body (forward Sample.net) w
                                 (_build_args (forward Sample.net) b.1)
                               = Ok (RDict p)) batches preds
      ∧ omap step_of (log (Trainer._train_epoch Sample.env batches Sample.net 1
                                                (Some Sample.data3) ts))
        = mjoin (zip_with (batch_steps (Trainer._model_device (Trainer.obj ts))
                                       Sample.net) batches preds))
  ∧ updates (Trainer.world
               (state (Trainer._train_epoch Sample.env batches Sample.net 1
                                            (Some Sample.data3) ts)))
    = (updates (Trainer.world ts) + length batches)%nat.
Proof.
  intros batches ts.
  apply (C4_train_epoch_steps Sample.env batches Sample.net 1 (Some Sample.data3) ts).
  vm_compute. reflexivity.
Defined.

Lemma C5_train_passes_witness :
  let ts := Sample.fresh 2 (-1) None in
  let s := Trainer.obj ts in
  omap pass_of (log (Trainer.train Sample.env ts))
    = replicate (Z.to_nat (Trainer.n_epochs s)) (RandomSampler, Trainer.batch_size s)
  ∧ (∃ orders,
        length orders = Z.to_nat (Trainer.n_epochs s)
        ∧ Forall (fun order => order ≡ₚ Trainer.train_data s) orders
        ∧ omap batch_of (log (Trainer.train Sample.env ts))
          = mjoin (batches_of (Trainer.batch_size s) <$> orders)
        ∧ (0 < Trainer.batch_size s →
           Forall (fun order =>
                     concat (chunks (Z.to_nat (Trainer.batch_size s)) order) = order)
                  orders))
  ∧ (∀ t w res,
        outcome (Tester.test Sample.env t w) = Ok res →
        ∃ sub, log (Tester.test Sample.env t w) = [ETest sub]
          ∧ omap pass_of sub = [(SequentialSampler, Tester.batch_size t)]
          ∧ omap batch_of sub = batches_of (Tester.batch_size t) (Tester.data t)).
Proof.
  intros ts.
  apply (C5_train_passes Sample.env ts).
  vm_compute. reflexivity.
Defined.


(** The two schedules on the sample: two epochs of two batches. *)
Example schedule_every_2_steps :
  omap tick_of (log (Trainer.train Sample.env (Sample.fresh 2 2 (Some "save"))))
  = [TEpoch; TBatch; TValidate; TBatch; TEpoch; TBatch; TValidate; TBatch].
Proof. vm_compute. reflexivity. Qed.

Example schedule_end_of_epoch :
  omap tick_of (log (Trainer.train Sample.env (Sample.fresh 2 (-1) (Some "save"))))
  = [TEpoch; TBatch; TBatch; TValidate; TEpoch; TBatch; TBatch; TValidate].
Proof. vm_compute. reflexivity. Qed.

(** ** The check before training *)

Section only_logs.
Context (P : event → Prop).

Lemma only_logs_ret {A} (a : A) : only_logs P (ret a).
Proof. intros w. by exists (Ok a), []. Qed.

Lemma only_logs_raise {A} (e : exn) : only_logs P (raise (A := A) e).
Proof. intros w. by exists (Raise e), []. Qed.

Lemma only_logs_lift {A} (o : Outcome A) : only_logs P (lift o).
Proof. intros w. by exists o, []. Qed.

Lemma only_logs_emit (e : event) : P e → only_logs P (emit e).
Proof. intros He w. exists (Ok tt), [e]. split; [done|]. by repeat constructor. Qed.

Lemma only_logs_bind {A B} (m : M World A) (k : A → M World B) :
  only_logs P m → (∀ a, only_logs P (k a)) → only_logs P (bind m k).
Proof.
  intros Hm Hk w. destruct (Hm w) as (o & l & Hrun & Hl).
  unfold bind. rewrite Hrun. destruct o as [a| e |].
  - destruct (Hk a w) as (o2 & l2 & -> & Hl2).
    exists o2, (l ++ l2). split; [done|]. by apply Forall_app.
  - by exists (Raise e), l.
  - by exists OutOfFuel, l.
Qed.

Lemma only_logs_get {B} (k : World → M World B) :
  (∀ w, only_logs P (k w)) → only_logs P (bind get k).
Proof.
  intros Hk w. rewrite bind_get. apply Hk.
Qed.

Lemma only_logs_try_except {A} (body : M World A) (handler : exn → M World A) :
  only_logs P body → (∀ e, only_logs P (handler e)) →
  only_logs P (try_except_CheckError body handler).
Proof.
  intros Hb Hh w. destruct (Hb w) as (o & l & Hrun & Hl).
  unfold try_except_CheckError. rewrite Hrun. destruct o as [a| e |].
  - by exists (Ok a), l.
  - destruct (is_CheckError e).
    + destruct (Hh e w) as (o2 & l2 & -> & Hl2).
      exists o2, (l ++ l2). split; [done|]. by apply Forall_app.
    + by exists (Raise e), l.
  - by exists OutOfFuel, l.
Qed.
End only_logs.

Ltac only_logs_tac :=
  repeat first
    [ apply only_logs_ret | apply only_logs_raise | apply only_logs_lift
    | apply only_logs_emit; done
    | apply only_logs_get; intros ?
    | apply only_logs_bind; [|intros ?]
    | apply only_logs_try_except; [|intros ?]
    | match goal with
      | |- only_logs _ (if ?c then _ else _) => destruct c
      | |- only_logs _ (match ?x with _ => _ end) => destruct x
      end ].

(** The check of one batch leaves the world alone; it logs the move of
    the batch, then calls of the model and the loss. *)
Lemma check_batch_run (env : Externals) model losser level dev bc batch w :
  ∃ o l,
    Trainer.check_batch env model losser level dev bc batch w
    = (o, w, EMove dev batch.1 batch.2 :: l)
    ∧ Forall is_check l.
Proof.
  destruct batch as [bx b_y].
  unfold Trainer.check_batch, _move_dict_value_to_device, call.
  rewrite bind_emit.
  match goal with
  | |- context [prepend _ (?m w)] => assert (Hm : only_logs is_check m)
  end.
  { only_logs_tac. }
  destruct (Hm w) as (o & l & -> & Hl). by exists o, l.
Qed.

Lemma bind_try_except {A B} (body : M World A) (handler : exn → M World A)
    (k : A → M World B) w :
  bind (try_except_CheckError body handler) k w =
  match body w with
  | (Ok a, w1, l1) => prepend l1 (k a w1)
  | (Raise e, w1, l1) =>
      if is_CheckError e then prepend l1 (bind (handler e) k w1)
      else (Raise e, w1, l1)
  | (OutOfFuel, w1, l1) => (OutOfFuel, w1, l1)
  end.
Proof.
  unfold bind, try_except_CheckError, prepend.
  destruct (body w) as [[[a|e|] w1] l1]; try done.
  - by destruct (k a w1) as [[??]?].
  - destruct (is_CheckError e); [|done].
    destruct (handler e w1) as [[[a| |] w2] l2]; simpl; try done.
    destruct (k a w2) as [[??]?]. by rewrite <- app_assoc.
Qed.

(** The check of a batch calls the model at most once, on the declared
    fields of the batch, and the loss at most once. *)
Lemma check_batch_calls (env : Externals) model losser level dev bc batch w :
  ∃ l, log (Trainer.check_batch env model losser level dev bc batch w)
       = EMove dev batch.1 batch.2 :: l
    ∧ (length (omap kwargs_of l) ≤ 1)%nat
    ∧ (length (omap loss_of l) ≤ 1)%nat
    ∧ omap batch_of l = [] ∧ omap pass_of l = [].
Proof.
  destruct batch as [bx b_y].
  unfold Trainer.check_batch, _move_dict_value_to_device, call.
  repeat first
    [ mstep
    | rewrite bind_try_except
    | match goal with
      | |- context [match ?x with _ => _ end] =>
          lazymatch x with
          | context [match _ with _ => _ end] => fail
          | _ => destruct x eqn:?
          end
      end
    | progress unfold prepend; simpl ];
    unfold prepend, emit, ret, raise, lift, log in *; simplify_eq/=;
    (eexists; split; [reflexivity|]; simpl; repeat split; lia || done).
Qed.

Lemma outcome_bind_Raise {S A B} (m : M S A) (k : A → M S B) s e :
  outcome (m s) = Raise e → outcome (bind m k s) = Raise e.
Proof.
  unfold bind, outcome. destruct (m s) as [[[a| |] s1] l1]; simpl; congruence.
Qed.

Lemma outcome_bind_Ok {S A B} (m : M S A) (k : A → M S B) s a :
  outcome (m s) = Ok a → outcome (bind m k s) = outcome (k a (state (m s))).
Proof.
  unfold bind, outcome, state. destruct (m s) as [[[a'| |] s1] l1]; simpl; try done.
  intros [= ->]. by destruct (k a s1) as [[??]?].
Qed.

(** A forward that does not return a dictionary makes the check of the
    batch raise [TypeError], on the first batch and on the second. *)
Lemma check_batch_forward_not_dict (env : Externals) model losser level dev bc
    batch w :
  (bc = 0 → _check_forward_error env (forward model) level batch.1 = Ok tt) →
  body (forward model) w (_build_args (forward model) batch.1) = Ok RNonDict →
  outcome (Trainer.check_batch env model losser level dev bc batch w)
  = Raise TypeError.
Proof.
  destruct batch as [bx b_y]. simpl. intros Hcfe Hbody.
  unfold Trainer.check_batch, _move_dict_value_to_device, call. mrun.
  destruct (bc =? 0) eqn:Hbc.
  - apply Z.eqb_eq in Hbc. cbv iota. rewrite bind_lift, (Hcfe Hbc). mrun.
    by rewrite Hbody.
  - cbv iota. mrun. by rewrite Hbody.
Qed.

(** On the first batch, a loss that is not a tensor raises [TypeError]
    and a tensor that is not a scalar raises [ValueError]. *)
Lemma check_batch_first_loss (env : Externals) model losser level dev batch w
    out loss :
  _check_forward_error env (forward model) level batch.1 = Ok tt →
  body (forward model) w (_build_args (forward model) batch.1) = Ok (RDict out) →
  loss_call losser w out batch.2 = Ok loss →
  match loss with
  | LObject _ =>
      outcome (Trainer.check_batch env model losser level dev 0 batch w)
      = Raise TypeError
  | LTensor (_ :: _) =>
      outcome (Trainer.check_batch env model losser level dev 0 batch w)
      = Raise ValueError
  | LTensor [] => True
  end.
Proof.
  destruct batch as [bx b_y]. simpl. intros Hcfe Hbody Hloss.
  destruct loss as [[|n size]|hb]; [done| |];
    unfold Trainer.check_batch, _move_dict_value_to_device, call; mrun;
    rewrite Hcfe, Hbody, bind_try_except; mrun; rewrite Hloss; by mrun.
Qed.

Lemma check_loop_0 (env : Externals) model losser level dev b0 rest w :
  Trainer.check_loop env model losser level dev 0 (b0 :: rest) w
  = bind (Trainer.check_batch env model losser level dev 0 b0)
         (fun _ => Trainer.check_loop env model losser level dev 1 rest) w.
Proof. done. Qed.

Lemma check_loop_1 (env : Externals) model losser level dev b1 rest w :
  Trainer.check_loop env model losser level dev 1 (b1 :: rest) w
  = bind (Trainer.check_batch env model losser level dev 1 b1)
         (fun _ => ret tt) w.
Proof. done. Qed.

(** The loop of the check takes at most two batches, from the front of
    the iterator; per batch taken, the model is called at most once and
    the loss computed at most once. *)
Lemma check_loop_run (env : Externals) model losser level dev batches w :
  ∃ o l k,
    Trainer.check_loop env model losser level dev 0 batches w = (o, w, l)
    ∧ (k ≤ 2)%nat
    ∧ omap batch_of l = take k batches
    ∧ omap pass_of l = []
    ∧ (length (omap kwargs_of l) ≤ k)%nat
    ∧ (length (omap loss_of l) ≤ k)%nat.
Proof.
  assert (Hbatch : ∀ bc b, ∃ o l,
            Trainer.check_batch env model losser level dev bc b w = (o, w, l)
            ∧ omap batch_of l = [b] ∧ omap pass_of l = []
            ∧ (length (omap kwargs_of l) ≤ 1)%nat
            ∧ (length (omap loss_of l) ≤ 1)%nat).
  { intros bc b.
    destruct (check_batch_run env model losser level dev bc b w) as (o & l & Hrun & _).
    destruct (check_batch_calls env model losser level dev bc b w)
      as (l' & Hlog & H1 & H2 & H3 & H4).
    rewrite Hrun in Hlog. unfold log in Hlog. simpl in Hlog. injection Hlog as <-.
    exists o, (EMove dev b.1 b.2 :: l). split; [done|].
    change (EMove dev b.1 b.2 :: l) with ([EMove dev b.1 b.2] ++ l).
    rewrite !omap_app, H3, H4, !length_app. destruct b. simpl.
    repeat split; lia || done. }
  destruct batches as [|b0 batches].
  { exists (Ok tt), [], 0%nat. repeat split; simpl; lia || done. }
  rewrite check_loop_0. destruct (Hbatch 0 b0) as (o0 & l0 & Hr0 & Hb0 & Hp0 & Hk0 & Hl0).
  unfold bind. rewrite Hr0. destruct o0 as [[]|e|].
  2,3: eexists _, l0, 1%nat; split; [done|]; rewrite Hb0, Hp0;
       repeat split; lia || done.
  destruct batches as [|b1 batches].
  { exists (Ok tt), (l0 ++ []), 1%nat. split; [done|].
    rewrite app_nil_r, Hb0, Hp0. repeat split; lia || done. }
  rewrite check_loop_1. destruct (Hbatch 1 b1) as (o1 & l1 & Hr1 & Hb1 & Hp1 & Hk1 & Hl1).
  unfold bind. rewrite Hr1.
  assert (Hshape : omap batch_of (l0 ++ l1) = take 2 (b0 :: b1 :: batches)
                   ∧ omap pass_of (l0 ++ l1) = []
                   ∧ (length (omap kwargs_of (l0 ++ l1)) ≤ 2)%nat
                   ∧ (length (omap loss_of (l0 ++ l1)) ≤ 2)%nat).
  { rewrite !omap_app, Hb0, Hb1, Hp0, Hp1, !length_app. repeat split; lia || done. }
  destruct o1 as [[]|e|]; simpl; rewrite ?app_nil_r;
    eexists _, (l0 ++ l1), 2%nat; (split; [done|split; [lia|exact Hshape]]).
Qed.

Lemma Tester_init_run (env : Externals) (data model metrics : pyobj)
    (batch_size : Z) (use_cuda : bool) (verbose : Z) (w : World) :
  ∃ o, Tester.__init__ env data model metrics batch_size use_cuda verbose w
       = (o, w, [])
    ∧ is_Ok o = false.
Proof.
  unfold Tester.__init__.
  destruct (is_DataSet data); [|by eexists].
  destruct (is_Module model); [|by eexists]. simpl.
  rewrite bind_lift.
  destruct (_prepare_metrics env metrics) as [ms| |]; by eexists.
Qed.

(** The check takes at most two batches from the front of one sequential
    iterator; whatever it does, it leaves the world as it was. *)
Lemma check_code_run (env : Externals) dataset model losser metrics batch_size
    dev_data level w :
  ∃ o l k,
    Trainer._check_code env dataset model losser metrics batch_size dev_data level w
    = (o, w, l)
    ∧ (k ≤ 2)%nat
    ∧ omap batch_of l = take k (batches_of batch_size dataset)
    ∧ (length (omap kwargs_of l) ≤ k)%nat
    ∧ (length (omap loss_of l) ≤ k)%nat.
Proof.
  unfold Trainer._check_code, Batch. rewrite bind_lift.
  destruct (first_parameter_device model) as [dev| |].
  2,3: eexists _, [], 0%nat; repeat split; simpl; lia || done.
  mrun.
  destruct (check_loop_run env model losser level dev
              (batches_of batch_size dataset) w)
    as (o & l & k & Hrun & Hk & Hb & Hp & Hc & Hl).
  unfold bind at 1. rewrite Hrun.
  assert (Hshape : ∀ l', l' = [] →
            omap batch_of (EBatchIter SequentialSampler batch_size :: l ++ l')
            = take k (batches_of batch_size dataset)
            ∧ (length (omap kwargs_of
                         (EBatchIter SequentialSampler batch_size :: l ++ l')) ≤ k)%nat
            ∧ (length (omap loss_of
                         (EBatchIter SequentialSampler batch_size :: l ++ l')) ≤ k)%nat).
  { intros l' ->. rewrite app_nil_r.
    change (EBatchIter SequentialSampler batch_size :: l)
      with ([EBatchIter SequentialSampler batch_size] ++ l).
    rewrite !omap_app. simpl. by rewrite Hb. }
  destruct o as [[]|e|].
  - destruct dev_data as [d|].
    + destruct (Tester_init_run env
                  (PDataSet (Trainer.slice_to (batch_size * Trainer.DEFAULT_CHECK_NUM_BATCH)
                                              dataset))
                  (PModule model) (PMetrics metrics) batch_size false (-1) w)
        as (o' & Hinit & Hno).
      unfold bind. rewrite Hinit. destruct o' as [t| |]; [done| |];
        eexists _, _, k; (split; [reflexivity|split; [done|by apply Hshape]]).
    + eexists _, _, k. split; [reflexivity|]. split; [done|by apply Hshape].
  - eexists _, _, k. split; [reflexivity|]. split; [done|].
    destruct (Hshape [] eq_refl) as (H1 & H2 & H3). by rewrite app_nil_r in H1, H2, H3.
  - eexists _, _, k. split; [reflexivity|]. split; [done|].
    destruct (Hshape [] eq_refl) as (H1 & H2 & H3). by rewrite app_nil_r in H1, H2, H3.
Qed.

Lemma check_code_first_batch (env : Externals) dataset model losser metrics
    batch_size dev_data level w dev b0 rest e :
  first_parameter_device model = Ok dev →
  batches_of batch_size dataset = b0 :: rest →
  outcome (Trainer.check_batch env model losser level dev 0 b0 w) = Raise e →
  outcome (Trainer._check_code env dataset model losser metrics batch_size
                               dev_data level w) = Raise e.
Proof.
  intros Hdev Hb He. unfold Trainer._check_code, Batch.
  rewrite bind_lift, Hdev. mrun. rewrite Hb, outcome_prepend.
  apply outcome_bind_Raise. rewrite check_loop_0. by apply outcome_bind_Raise.
Qed.

Lemma check_code_second_batch (env : Externals) dataset model losser metrics
    batch_size dev_data level w dev b0 b1 rest e :
  first_parameter_device model = Ok dev →
  batches_of batch_size dataset = b0 :: b1 :: rest →
  outcome (Trainer.check_batch env model losser level dev 0 b0 w) = Ok tt →
  outcome (Trainer.check_batch env model losser level dev 1 b1 w) = Raise e →
  outcome (Trainer._check_code env dataset model losser metrics batch_size
                               dev_data level w) = Raise e.
Proof.
  intros Hdev Hb H0 H1. unfold Trainer._check_code, Batch.
  rewrite bind_lift, Hdev. mrun. rewrite Hb, outcome_prepend.
  apply outcome_bind_Raise. rewrite check_loop_0.
  rewrite (outcome_bind_Ok _ _ _ _ H0). cbv beta.
  destruct (check_batch_run env model losser level dev 0 b0 w) as (o & l & Hrun & _).
  rewrite Hrun. unfold state. simpl fst. simpl snd. rewrite check_loop_1.
  by apply outcome_bind_Raise.
Qed.

(** *** Sizes of batches *)

Lemma column_length (proj : Instance → gmap string Z) (l : list Instance) k v :
  column proj l !! k = Some v → (length v ≤ length l)%nat.
Proof.
  revert v. induction l as [|i l IH]; intros v; simpl.
  - by rewrite lookup_empty.
  - rewrite lookup_union_with, lookup_fmap.
    destruct (proj i !! k) as [x|], (column proj l !! k) as [v'|] eqn:Hv';
      simpl; intros [= <-]; simpl.
    + specialize (IH v' eq_refl). lia.
    + lia.
    + specialize (IH v' eq_refl). lia.
Qed.

Lemma chunks_fuel_bound {A} (n fuel : nat) : ∀ l : list A,
  Forall (fun c => (length c ≤ n)%nat) (chunks_fuel fuel n l).
Proof.
  induction fuel as [|fuel IH]; intros l; [constructor|].
  destruct l as [|x l]; [constructor|].
  change (chunks_fuel (S fuel) n (x :: l))
    with (take n (x :: l) :: chunks_fuel fuel n (drop n (x :: l))).
  constructor; [|apply IH]. rewrite length_take. lia.
Qed.

(** A batch of an iterator with batch size [n] has at most [n] rows
    under each of its fields. *)
Lemma batches_of_rows (batch_size : Z) (data : DataSet) :
  Forall (fun b : fields * fields =>
            ∀ k v, b.1 !! k = Some v ∨ b.2 !! k = Some v →
                   (length v ≤ Z.to_nat batch_size)%nat)
         (batches_of batch_size data).
Proof.
  unfold batches_of, chunks. destruct (Z.to_nat batch_size) as [|n] eqn:Hn;
    [constructor|].
  apply Forall_fmap.
  eapply Forall_impl; [apply (chunks_fuel_bound (S n))|].
  intros c Hc k v [Hv|Hv]; apply column_length in Hv; simpl in *; lia.
Qed.

(** With arguments that pass the tests before it, the constructor of the
    trainer begins with the check: what the check logs comes first, and
    an exception of the check is the exception of the constructor. *)
Lemma Trainer_init_runs_check (env : Externals) (td : DataSet) (m : Module)
    (losser : option Losser) (lo : Losser) (metrics : pyobj) (ms : list Metric)
    (n_epochs batch_size print_every validate_every : Z)
    (dev_data : option DataSet) (use_cuda : bool) (save_path : option string)
    (level : Z) (kwargs : gmap string pyobj) (w : World) :
  truthy env metrics = bool_decide (dev_data ≠ None) →
  _prepare_metrics env metrics = Ok ms →
  _prepare_losser env losser = Ok lo →
  -1 < level →
  ∃ k,
    Trainer.__init__ env (PDataSet td) (PModule m) losser metrics n_epochs batch_size
                     print_every validate_every dev_data use_cuda save_path level
                     kwargs w
    = bind (Trainer._check_code env td m lo ms Trainer.DEFAULT_CHECK_BATCH_SIZE
                                dev_data level) k w.
Proof.
  intros Hx Hms Hlo Hlevel. unfold Trainer.__init__.
  rewrite Hx. destruct dev_data as [d|]; simpl.
  - rewrite bind_lift, Hms, bind_lift, Hlo.
    apply Z.ltb_lt in Hlevel. rewrite Hlevel. by eexists.
  - rewrite bind_lift, Hms, bind_lift, Hlo.
    apply Z.ltb_lt in Hlevel. rewrite Hlevel. by eexists.
Qed.

Lemma log_bind_prefix {S A B} (m : M S A) (k : A → M S B) s :
  ∃ rest, log (bind m k s) = log (m s) ++ rest.
Proof.
  unfold bind, log. destruct (m s) as [[[a| |] s1] l1]; simpl.
  - destruct (k a s1) as [[o s2] l2]. by exists l2.
  - exists []. by rewrite app_nil_r.
  - exists []. by rewrite app_nil_r.
Qed.

(** C8, as amended.  With a check level above -1 (and arguments that
    pass the tests before it), the constructor of the trainer runs the
    check first.  The check takes at most two batches, of at most two
    instances each, from the front of the training data, calls the model
    at most once per batch and the loss at most once per batch.  It
    raises [TypeError] when the model returns something that is not a
    dictionary, on the first batch or on the second; and, on the first
    batch only, [TypeError] when the loss is not a tensor and
    [ValueError] when the loss is a tensor that is not a scalar. *)
Theorem C8_check_before_training (env : Externals) (td : DataSet) (m : Module)
    (losser : option Losser) (lo : Losser) (metrics : pyobj) (ms : list Metric)
    (n_epochs batch_size print_every validate_every : Z)
    (dev_data : option DataSet) (use_cuda : bool) (save_path : option string)
    (level : Z) (kwargs : gmap string pyobj) (w : World) (dev : string) :
  truthy env metrics = bool_decide (dev_data ≠ None) →
  _prepare_metrics env metrics = Ok ms →
  _prepare_losser env losser = Ok lo →
  first_parameter_device m = Ok dev →
  -1 < level →
  let init :=
    Trainer.__init__ env (PDataSet td) (PModule m) losser metrics n_epochs batch_size
                     print_every validate_every dev_data use_cuda save_path level
                     kwargs w in
  let check :=
    Trainer._check_code env td m lo ms Trainer.DEFAULT_CHECK_BATCH_SIZE dev_data
                        level w in
  let batches := batches_of 2 td in
  let kw (b : fields * fields) := _build_args (forward m) b.1 in
  (∃ rest, log init = log check ++ rest)
  ∧ (∀ e, outcome check = Raise e → outcome init = Raise e)
  ∧ (∃ k, (k ≤ 2)%nat
          ∧ omap batch_of (log check) = take k batches
          ∧ (length (omap kwargs_of (log check)) ≤ k)%nat
          ∧ (length (omap loss_of (log check)) ≤ k)%nat)
  ∧ Forall (fun b : fields * fields =>
              ∀ f v, b.1 !! f = Some v ∨ b.2 !! f = Some v → (length v ≤ 2)%nat)
           batches
  ∧ (∀ b0 rest,
        batches = b0 :: rest →
        _check_forward_error env (forward m) level b0.1 = Ok tt →
        (body (forward m) w (kw b0) = Ok RNonDict → outcome check = Raise TypeError)
        ∧ (∀ out has_backward,
              body (forward m) w (kw b0) = Ok (RDict out) →
              loss_call lo w out b0.2 = Ok (LObject has_backward) →
              outcome check = Raise TypeError)
        ∧ (∀ out d size,
              body (forward m) w (kw b0) = Ok (RDict out) →
              loss_call lo w out b0.2 = Ok (LTensor (d :: size)) →
              outcome check = Raise ValueError)
        ∧ (∀ b1 rest',
              rest = b1 :: rest' →
              outcome (Trainer.check_batch env m lo level dev 0 b0 w) = Ok tt →
              body (forward m) w (kw b1) = Ok RNonDict →
              outcome check = Raise TypeError)).
Proof.
  intros Hx Hms Hlo Hdev Hlevel init check batches kw.
  destruct (Trainer_init_runs_check env td m losser lo metrics ms n_epochs batch_size
              print_every validate_every dev_data use_cuda save_path level kwargs w
              Hx Hms Hlo Hlevel) as [k Hinit].
  subst init check. rewrite Hinit.
  split; [apply log_bind_prefix|].
  split; [intros e He; by apply outcome_bind_Raise|].
  split.
  { destruct (check_code_run env td m lo ms Trainer.DEFAULT_CHECK_BATCH_SIZE
                dev_data level w) as (o & l & n & -> & Hn & Hb & Hc & Hl).
    by exists n. }
  split; [apply (batches_of_rows 2 td)|].
  intros b0 rest Hb Hcfe. split; [|split; [|split]].
  - intros Hbody. eapply check_code_first_batch; [done|exact Hb|].
    by apply check_batch_forward_not_dict.
  - intros out hb Hbody Hloss. eapply check_code_first_batch; [done|exact Hb|].
    exact (check_batch_first_loss env m lo level dev b0 w out (LObject hb)
             Hcfe Hbody Hloss).
  - intros out d size Hbody Hloss. eapply check_code_first_batch; [done|exact Hb|].
    exact (check_batch_first_loss env m lo level dev b0 w out (LTensor (d :: size))
             Hcfe Hbody Hloss).
  - intros b1 rest' -> H0 Hbody.
    eapply check_code_second_batch; [done|exact Hb|done|].
    by apply check_batch_forward_not_dict.
Qed.

Lemma C8_check_before_training_witness :
  outcome (Trainer.__init__ Sample.env (PDataSet Sample.data3) (PModule Sample.bad_net)
             None PNone 3 32 (-1) (-1) None false (Some "./save") 0 ∅ Sample.world0)
  = Raise TypeError.
Proof.
  destruct (C8_check_before_training Sample.env Sample.data3 Sample.bad_net None
              Sample.scalar_loss PNone [] 3 32 (-1) (-1) None false (Some "./save")
              0 ∅ Sample.world0 "cpu")
    as (_ & Hraise & _ & _ & Hfirst);
    [reflexivity | reflexivity | reflexivity | reflexivity | lia |].
  apply Hraise.
  apply (Hfirst Sample.batch0 [Sample.batch1]);
    [vm_compute; reflexivity | reflexivity | reflexivity].
Defined.

(** C8 as first stated fails: the loss is tested on the first batch
    only.  With a loss that is a scalar tensor on the first batch and
    not a tensor on the second, the check processes both batches and
    returns, and so does the constructor. *)
Lemma C8_counterexample :
  let check :=
    Trainer._check_code Sample.env Sample.data3 Sample.net Sample.pair_loss []
                        Trainer.DEFAULT_CHECK_BATCH_SIZE None 0 Sample.world0 in
  let init :=
    Trainer.__init__ Sample.env (PDataSet Sample.data3) (PModule Sample.net)
                     (Some Sample.pair_loss) PNone 3 32 (-1) (-1) None false
                     (Some "./save") 0 ∅ Sample.world0 in
  omap batch_of (log check) = [Sample.batch0; Sample.batch1]
  ∧ omap loss_of (log check)
    = [({[ "pred" := [1; 2] ]}, Sample.batch0.2); ({[ "pred" := [3] ]}, Sample.batch1.2)]
  ∧ loss_call Sample.pair_loss Sample.world0 {[ "pred" := [3] ]} Sample.batch1.2
    = Ok (LObject true)
  ∧ outcome check = Ok tt
  ∧ is_Ok (outcome init) = true.
Proof. cbv zeta. repeat apply conj; vm_compute; reflexivity. Qed.

(** ** The fuel of the loop of [train]

    [train] gives its loop [n_epochs] units of fuel.  That is enough:
    the loop gives the same result, log and state with any larger
    amount, so the outcome of [train] never comes from the fuel. *)
Lemma bind_ext_Ok {S A B} (m : M S A) (k1 k2 : A → M S B) s :
  (∀ a s1 l1, m s = (Ok a, s1, l1) → k1 a s1 = k2 a s1) →
  bind m k1 s = bind m k2 s.
Proof.
  unfold bind. destruct (m s) as [[[a| |] s1] l1]; try done.
  intros H. by rewrite (H a s1 l1 eq_refl).
Qed.

Lemma train_loop_fuel (env : Externals) (fuel : nat) :
  ∀ (fuel' : nat) (epoch : Z) (ts : Trainer.TState),
  (Z.to_nat (Trainer.n_epochs (Trainer.obj ts) - epoch + 1) ≤ fuel)%nat →
  (Z.to_nat (Trainer.n_epochs (Trainer.obj ts) - epoch + 1) ≤ fuel')%nat →
  Trainer.train_loop env fuel epoch ts = Trainer.train_loop env fuel' epoch ts.
Proof.
  induction fuel as [|fuel IH]; intros fuel' epoch ts Hf Hf';
    rewrite (train_loop_unfold env _ epoch), ?(train_loop_unfold env fuel' epoch);
    unfold Trainer.attr; mrun.
  - destruct (epoch <=? _) eqn:Hle; [apply Z.leb_le in Hle; lia|].
    by destruct fuel'.
  - destruct (epoch <=? _) eqn:Hle; [|by destruct fuel'].
    apply Z.leb_le in Hle. destruct fuel' as [|fuel']; [lia|].
    mrun. apply bind_ext_Ok. intros batches ts0 l0 [_ Hobj0]%liftW_Ok.
    mrun. apply bind_ext_Ok. intros [] ts1 l1 Hepoch.
    apply train_epoch_Ok in Hepoch as (_ & [best1 Hobj1] & _).
    mrun. apply bind_ext_Ok. intros [] ts2 l2 Hv.
    assert (Hn : Trainer.n_epochs (Trainer.obj ts2) = Trainer.n_epochs (Trainer.obj ts)).
    { assert (Trainer.n_epochs (Trainer.obj ts2) = Trainer.n_epochs (Trainer.obj ts1))
        as ->.
      { destruct (_ && _).
        - apply do_validation_frame in Hv as (_ & [best2 ->] & _). done.
        - by injection Hv as <- _. }
      by rewrite Hobj1, <- Hobj0. }
    apply IH; rewrite Hn; lia.
Qed.

(** The loop of [train] with more fuel than [n_epochs]: same result. *)
Lemma train_fuel_adequate (env : Externals) (fuel : nat) (ts : Trainer.TState) :
  (Z.to_nat (Trainer.n_epochs (Trainer.obj ts)) ≤ fuel)%nat →
  Trainer.train_loop env fuel 1 ts
  = Trainer.train_loop env (Z.to_nat (Trainer.n_epochs (Trainer.obj ts))) 1 ts.
Proof.
  intros H. apply train_loop_fuel; [|apply Nat.eq_le_incl; f_equal]; lia.
Qed.

(** ** Methods of the trainer, whatever their outcome *)

Section triple.
Context (I : Trainer.self → Prop) (P : event → Prop).

Lemma triple_ret {A} (a : A) (Q : A → Prop) : Q a → triple I P (ret a) Q.
Proof. intros HQ ts HI. split; [done|]. split; [constructor|]. by intros ? [= <-]. Qed.

Lemma triple_raise {A} (e : exn) (Q : A → Prop) : triple I P (raise e) Q.
Proof. intros ts HI. split; [done|]. split; [constructor|]. by intros ?. Qed.

Lemma triple_lift {A} (o : Outcome A) (Q : A → Prop) :
  (∀ a, o = Ok a → Q a) → triple I P (lift o) Q.
Proof. intros HQ ts HI. split; [done|]. split; [constructor|]. exact HQ. Qed.

Lemma triple_attr {A} (f : Trainer.self → A) :
  triple I P (Trainer.attr f) (fun a => ∃ s, I s ∧ a = f s).
Proof.
  intros ts HI. split; [done|]. split; [constructor|].
  intros a [= <-]. by exists (Trainer.obj ts).
Qed.

Lemma triple_gets {A} (f : Trainer.TState → A) :
  triple I P (gets f) (fun _ => True).
Proof. intros ts HI. split; [done|]. split; [constructor|done]. Qed.

Lemma triple_assign (f : Trainer.self → Trainer.self) :
  (∀ s, I s → I (f s)) → triple I P (Trainer.assign f) (fun _ => True).
Proof. intros Hf ts HI. split; [by apply Hf|]. split; [constructor|done]. Qed.

Lemma triple_liftW {A} (m : M World A) :
  (∀ w, Forall P (log (m w))) → triple I P (Trainer.liftW m) (fun _ => True).
Proof.
  intros Hm ts HI. unfold Trainer.liftW, state, log, outcome.
  specialize (Hm (Trainer.world ts)). unfold log in Hm.
  destruct (m (Trainer.world ts)) as [[o w] l]. by simpl in *.
Qed.

Lemma triple_weaken {A} (m : M Trainer.TState A) (Q R : A → Prop) :
  triple I P m Q → (∀ a, Q a → R a) → triple I P m R.
Proof.
  intros Hm HQR ts HI. destruct (Hm ts HI) as (H1 & H2 & H3).
  split; [done|]. split; [done|]. intros a Ha. by apply HQR, H3.
Qed.

Lemma triple_bind {A B} (m : M Trainer.TState A) (k : A → M Trainer.TState B)
    (Q : A → Prop) (R : B → Prop) :
  triple I P m Q → (∀ a, Q a → triple I P (k a) R) → triple I P (bind m k) R.
Proof.
  intros Hm Hk ts HI. destruct (Hm ts HI) as (H1 & H2 & H3).
  unfold bind, state, log, outcome in *.
  destruct (m ts) as [[[a| |] ts1] l1]; simpl in *; try done.
  destruct (Hk a (H3 a eq_refl) ts1 H1) as (K1 & K2 & K3).
  unfold state, log, outcome in *.
  destruct (k a ts1) as [[o ts2] l2]; simpl in *.
  split; [done|]. split; [by apply Forall_app|done].
Qed.

Lemma triple_forM_ {A} (body : A → M Trainer.TState unit) (l : list A) :
  (∀ x, triple I P (body x) (fun _ => True)) →
  triple I P (forM_ body l) (fun _ => True).
Proof.
  intros Hb. unfold forM_.
  induction l as [|x l IH]; simpl.
  - by apply triple_ret.
  - eapply triple_bind; [apply Hb|]. by intros [] _.
Qed.
End triple.

Ltac triple_bind_tac :=
  lazymatch goal with
  | |- triple _ _ (bind (A := unit) _ _) _ =>
      eapply (triple_bind _ _ _ _ (fun _ => True)); [|intros [] _]
  | |- triple _ _ (bind _ _) _ =>
      eapply triple_bind; [|intros ? ?]
  end.

Ltac triple_leaf :=
  first [ apply triple_ret; done
        | apply triple_raise
        | apply triple_lift; done
        | apply triple_attr
        | apply triple_gets
        | apply triple_liftW; intros ?; unfold log, emit; simpl;
          repeat constructor; done ].

Section train_triples.
Context (env : Externals) (s0 : Trainer.self).

Lemma advanced_refl : advanced s0 s0.
Proof.
  exists (Trainer._best_accuracy s0), (Trainer.step s0).
  split; [by destruct s0|done].
Qed.

Lemma advanced_fields s :
  advanced s0 s →
  Trainer.save_path s = Trainer.save_path s0
  ∧ Trainer._summary_writer s = Trainer._summary_writer s0
  ∧ Trainer.start_time s = Trainer.start_time s0
  ∧ Trainer.tester s = Trainer.tester s0.
Proof. by intros (best & st & -> & _). Qed.

Lemma advanced_set_step s st : advanced s0 s → advanced s0 (Trainer.set_step st s).
Proof. intros (best & st' & -> & H). by exists best, st. Qed.

Lemma advanced_set_best s dir best :
  Trainer.save_path s0 = Some dir →
  advanced s0 s → advanced s0 (Trainer.set__best_accuracy best s).
Proof.
  intros Hsp (best' & st & -> & H). exists best, st. split; [done|].
  by rewrite Hsp.
Qed.

Lemma triple_data_forward network x :
  triple (advanced s0) (train_event s0) (Trainer.data_forward network x)
         (fun _ => True).
Proof.
  unfold Trainer.data_forward.
  eapply (triple_bind _ _ _ _ (fun _ => True)).
  - apply triple_liftW. intros w. unfold call, log, bind, get, emit, lift. simpl.
    by repeat constructor.
  - intros [y|] _; triple_leaf.
Qed.

Lemma triple_get_loss predict truth :
  triple (advanced s0) (train_event s0) (Trainer.get_loss predict truth)
         (fun _ => True).
Proof.
  unfold Trainer.get_loss.
  triple_bind_tac; [triple_leaf|].
  triple_bind_tac; [triple_leaf|].
  triple_bind_tac; [triple_leaf|].
  triple_leaf.
Qed.

Lemma triple_grad_backward loss :
  triple (advanced s0) (train_event s0) (Trainer.grad_backward loss)
         (fun _ => True).
Proof.
  unfold Trainer.grad_backward.
  triple_bind_tac; [triple_leaf|].
  triple_bind_tac; [triple_leaf|].
  triple_leaf.
Qed.

Lemma triple_update :
  triple (advanced s0) (train_event s0) Trainer.update (fun _ => True).
Proof.
  unfold Trainer.update. apply triple_liftW. intros w.
  unfold log, bind, emit, modify. simpl. by repeat constructor.
Qed.

Lemma triple_get_summary_writer :
  triple (advanced s0) (train_event s0) Trainer.get_summary_writer
         (fun sw => Trainer._summary_writer s0 = Some sw).
Proof.
  unfold Trainer.get_summary_writer.
  triple_bind_tac; [triple_leaf|].
  destruct H as (s & (_ & Hsw & _)%advanced_fields & ->).
  destruct (Trainer._summary_writer s) as [sw|] eqn:Hs; [|triple_leaf].
  apply triple_ret. congruence.
Qed.

Lemma triple_add_scalar sw tag :
  Trainer._summary_writer s0 = Some sw →
  triple (advanced s0) (train_event s0) (Trainer.add_scalar sw tag)
         (fun _ => True).
Proof.
  intros Hsw. unfold Trainer.add_scalar. destruct sw as [|p]; [triple_leaf|].
  triple_bind_tac; [triple_leaf|].
  apply triple_liftW. intros w. unfold log, emit. simpl.
  constructor; [|constructor]. by exists p.
Qed.

Lemma triple_best_eval_result dir res :
  Trainer.save_path s0 = Some dir →
  triple (advanced s0) (train_event s0) (Trainer.best_eval_result res)
         (fun _ => True).
Proof.
  intros Hsp. unfold Trainer.best_eval_result.
  eapply (triple_bind _ _ _ _ (fun _ => True)).
  - destruct (map_to_list res) as [|[k v] [|]]; try triple_leaf;
      (triple_bind_tac; [triple_leaf|]);
      destruct (_ !! "eval_sort_key") as [[]|]; try triple_leaf;
      destruct (res !! _); triple_leaf.
  - intros acc _. triple_bind_tac; [triple_leaf|].
    destruct (_ <? _); [|triple_leaf].
    triple_bind_tac; [|triple_leaf].
    apply triple_assign. intros s Hs. by eapply advanced_set_best.
Qed.

Lemma triple_save_model model st :
  Trainer.start_time s0 = Some st →
  triple (advanced s0) (train_event s0)
         (Trainer.save_model model (String.append "best_model_" st))
         (fun _ => True).
Proof.
  intros Hst. unfold Trainer.save_model.
  triple_bind_tac; [triple_leaf|].
  destruct H as (s & (Hsp & _)%advanced_fields & ->).
  destruct (Trainer.save_path s) as [dir|] eqn:Hs; [|triple_leaf].
  apply triple_liftW. intros w. unfold log, emit. simpl.
  constructor; [|constructor]. exists dir, st. split; [congruence|done].
Qed.

Lemma triple_do_validation :
  triple (advanced s0) (train_event s0) (Trainer.do_validation env)
         (fun _ => True).
Proof.
  unfold Trainer.do_validation.
  eapply triple_bind; [apply triple_attr|].
  intros ? (s & (_ & _ & _ & Ht)%advanced_fields & ->).
  eapply (triple_bind _ _ _ _ (fun _ => True)).
  { destruct (Trainer.tester s) as [t|] eqn:Hs; [|triple_leaf].
    apply triple_liftW. intros w. destruct (test_log env t w) as [sub ->].
    constructor; [|constructor]. exists t. congruence. }
  intros res _.
  triple_bind_tac.
  { apply triple_forM_. intros kv.
    triple_bind_tac; [apply triple_get_summary_writer|].
    by apply triple_add_scalar. }
  eapply triple_bind; [apply triple_attr|].
  intros ? (s' & (Hsp & _)%advanced_fields & ->).
  destruct (Trainer.save_path s') as [dir|] eqn:Hs'; [|triple_leaf].
  rewrite Hsp in Hs'.
  eapply (triple_bind _ _ _ _ (fun _ => True));
    [by eapply triple_best_eval_result|].
  intros [] _; [|triple_leaf].
  triple_bind_tac; [triple_leaf|].
  eapply triple_bind; [apply triple_attr|].
  intros ? (s'' & (_ & _ & Hst & _)%advanced_fields & ->).
  destruct (Trainer.start_time s'') as [st|] eqn:Hs''; [|triple_leaf].
  apply triple_save_model. congruence.
Qed.

Lemma triple_train_batch model batch :
  triple (advanced s0) (train_event s0) (Trainer.train_batch env model batch)
         (fun _ => True).
Proof.
  destruct batch as [bx b_y]. unfold Trainer.train_batch.
  triple_bind_tac; [triple_leaf|].
  triple_bind_tac.
  { apply triple_liftW. intros w. unfold _move_dict_value_to_device, log, emit.
    simpl. by repeat constructor. }
  triple_bind_tac; [apply triple_data_forward|].
  triple_bind_tac; [apply triple_get_loss|].
  triple_bind_tac; [apply triple_grad_backward|].
  triple_bind_tac; [apply triple_update|].
  triple_bind_tac; [apply triple_get_summary_writer|].
  triple_bind_tac; [triple_leaf|].
  triple_bind_tac; [by apply triple_add_scalar|].
  triple_bind_tac; [triple_leaf|].
  triple_bind_tac.
  { apply triple_forM_. intros p. destruct (p.1.2); [|triple_leaf].
    triple_bind_tac; [apply triple_get_summary_writer|].
    by apply triple_add_scalar. }
  triple_bind_tac; [triple_leaf|].
  triple_bind_tac; [triple_leaf|].
  triple_bind_tac; [destruct (_ && _); triple_leaf|].
  triple_bind_tac; [triple_leaf|].
  triple_bind_tac; [triple_leaf|].
  triple_bind_tac.
  { destruct (_ && _); [apply triple_do_validation|triple_leaf]. }
  triple_bind_tac; [triple_leaf|].
  apply triple_assign. intros s Hs. by apply advanced_set_step.
Qed.

Lemma triple_train_epoch batches model epoch dd :
  triple (advanced s0) (train_event s0)
         (Trainer._train_epoch env batches model epoch dd) (fun _ => True).
Proof. apply triple_forM_. intros b. apply triple_train_batch. Qed.

Lemma triple_train_loop fuel : ∀ epoch,
  triple (advanced s0) (train_event s0) (Trainer.train_loop env fuel epoch)
         (fun _ => True).
Proof.
  induction fuel as [|fuel IH]; intros epoch; rewrite train_loop_unfold.
  - triple_bind_tac; [triple_leaf|]. destruct (_ <=? _); triple_leaf.
  - triple_bind_tac; [triple_leaf|]. destruct (_ <=? _); [|triple_leaf].
    triple_bind_tac; [triple_leaf|].
    triple_bind_tac; [triple_leaf|].
    triple_bind_tac.
    { apply triple_liftW. intros w.
      destruct (Batch_random a0 a1 w) as (order & r & -> & _).
      by repeat constructor. }
    triple_bind_tac; [triple_leaf|].
    triple_bind_tac; [triple_leaf|].
    triple_bind_tac; [apply triple_train_epoch|].
    triple_bind_tac; [triple_leaf|].
    triple_bind_tac; [triple_leaf|].
    triple_bind_tac.
    { destruct (_ && _); [apply triple_do_validation|triple_leaf]. }
    apply IH.
Qed.
End train_triples.

(** ** [train], whatever its outcome *)

Lemma try_finally_run {S A} (body : M S A) (fin : M S unit) s o s1 l1 s2 l2 :
  body s = (o, s1, l1) → fin s1 = (Ok tt, s2, l2) →
  try_finally body fin s = (o, s2, l1 ++ l2).
Proof. unfold try_finally. by intros -> ->. Qed.

(** What [train] does before its loop. *)
Lemma train_setup (env : Externals) (ts : Trainer.TState)
    (k : M Trainer.TState unit) :
  let t := now (Trainer.world ts) in
  let w1 := set_training true
              (if cuda_is_available env && Trainer.use_cuda (Trainer.obj ts)
               then set_on_cuda true (Trainer.world ts) else Trainer.world ts) in
  let ts1 := {| Trainer.obj := started (Trainer.obj ts) t; Trainer.world := w1 |} in
  (uc <- Trainer.attr Trainer.use_cuda ;;
   (if cuda_is_available env && uc
    then Trainer.liftW (modify (set_on_cuda true)) else ret tt) ;;
   m <- Trainer.attr Trainer.model ;;
   Trainer.mode m false ;;
   t <- gets (fun s => now (Trainer.world s)) ;;
   Trainer.assign (Trainer.set_start_time (Some t)) ;;
   Trainer.liftW (emit EPrint) ;;
   sp <- Trainer.attr Trainer.save_path ;;
   match sp with
   | None => Trainer.assign (Trainer.set__summary_writer (Some Trainer.psudoSW))
   | Some dir =>
       let path := Trainer.path_join dir (String.append "tensorboard_logs_" t) in
       Trainer.liftW (emit (EWriterOpen path)) ;;
       Trainer.assign (Trainer.set__summary_writer (Some (Trainer.SummaryWriter path)))
   end ;;
   k) ts
  = prepend (EModeTrain :: EPrint :: writer_opened (Trainer.obj ts) t) (k ts1).
Proof.
  intros t w1 ts1. subst t w1 ts1.
  unfold Trainer.attr, Trainer.mode, Trainer.assign, started, writer_of, writer_opened.
  destruct ts as [s w]. simpl Trainer.obj. simpl Trainer.world.
  mrun. simpl Trainer.obj. simpl Trainer.world.
  destruct (cuda_is_available env && Trainer.use_cuda s); mrun; simpl;
    destruct (Trainer.save_path s) as [dir|] eqn:Hsp; mrun; simpl;
    rewrite ?prepend_prepend; simpl; rewrite ?Hsp; try reflexivity.
Qed.

(** [train] runs its loop on the trainer as [started], and then closes
    and removes the writer, whatever the loop did. *)
Lemma train_run (env : Externals) (ts : Trainer.TState) :
  let s := Trainer.obj ts in
  let t := now (Trainer.world ts) in
  let loop := Trainer.train_loop env (Z.to_nat (Trainer.n_epochs s)) 1
                                 (train_start env ts) in
  (outcome (Trainer.train env ts) = outcome loop
   ∧ log (Trainer.train env ts)
     = EModeTrain :: EPrint :: writer_opened s t ++ log loop ++ writer_closed s
   ∧ Trainer.obj (state (Trainer.train env ts))
     = Trainer.set__summary_writer None (Trainer.obj (state loop))
   ∧ Trainer.world (state (Trainer.train env ts)) = Trainer.world (state loop))
  ∧ advanced (started s t) (Trainer.obj (state loop))
  ∧ Forall (train_event (started s t)) (log loop).
Proof.
  intros s t loop.
  destruct (triple_train_loop env (started s t) (Z.to_nat (Trainer.n_epochs s)) 1
              (train_start env ts) (advanced_refl _)) as (Hadv & Hlog & _).
  fold loop in Hadv, Hlog.
  split; [|split; done].
  pose proof (advanced_fields _ _ Hadv) as (_ & Hsw & _).
  assert (Trainer.train env ts
          = (outcome loop,
             {| Trainer.obj :=
                  Trainer.set__summary_writer None (Trainer.obj (state loop));
                Trainer.world := Trainer.world (state loop) |},
             EModeTrain :: EPrint
               :: writer_opened s t ++ log loop ++ writer_closed s)) as ->; [|done].
  unfold Trainer.train.
  erewrite (try_finally_run _ _ ts (outcome loop) (state loop)
              (EModeTrain :: EPrint :: writer_opened s t ++ log loop)
              {| Trainer.obj :=
                   Trainer.set__summary_writer None (Trainer.obj (state loop));
                 Trainer.world := Trainer.world (state loop) |}
              (writer_closed s)).
  - f_equal. cbn [app]. rewrite <- app_assoc. reflexivity.
  - rewrite (train_setup env ts). unfold Trainer.attr. rewrite bind_gets.
    transitivity (prepend (EModeTrain :: EPrint :: writer_opened s t) loop);
      [reflexivity|].
    unfold prepend, outcome, state, log. by destruct loop as [[o ts2] l].
  - unfold Trainer.assign.
    rewrite (bind_run _ _ _ (writer_of s t) (state loop) []).
    2:{ rewrite get_summary_writer_run, Hsw. reflexivity. }
    unfold prepend. simpl.
    unfold writer_of, writer_closed.
    destruct (Trainer.save_path s); mrun; unfold prepend, modify; reflexivity.
Qed.

(** X1. However its loop ends, by returning or by an exception of the
    model, the loss or a validation, [train] ends as its loop does, closes
    the tensorboard writer it opened (once, as the last thing it does),
    removes the attribute [_summary_writer], and leaves every attribute
    of the trainer as it was but [step], [_best_accuracy] and
    [start_time]. *)
Theorem train_closes_writer (env : Externals) (ts : Trainer.TState) :
  let s := Trainer.obj ts in
  let t := now (Trainer.world ts) in
  let loop := Trainer.train_loop env (Z.to_nat (Trainer.n_epochs s)) 1
                                 (train_start env ts) in
  outcome (Trainer.train env ts) = outcome loop
  ∧ log (Trainer.train env ts)
    = EModeTrain :: EPrint :: writer_opened s t ++ log loop ++ writer_closed s
  ∧ Forall (fun e => ¬ is_writer e) (log loop)
  ∧ ∃ best st,
      Trainer.obj (state (Trainer.train env ts))
      = Trainer.set__summary_writer None
          (Trainer.set_step st
             (Trainer.set__best_accuracy best
                (Trainer.set_start_time (Some t) s))).
Proof.
  intros s t loop.
  destruct (train_run env ts)
    as ((Hout & Hl & Hobj & _) & (best & st & Hadv & _) & Hlog).
  split; [done|]. split; [done|]. split.
  - eapply Forall_impl; [exact Hlog|]. intros [] He Hw; simpl in *; done.
  - exists best, st. rewrite Hobj, Hadv. reflexivity.
Qed.

(** X2. Without a save path, [train] writes nothing, however it ends:
    no summary scalar, no checkpoint, no writer opened or closed; and the
    best score is what it was. *)
Theorem train_without_save_path (env : Externals) (ts : Trainer.TState) :
  Trainer.save_path (Trainer.obj ts) = None →
  Forall writes_nothing (log (Trainer.train env ts))
  ∧ Trainer._best_accuracy (Trainer.obj (state (Trainer.train env ts)))
    = Trainer._best_accuracy (Trainer.obj ts).
Proof.
  intros Hsp.
  destruct (train_run env ts)
    as ((_ & Hl & Hobj & _) & (best & st & Hadv & Hbest) & Hlog).
  rewrite Hl, Hobj, Hadv. split.
  - unfold writer_opened, writer_closed. rewrite Hsp, app_nil_r. simpl.
    do 2 (constructor; [done|]).
    eapply Forall_impl; [exact Hlog|].
    intros [] He; try done; simpl in He.
    + destruct He as [p He]. unfold started, writer_of in He.
      rewrite Hsp in He. simpl in He. discriminate He.
    + destruct He as (dir & st' & He & _). simpl in He. congruence.
  - simpl. by apply Hbest.
Qed.

Lemma train_without_save_path_witness :
  Forall writes_nothing (log (Trainer.train Sample.env (Sample.fresh 1 (-1) None)))
  ∧ Trainer._best_accuracy
      (Trainer.obj (state (Trainer.train Sample.env (Sample.fresh 1 (-1) None))))
    = Trainer._best_accuracy (Trainer.obj (Sample.fresh 1 (-1) None)).
Proof.
  apply (train_without_save_path Sample.env (Sample.fresh 1 (-1) None)). reflexivity.
Defined.



(** X4. With [n_epochs] not positive, [train] returns at once: it
    switches the module to training mode, sets the start time, opens and
    closes the writer, and creates no batch iterator. *)
Theorem train_no_epochs (env : Externals) (ts : Trainer.TState) :
  Trainer.n_epochs (Trainer.obj ts) ≤ 0 →
  let s := Trainer.obj ts in
  let t := now (Trainer.world ts) in
  outcome (Trainer.train env ts) = Ok tt
  ∧ log (Trainer.train env ts)
    = EModeTrain :: EPrint :: writer_opened s t ++ writer_closed s
  ∧ Trainer.obj (state (Trainer.train env ts))
    = Trainer.set__summary_writer None (Trainer.set_start_time (Some t) s)
  ∧ Trainer.world (state (Trainer.train env ts))
    = Trainer.world (train_start env ts).
Proof.
  intros Hn s t.
  destruct (train_run env ts) as ((Hout & Hl & Hobj & Hw) & _ & _).
  rewrite Hout, Hl, Hobj, Hw. fold s t.
  rewrite train_loop_unfold. unfold Trainer.attr. rewrite bind_gets.
  change (Trainer.n_epochs (Trainer.obj (train_start env ts)))
    with (Trainer.n_epochs s).
  destruct (1 <=? Trainer.n_epochs s) eqn:Hle; [apply Z.leb_le in Hle; subst s; lia|].
  unfold ret, outcome, state, log. simpl. repeat split; reflexivity.
Qed.

Lemma train_no_epochs_witness :
  let ts := Sample.fresh 0 (-1) (Some "./save") in
  outcome (Trainer.train Sample.env ts) = Ok tt
  ∧ log (Trainer.train Sample.env ts)
    = EModeTrain :: EPrint
        :: writer_opened (Trainer.obj ts) (now (Trainer.world ts))
        ++ writer_closed (Trainer.obj ts)
  ∧ Trainer.obj (state (Trainer.train Sample.env ts))
    = Trainer.set__summary_writer None
        (Trainer.set_start_time (Some (now (Trainer.world ts))) (Trainer.obj ts))
  ∧ Trainer.world (state (Trainer.train Sample.env ts))
    = Trainer.world (train_start Sample.env ts).
Proof.
  apply (train_no_epochs Sample.env (Sample.fresh 0 (-1) (Some "./save"))).
  simpl. lia.
Defined.

(** ** Construction of a Trainer, continued *)

Lemma not_Ok_bind_l {S A B} (m : M S A) (k : A → M S B) s :
  is_Ok (outcome (m s)) = false → is_Ok (outcome (bind m k s)) = false.
Proof.
  unfold bind, outcome. by destruct (m s) as [[[a| |] s1] l1].
Qed.

Lemma not_Ok_bind_r {S A B} (m : M S A) (k : A → M S B) s :
  (∀ a s1, is_Ok (outcome (k a s1)) = false) →
  is_Ok (outcome (bind m k s)) = false.
Proof.
  intros Hk. unfold bind, outcome. destruct (m s) as [[[a| |] s1] l1]; try done.
  specialize (Hk a s1). unfold outcome in Hk. by destruct (k a s1) as [[o s2] l2].
Qed.

(** With a development set, the check tries to construct a Tester. *)
Lemma check_code_dev_data (env : Externals) dataset model losser metrics batch_size
    (d : DataSet) level w :
  is_Ok (outcome (Trainer._check_code env dataset model losser metrics batch_size
                                      (Some d) level w)) = false.
Proof.
  unfold Trainer._check_code.
  do 3 (apply not_Ok_bind_r; intros ? ?).
  apply not_Ok_bind_l, Tester_init_never_Ok.
Qed.

Lemma init_dev_data_not_Ok (env : Externals)
    (train_data model : pyobj) (losser : option Losser) (metrics : pyobj)
    (n_epochs batch_size print_every validate_every : Z) (d : DataSet)
    (use_cuda : bool) (save_path : option string) (check_code_level : Z)
    (kwargs : gmap string pyobj) (w : World) :
  is_Ok (outcome (Trainer.__init__ env train_data model losser metrics n_epochs
                    batch_size print_every validate_every (Some d) use_cuda
                    save_path check_code_level kwargs w)) = false.
Proof.
  unfold Trainer.__init__.
  destruct train_data; try done. destruct model; try done.
  destruct (negb (truthy env metrics) && _); [done|].
  destruct (truthy env metrics && _); [done|].
  do 2 (apply not_Ok_bind_r; intros ? ?).
  destruct (-1 <? check_code_level).
  - apply not_Ok_bind_l, check_code_dev_data.
  - do 2 (apply not_Ok_bind_r; intros ? ?).
    apply not_Ok_bind_l, not_Ok_bind_l, Tester_init_never_Ok.
Qed.





(** X6. A model without parameters cannot be trained: with arguments
    that pass the tests of type and of [metrics] against [dev_data], the
    constructor of Trainer raises [StopIteration], from the check when it
    is on and from reading the device of the model when it is off, before
    any batch is taken. *)
Theorem Trainer_init_model_without_parameters (env : Externals)
    (td : DataSet) (m : Module) (losser : option Losser) (lo : Losser)
    (metrics : pyobj) (ms : list Metric)
    (n_epochs batch_size print_every validate_every : Z)
    (dev_data : option DataSet) (use_cuda : bool) (save_path : option string)
    (check_code_level : Z) (kwargs : gmap string pyobj) (w : World) :
  named_parameters m = [] →
  truthy env metrics = bool_decide (dev_data ≠ None) →
  _prepare_metrics env metrics = Ok ms →
  _prepare_losser env losser = Ok lo →
  Trainer.__init__ env (PDataSet td) (PModule m) losser metrics n_epochs batch_size
                   print_every validate_every dev_data use_cuda save_path
                   check_code_level kwargs w
  = (Raise StopIteration, w, []).
Proof.
  intros Hp Ht Hms Hlo. unfold Trainer.__init__.
  rewrite Ht.
  assert (negb (bool_decide (dev_data ≠ None)) && bool_decide (dev_data ≠ None) = false)
    as -> by (by destruct dev_data).
  assert (bool_decide (dev_data ≠ None) && bool_decide (dev_data = None) = false)
    as -> by (by destruct dev_data).
  rewrite bind_lift, Hms, bind_lift, Hlo.
  unfold Trainer._check_code, first_parameter_device. rewrite Hp.
  destruct (-1 <? check_code_level).
  - by rewrite bind_bind, bind_lift.
  - by rewrite bind_ret, bind_lift.
Qed.

Lemma Trainer_init_model_without_parameters_witness :
  Trainer.__init__ Sample.env (PDataSet Sample.data3) (PModule bare_net) None PNone
                   3 32 (-1) (-1) None false (Some "./save") 0 ∅ Sample.world0
  = (Raise StopIteration, Sample.world0, []).
Proof.
  apply (Trainer_init_model_without_parameters Sample.env Sample.data3 bare_net None
           Sample.scalar_loss PNone [] 3 32 (-1) (-1) None false (Some "./save") 0 ∅
           Sample.world0); reflexivity.
Defined.

(** ** [Tester.test], whatever its outcome *)

Lemma only_logs_run {A} (P : event → Prop) (m : M World A) (w : World) :
  only_logs P m → m w = (outcome (m w), w, log (m w)) ∧ Forall P (log (m w)).
Proof. intros Hm. by destruct (Hm w) as (o & l & -> & Hl). Qed.

Lemma only_logs_foldM {A B} (P : event → Prop) (body : B → A → M World B)
    (l : list A) :
  (∀ acc x, only_logs P (body acc x)) → ∀ acc, only_logs P (foldM body acc l).
Proof.
  intros Hb. induction l as [|x l IH]; intros acc; simpl.
  - apply only_logs_ret.
  - apply only_logs_bind; [apply Hb|]. intros acc'. apply IH.
Qed.

Lemma only_logs_test_batch (s : Tester.self) acc batch :
  only_logs (fun _ => True) (Tester.test_batch s acc batch).
Proof.
  intros w. destruct (test_batch_run s acc batch w) as (o & -> & _).
  exists o, (test_batch_events s w batch). split; [done|].
  by apply Forall_forall.
Qed.

Lemma only_logs_apply_metrics (ms : list Metric) : ∀ er o t,
  only_logs (fun _ => True) (Tester.apply_metrics ms er o t).
Proof.
  induction ms as [|m ms IH]; intros er o t; simpl.
  - apply only_logs_ret.
  - apply only_logs_bind; [by apply only_logs_emit|]. intros [].
    destruct (metric_call m o t) as [[r| e |] [o' t']].
    + apply IH.
    + destruct (is_CheckError e); [apply only_logs_ret|apply only_logs_raise].
    + apply only_logs_lift.
Qed.

Lemma only_logs_no_grad {A} (body : M World A) :
  only_logs (fun _ => True) body → only_logs (fun _ => True) (Tester.no_grad body).
Proof.
  intros Hb w. rewrite no_grad_run.
  destruct (Hb (set_grad_enabled false w)) as (o & l & -> & Hl).
  exists o, l. split; [|done]. by destruct w.
Qed.

(** Code that leaves the world alone and raises leaves a module that is
    in evaluation mode there. *)
Lemma switch_bind {A B} (m : M World A) (k : A → M World B) :
  only_logs (fun _ => True) m →
  (∀ a w, training w = false →
          state (k a w) = set_training (is_Ok (outcome (k a w))) w) →
  ∀ w, training w = false →
       state (bind m k w) = set_training (is_Ok (outcome (bind m k w))) w.
Proof.
  intros Hm Hk w Hw. destruct (Hm w) as (o & l & Hrun & _).
  unfold bind. rewrite Hrun. destruct o as [a| e |].
  - specialize (Hk a w Hw). unfold state, outcome in *.
    by destruct (k a w) as [[o2 w2] l2].
  - unfold state, outcome. simpl. destruct w. simpl in *. by subst.
  - unfold state, outcome. simpl. destruct w. simpl in *. by subst.
Qed.

Lemma test_body_world (env : Externals) (s : Tester.self) (w : World) :
  state (Tester.test_body env s w)
  = set_training (is_Ok (outcome (Tester.test_body env s w))) w.
Proof.
  unfold Tester.test_body, Tester._mode. rewrite bind_bind, bind_emit, bind_modify.
  unfold prepend, state, outcome. simpl.
  set (w1 := set_training false w).
  assert (Hgoal : ∀ m : M World (gmap string Z),
            state (m w1) = set_training (is_Ok (outcome (m w1))) w1 →
            (m w1).1.2 = set_training (is_Ok (m w1).1.1) w).
  { intros m Hm. unfold state, outcome in Hm. rewrite Hm. by destruct w. }
  apply Hgoal. generalize w1 (eq_refl : training w1 = false). clear Hgoal w1.
  apply switch_bind.
  { unfold Batch. apply only_logs_bind; [by apply only_logs_emit|]. intros [].
    apply only_logs_bind; apply only_logs_ret || (intros ?; apply only_logs_ret). }
  intros batches. apply switch_bind.
  { apply only_logs_no_grad. apply only_logs_bind.
    - apply only_logs_foldM. intros acc x. apply only_logs_test_batch.
    - intros [o t]. apply only_logs_ret. }
  intros [[output truths] er]. apply switch_bind.
  { apply only_logs_apply_metrics. }
  intros [[er' caught] [o' t']]. apply switch_bind.
  { destruct caught; [apply only_logs_lift|apply only_logs_ret]. }
  intros []. apply switch_bind.
  { destruct (0 <=? _); [by apply only_logs_emit|apply only_logs_ret]. }
  intros [] w2 Hw2. rewrite bind_bind, bind_emit, bind_modify. by destruct w2.
Qed.

(** X7. [Tester.test] changes nothing of the world but the mode of the
    module: training mode when it returns, evaluation mode when it raises
    (a prediction that is not a dictionary, an exception of the model, of
    a metric or of [_check_loss_evaluate]).  The gradient switch is
    restored in both cases. *)
Theorem test_leaves_eval_mode_on_error (env : Externals) (s : Tester.self)
    (w : World) :
  state (Tester.test env s w)
  = set_training (is_Ok (outcome (Tester.test env s w))) w.
Proof.
  pose proof (test_body_world env s w) as H.
  unfold Tester.test, scoped, state, outcome in *.
  by destruct (Tester.test_body env s w) as [[o w'] l].
Qed.

Lemma foldM_app {S A B} (body : B → A → M S B) (l1 l2 : list A) : ∀ acc s,
  foldM body acc (l1 ++ l2) s
  = bind (foldM body acc l1) (fun acc' => foldM body acc' l2) s.
Proof.
  induction l1 as [|x l1 IH]; intros acc s; simpl.
  - by rewrite bind_ret.
  - rewrite bind_bind. apply bind_ext_Ok. intros acc' s1 l _. apply IH.
Qed.

Lemma test_batch_not_dict (s : Tester.self) acc batch w :
  body (Tester._predict_func s) w (_build_args (Tester._predict_func s) batch.1)
  = Ok RNonDict →
  Tester.test_batch s acc batch w
  = (Raise AssertionError, w, test_batch_events s w batch).
Proof.
  intros Hb. destruct acc as [o t], batch as [bx b_y].
  unfold Tester.test_batch, _move_dict_value_to_device, Tester._data_forward, call.
  mrun. simpl in Hb. rewrite Hb. mrun. reflexivity.
Qed.

(** X8. When the function that predicts returns something that is not a
    dictionary on a batch (and dictionaries on the batches before it),
    [Tester.test] raises [AssertionError] at that batch: the batches
    after it are not forwarded, no metric is called, nothing is printed,
    and the module stays in evaluation mode. *)
Theorem test_prediction_not_dict (env : Externals) (s : Tester.self) (w : World)
    (before after : list (fields * fields)) (batch : fields * fields)
    (preds : list fields) :
  batches_of (Tester.batch_size s) (Tester.data s) = before ++ batch :: after →
  predicts (Tester._predict_func s) (eval_world w) before preds →
  body (Tester._predict_func s) (eval_world w)
       (_build_args (Tester._predict_func s) batch.1) = Ok RNonDict →
  Tester.test env s w
  = (Raise AssertionError, set_training false w,
     [ETest (EModeEval :: EBatchIter SequentialSampler (Tester.batch_size s)
               :: flat_map (test_batch_events s (eval_world w)) (before ++ [batch]))]).
Proof.
  intros Hbatches Hp Hb.
  unfold Tester.test, scoped, Tester.test_body, Tester._mode, Batch.
  mrun. rewrite Hbatches.
  assert (Hpass :
    Tester.no_grad
      (bind (foldM (Tester.test_batch s) (∅, ∅) (before ++ batch :: after))
            (fun acc => let '(output, truths) := acc in
                        ret (Tester.chain_all output, Tester.chain_all truths,
                             (∅ : gmap string Z))))
      (set_training false w)
    = (Raise AssertionError, set_training false w,
       flat_map (test_batch_events s (eval_world w)) (before ++ [batch]))).
  { rewrite no_grad_run. fold (eval_world w).
    rewrite bind_bind || idtac.
    assert (foldM (Tester.test_batch s) (∅, ∅) (before ++ batch :: after) (eval_world w)
            = (Raise AssertionError, eval_world w,
               flat_map (test_batch_events s (eval_world w)) (before ++ [batch])))
      as Hloop.
    { rewrite foldM_app.
      erewrite bind_run; last by apply test_batches_predicts.
      cbn [foldM]. unfold bind. rewrite test_batch_not_dict by done.
      unfold prepend. cbn [fst snd]. rewrite flat_map_app. cbn [flat_map].
      by rewrite app_nil_r. }
    unfold bind. rewrite Hloop. unfold eval_world. by destruct w. }
  unfold bind at 1. rewrite Hpass. reflexivity.
Qed.

Lemma test_prediction_not_dict_witness :
  Tester.test Sample.env bad_tester Sample.world0
  = (Raise AssertionError, set_training false Sample.world0,
     [ETest (EModeEval :: EBatchIter SequentialSampler (Tester.batch_size bad_tester)
               :: flat_map (test_batch_events bad_tester (eval_world Sample.world0))
                           ([] ++ [Sample.batch0]))]).
Proof.
  apply (test_prediction_not_dict Sample.env bad_tester Sample.world0
           [] [Sample.batch1] Sample.batch0 []).
  - vm_compute. reflexivity.
  - constructor.
  - reflexivity.
Defined.




(** ** Validation without a tester *)

Lemma batches_of_nonempty (batch_size : Z) (data : DataSet) :
  data ≠ [] → 0 < batch_size → batches_of batch_size data ≠ [].
Proof.
  intros Hd Hbs. unfold batches_of, chunks.
  destruct (Z.to_nat batch_size) as [|n] eqn:Hn; [lia|].
  by destruct data.
Qed.

(** X10. A trainer without a tester (one constructed without a
    development set) whose [validate_every] is positive and divides the
    step counter cannot complete [train] when there is a batch to train
    on: the validation after the first batch needs [self.tester].  So
    [train] raises, from that validation or before it. *)
Theorem train_validation_without_tester (env : Externals) (ts : Trainer.TState) :
  Trainer.tester (Trainer.obj ts) = None →
  validates (Trainer.validate_every (Trainer.obj ts)) (Trainer.step (Trainer.obj ts))
  = true →
  1 ≤ Trainer.n_epochs (Trainer.obj ts) →
  Trainer.train_data (Trainer.obj ts) ≠ [] →
  0 < Trainer.batch_size (Trainer.obj ts) →
  outcome (Trainer.train env ts) ≠ Ok tt.
Proof.
  intros Ht Hv Hn Hd Hbs Hout.
  destruct (Trainer.train env ts) as [[o ts'] l] eqn:Hrun.
  unfold outcome in Hout. simpl in Hout. subst o.
  pose proof (train_run env ts) as ((_ & Hl & _) & _ & Hlog).
  rewrite Hrun in Hl. unfold log at 1 in Hl. simpl in Hl.
  revert Hl Hlog.
  generalize (log (Trainer.train_loop env
                     (Z.to_nat (Trainer.n_epochs (Trainer.obj ts))) 1
                     (train_start env ts))).
  intros ll Hl Hlog.
  apply train_Ok in Hrun as (opener & epochs & closer & -> & _ & Hepochs).
  destruct (Z.to_nat (Trainer.n_epochs (Trainer.obj ts))) as [|n] eqn:Hnat; [lia|].
  inversion Hepochs as [|? ? order l_epoch vl rest Hperm Hepoch _ _]; subst.
  assert (Hne : batches_of (Trainer.batch_size (Trainer.obj ts)) order ≠ []).
  { apply batches_of_nonempty; [|done]. intros ->.
    apply Permutation_nil_l in Hperm. by apply Hd. }
  inversion Hepoch as [|? b bs w pred noise vl' rest' _ _ Hvl _]; subst; [done|].
  rewrite Hv in Hvl. destruct Hvl as (sub & noise' & -> & _).
  assert (Hin : ETest sub ∈ ll).
  { assert (ETest sub ∈ EModeTrain :: EPrint
              :: writer_opened (Trainer.obj ts) (now (Trainer.world ts))
              ++ ll ++ writer_closed (Trainer.obj ts)) as Hin.
    { rewrite <- Hl. set_solver. }
    do 2 (apply elem_of_cons in Hin as [Hin|Hin]; [discriminate Hin|]).
    apply elem_of_app in Hin as [Hin|Hin].
    { unfold writer_opened in Hin. destruct (Trainer.save_path _); [|by inversion Hin].
      apply list_elem_of_singleton in Hin. discriminate Hin. }
    apply elem_of_app in Hin as [Hin|Hin]; [done|].
    unfold writer_closed in Hin. destruct (Trainer.save_path _); [|by inversion Hin].
    apply list_elem_of_singleton in Hin. discriminate Hin. }
  eapply Forall_forall in Hlog; [|exact Hin].
  destruct Hlog as [t Htester]. simpl in Htester. congruence.
Qed.

Lemma train_validation_without_tester_witness :
  outcome (Trainer.train Sample.env
             {| Trainer.obj := constructed 1 2 None; Trainer.world := Sample.world0 |})
  ≠ Ok tt.
Proof.
  apply (train_validation_without_tester Sample.env
           {| Trainer.obj := constructed 1 2 None; Trainer.world := Sample.world0 |});
    [reflexivity | reflexivity | simpl; lia | discriminate | simpl; lia].
Defined.

(** ** The step counter over a run *)

Lemma train_loop_steps (env : Externals) (fuel : nat) :
  ∀ (epoch : Z) (ts ts' : Trainer.TState) l,
  Trainer.train_loop env fuel epoch ts = (Ok tt, ts', l) →
  let k := Z.to_nat (Trainer.n_epochs (Trainer.obj ts) - epoch + 1) in
  let nb := length (batches_of (Trainer.batch_size (Trainer.obj ts))
                               (Trainer.train_data (Trainer.obj ts))) in
  Trainer.step (Trainer.obj ts') = Trainer.step (Trainer.obj ts) + Z.of_nat (k * nb)
  ∧ updates (Trainer.world ts') = (updates (Trainer.world ts) + k * nb)%nat.
Proof.
  induction fuel as [|fuel IH]; intros epoch ts ts' l H;
    rewrite train_loop_unfold in H; unfold Trainer.attr in H; mrun_in H.
  - destruct (epoch <=? _) eqn:Hle; [done|]. injection H as <- <-.
    apply Z.leb_gt in Hle. cbv zeta.
    replace (Z.to_nat _) with 0%nat by lia. simpl. lia.
  - destruct (epoch <=? _) eqn:Hle.
    + apply Z.leb_le in Hle. mrun_in H.
      destruct (Batch_random (Trainer.train_data (Trainer.obj ts))
                  (Trainer.batch_size (Trainer.obj ts)) (Trainer.world ts))
        as (order & r & Hbatch & Hperm).
      rewrite (bind_run _ _ _ _ _ _ (liftW_run _ _ _ _ _ Hbatch)) in H.
      apply prepend_Ok in H as (l0 & H & ->).
      mrun_in H. simpl in H.
      apply bind_Ok in H as ([] & ts1 & l1 & l2 & Hepoch & H & ->).
      apply train_epoch_Ok in Hepoch as (_ & [best1 Hobj1] & Hup1).
      simpl in Hobj1, Hup1.
      rewrite (batches_of_length _ _ _ Hperm) in Hobj1, Hup1.
      mrun_in H.
      apply bind_Ok in H as ([] & ts2 & vl & l3 & Hv & H & ->).
      assert (Hts2 : (∃ best2, Trainer.obj ts2
                        = Trainer.set__best_accuracy best2 (Trainer.obj ts1))
                     ∧ updates (Trainer.world ts2) = updates (Trainer.world ts1)).
      { destruct (_ && _).
        - by apply do_validation_frame in Hv as (_ & ? & ?).
        - injection Hv as <- <-. split; [|done].
          exists (Trainer._best_accuracy (Trainer.obj ts1)).
          by rewrite set__best_accuracy_id. }
      destruct Hts2 as [[best2 Hobj2] Hup2].
      apply IH in H as (Hstep & Hup).
      rewrite Hobj2, Hobj1 in Hstep, Hup. simpl in Hstep, Hup.
      rewrite Hup2, Hup1 in Hup. cbv zeta.
      replace (Z.to_nat (Trainer.n_epochs (Trainer.obj ts) - epoch + 1))
        with (S (Z.to_nat (Trainer.n_epochs (Trainer.obj ts) - (epoch + 1) + 1)))
        by lia.
      rewrite Hstep, Hup. split; lia.
    + injection H as <- <-. apply Z.leb_gt in Hle. cbv zeta.
      replace (Z.to_nat _) with 0%nat by lia. simpl. lia.
Qed.

(** X11. When [train] returns, it has trained on every batch of every
    epoch: the step counter and the number of optimizer updates have both
    grown by [n_epochs] times the number of batches of the training data
    (none when [n_epochs] is not positive). *)
Theorem train_step_count (env : Externals) (ts : Trainer.TState) :
  outcome (Trainer.train env ts) = Ok tt →
  let s := Trainer.obj ts in
  let total := (Z.to_nat (Trainer.n_epochs s)
                * length (batches_of (Trainer.batch_size s) (Trainer.train_data s)))%nat in
  Trainer.step (Trainer.obj (state (Trainer.train env ts)))
  = Trainer.step s + Z.of_nat total
  ∧ updates (Trainer.world (state (Trainer.train env ts)))
    = (updates (Trainer.world ts) + total)%nat.
Proof.
  intros Hout s total.
  pose proof (train_run env ts) as ((Ho & _ & Hobj & Hw) & _ & _).
  rewrite Hobj, Hw. rewrite Ho in Hout.
  destruct (Trainer.train_loop env _ 1 (train_start env ts)) as [[o ts'] l] eqn:Hloop.
  unfold outcome in Hout. simpl in Hout. subst o.
  apply train_loop_steps in Hloop as (Hstep & Hup).
  unfold state. simpl. rewrite Hstep, Hup. simpl.
  subst total s.
  replace (Trainer.n_epochs (Trainer.obj ts) - 1 + 1)
    with (Trainer.n_epochs (Trainer.obj ts)) by lia.
  split; [done|]. by destruct (cuda_is_available env && _).
Qed.

Lemma train_step_count_witness :
  let ts := Sample.fresh 2 (-1) None in
  let s := Trainer.obj ts in
  let total := (Z.to_nat (Trainer.n_epochs s)
                * length (batches_of (Trainer.batch_size s) (Trainer.train_data s)))%nat in
  Trainer.step (Trainer.obj (state (Trainer.train Sample.env ts)))
  = Trainer.step s + Z.of_nat total
  ∧ updates (Trainer.world (state (Trainer.train Sample.env ts)))
    = (updates (Trainer.world ts) + total)%nat.
Proof.
  apply (train_step_count Sample.env (Sample.fresh 2 (-1) None)).
  vm_compute. reflexivity.
Defined.

(** ** What the check before training leaves alone *)

Lemma only_logs_check_batch (env : Externals) model losser level dev bc batch :
  only_logs is_check_event (Trainer.check_batch env model losser level dev bc batch).
Proof.
  intros w.
  destruct (check_batch_run env model losser level dev bc batch w)
    as (o & l & -> & Hl).
  exists o, (EMove dev batch.1 batch.2 :: l). split; [done|].
  constructor; [done|]. eapply Forall_impl; [exact Hl|]. by intros [].
Qed.

Lemma only_logs_check_loop (env : Externals) model losser level dev batches :
  ∀ bc, only_logs is_check_event
          (Trainer.check_loop env model losser level dev bc batches).
Proof.
  induction batches as [|b batches IH]; intros bc; simpl.
  - apply only_logs_ret.
  - apply only_logs_bind; [apply only_logs_check_batch|]. intros [].
    destruct (_ <=? _); [apply only_logs_ret|apply IH].
Qed.

Lemma only_logs_never_Ok {A B} (P : event → Prop) (m : M World A)
    (k : A → M World B) :
  (∀ w, ∃ o, m w = (o, w, []) ∧ is_Ok o = false) → only_logs P (bind m k).
Proof.
  intros Hm w. destruct (Hm w) as (o & Hrun & Ho).
  destruct (bind_fail m k w o w [] Hrun Ho) as (o' & -> & _).
  by exists o', [].
Qed.

Lemma only_logs_check_code (env : Externals) dataset model losser metrics
    batch_size dev_data check_level :
  only_logs is_check_event
    (Trainer._check_code env dataset model losser metrics batch_size dev_data
                         check_level).
Proof.
  unfold Trainer._check_code.
  apply only_logs_bind; [apply only_logs_lift|]. intros dev.
  apply only_logs_bind.
  { unfold Batch. apply only_logs_bind; [by apply only_logs_emit|]. intros [].
    apply only_logs_bind; [apply only_logs_ret|]. intros ?. apply only_logs_ret. }
  intros batches.
  apply only_logs_bind; [apply only_logs_check_loop|]. intros [].
  destruct dev_data as [d|]; [|apply only_logs_ret].
  apply only_logs_never_Ok. intros w. apply Tester_init_run.
Qed.

(** X12. The check before training changes nothing: whatever its
    arguments and however it ends, the world is as before (no optimizer
    update, no switch of mode, no move of the model) and it logs only a
    sequential iterator, moves of batches, calls of the model and of the
    loss, backward passes and the zeroing of gradients.  With a
    development set it does not return, and no evaluation is run: the
    constructor of Tester raises first. *)
Theorem check_code_changes_nothing (env : Externals) (dataset : DataSet)
    (model : Module) (losser : Losser) (metrics : list Metric) (batch_size : Z)
    (dev_data : option DataSet) (check_level : Z) (w : World) :
  let check := Trainer._check_code env dataset model losser metrics batch_size
                                   dev_data check_level w in
  state check = w
  ∧ Forall is_check_event (log check)
  ∧ match dev_data with
    | Some _ => is_Ok (outcome check) = false
    | None => True
    end.
Proof.
  intros check.
  destruct (only_logs_run is_check_event _ w
              (only_logs_check_code env dataset model losser metrics batch_size
                                    dev_data check_level)) as [Hrun Hl].
  fold check in Hrun, Hl. split; [|split].
  - by rewrite Hrun.
  - done.
  - destruct dev_data as [d|]; [|done]. apply check_code_dev_data.
Qed.

Lemma only_logs_init_dev_data (env : Externals)
    (train_data model : pyobj) (losser : option Losser) (metrics : pyobj)
    (n_epochs batch_size print_every validate_every : Z) (d : DataSet)
    (use_cuda : bool) (save_path : option string) (check_code_level : Z)
    (kwargs : gmap string pyobj) :
  only_logs is_check_event
    (Trainer.__init__ env train_data model losser metrics n_epochs batch_size
                      print_every validate_every (Some d) use_cuda save_path
                      check_code_level kwargs).
Proof.
  unfold Trainer.__init__.
  destruct train_data; try apply only_logs_raise.
  destruct model; try apply only_logs_raise.
  destruct (negb (truthy env metrics) && _); [apply only_logs_raise|].
  destruct (truthy env metrics && _); [apply only_logs_raise|].
  apply only_logs_bind; [apply only_logs_lift|]. intros ms.
  apply only_logs_bind; [apply only_logs_lift|]. intros lo.
  apply only_logs_bind.
  { destruct (-1 <? check_code_level);
      [apply only_logs_check_code|apply only_logs_ret]. }
  intros [].
  apply only_logs_bind; [apply only_logs_lift|]. intros dev.
  intros w. rewrite bind_bind. revert w.
  apply only_logs_never_Ok. intros w. apply Tester_init_run.
Qed.

(** X13. A Trainer cannot be constructed with a development set:
    whatever the other arguments, the constructor raises, since (when
    nothing else fails before) it constructs a Tester, in the check or
    for [self.tester], and the constructor of Tester never returns.  The
    world is left as it was, and nothing but the check has run. *)
Theorem Trainer_init_dev_data_never_returns (env : Externals)
    (train_data model : pyobj) (losser : option Losser) (metrics : pyobj)
    (n_epochs batch_size print_every validate_every : Z) (d : DataSet)
    (use_cuda : bool) (save_path : option string) (check_code_level : Z)
    (kwargs : gmap string pyobj) (w : World) :
  let init := Trainer.__init__ env train_data model losser metrics n_epochs
                batch_size print_every validate_every (Some d) use_cuda save_path
                check_code_level kwargs w in
  is_Ok (outcome init) = false
  ∧ state init = w
  ∧ Forall is_check_event (log init).
Proof.
  intros init. split; [apply init_dev_data_not_Ok|].
  destruct (only_logs_run is_check_event _ w
              (only_logs_init_dev_data env train_data model losser metrics n_epochs
                 batch_size print_every validate_every d use_cuda save_path
                 check_code_level kwargs)) as [Hrun Hl].
  fold init in Hrun, Hl. split; [by rewrite Hrun|done].
Qed.

(** ** The score of a validation *)

Lemma write_scalars_Ok {A} (tag : A → string) (items : list A)
    (ts : Trainer.TState) sw :
  Trainer._summary_writer (Trainer.obj ts) = Some sw →
  ∃ l, forM_ (fun x => bind Trainer.get_summary_writer
                            (fun sw => Trainer.add_scalar sw (tag x))) items ts
       = (Ok tt, ts, l)
       ∧ Forall is_scalar l.
Proof.
  intros Hsw. unfold forM_. induction items as [|x items IH]; simpl.
  - by exists [].
  - destruct IH as (l2 & IH & Hl2).
    destruct (add_scalar_run sw (tag x) ts) as (l1 & Hrun & Hl1).
    exists (l1 ++ l2). split; [|by apply Forall_app].
    rewrite bind_bind.
    erewrite bind_run; last by rewrite get_summary_writer_run, Hsw.
    erewrite bind_run; last exact Hrun.
    rewrite IH. unfold prepend. simpl. reflexivity.
Qed.

(** X14. With a save path, a validation whose results do not hold
    exactly one score reads [self.eval_sort_key], an attribute that only
    a keyword argument of the constructor can have set: without it the
    validation raises [AttributeError], after the test has run and the
    scalars are written, and the best score stays as it was. *)
Theorem do_validation_needs_eval_sort_key (env : Externals) (ts : Trainer.TState)
    (t : Tester.self) (res : gmap string Z) (dir : string) (sw : Trainer.writer) :
  Trainer.tester (Trainer.obj ts) = Some t →
  outcome (Tester.test env t (Trainer.world ts)) = Ok res →
  size res ≠ 1%nat →
  Trainer.save_path (Trainer.obj ts) = Some dir →
  Trainer._summary_writer (Trainer.obj ts) = Some sw →
  Trainer.extra (Trainer.obj ts) !! "eval_sort_key" = None →
  outcome (Trainer.do_validation env ts) = Raise AttributeError
  ∧ Trainer.obj (state (Trainer.do_validation env ts)) = Trainer.obj ts
  ∧ ∃ sub scalars,
      log (Trainer.do_validation env ts) = ETest sub :: scalars
      ∧ Forall is_scalar scalars.
Proof.
  intros Ht Htest Hsize Hsp Hsw Hkey.
  destruct (Tester.test env t (Trainer.world ts)) as [[o w'] lt] eqn:Hrun.
  unfold outcome in Htest. simpl in Htest. subst o.
  destruct (test_log env t (Trainer.world ts)) as [sub Hsub].
  rewrite Hrun in Hsub. unfold log in Hsub. simpl in Hsub. subst lt.
  set (ts1 := {| Trainer.obj := Trainer.obj ts; Trainer.world := w' |}).
  destruct (write_scalars_Ok (fun kv : string * Z => String.append "valid_" kv.1)
              (map_to_list res) ts1 sw Hsw) as (scalars & Hsc & Hscalars).
  assert (Heq : Trainer.do_validation env ts
                = (Raise AttributeError, ts1, ETest sub :: scalars)).
  { unfold Trainer.do_validation, Trainer.attr. rewrite bind_gets, Ht.
    erewrite bind_run; last by apply liftW_run.
    fold ts1. erewrite bind_run; last exact Hsc.
    rewrite bind_gets. change (Trainer.obj ts1) with (Trainer.obj ts). rewrite Hsp.
    unfold Trainer.best_eval_result, Trainer.attr.
    rewrite <- length_map_to_list in Hsize.
    destruct (map_to_list res) as [|[k1 v1] [|[k2 v2] rest]]; try done;
      rewrite !bind_bind, bind_gets;
      change (Trainer.obj ts1) with (Trainer.obj ts);
      rewrite Hkey, bind_raise; unfold prepend; simpl; by rewrite app_nil_r. }
  rewrite Heq. unfold outcome, state, log. simpl.
  split; [done|]. split; [done|]. by exists sub, scalars.
Qed.

Lemma do_validation_needs_eval_sort_key_witness :
  outcome (Trainer.do_validation Sample.env running_two_metrics) = Raise AttributeError
  ∧ Trainer.obj (state (Trainer.do_validation Sample.env running_two_metrics))
    = Trainer.obj running_two_metrics
  ∧ ∃ sub scalars,
      log (Trainer.do_validation Sample.env running_two_metrics) = ETest sub :: scalars
      ∧ Forall is_scalar scalars.
Proof.
  apply (do_validation_needs_eval_sort_key Sample.env running_two_metrics
           (Sample.tester [Sample.sum_metric "Acc" 0; Sample.const_metric "F1" 7])
           {[ "Acc" := 6; "F1" := 7 ]} "./save" Trainer.psudoSW).
  - reflexivity.
  - vm_compute. reflexivity.
  - vm_compute. discriminate.
  - reflexivity.
  - reflexivity.
  - reflexivity.
Defined.

(** ** The mode of the module during training *)

Section safe.
Context (I : Trainer.TState → Prop) (P : event → Prop).

Lemma safe_ret {A} (a : A) : safe I P (ret a).
Proof. intros ts HI. split; [constructor|]. by intros. Qed.

Lemma safe_raise {A} (e : exn) : safe I P (raise (A := A) e).
Proof. intros ts HI. split; [constructor|]. by intros. Qed.

Lemma safe_lift {A} (o : Outcome A) : safe I P (lift o).
Proof. intros ts HI. split; [constructor|]. by intros. Qed.

Lemma safe_gets {A} (f : Trainer.TState → A) : safe I P (gets f).
Proof. intros ts HI. split; [constructor|]. by intros. Qed.

Lemma safe_bind {A B} (m : M Trainer.TState A) (k : A → M Trainer.TState B) :
  safe I P m → (∀ a, safe I P (k a)) → safe I P (bind m k).
Proof.
  intros Hm Hk ts HI. destruct (Hm ts HI) as (H1 & H2).
  unfold bind, state, log, outcome in *.
  destruct (m ts) as [[[a| |] ts1] l1]; simpl in *; try done.
  destruct (Hk a ts1 (H2 a eq_refl)) as (K1 & K2).
  unfold state, log, outcome in *.
  destruct (k a ts1) as [[o ts2] l2]; simpl in *.
  split; [by apply Forall_app|done].
Qed.

Lemma safe_forM_ {A} (body : A → M Trainer.TState unit) (l : list A) :
  (∀ x, safe I P (body x)) → safe I P (forM_ body l).
Proof.
  intros Hb. unfold forM_. induction l as [|x l IH]; simpl.
  - apply safe_ret.
  - apply safe_bind; [apply Hb|]. by intros [].
Qed.
End safe.

Ltac safe_tac :=
  repeat first
    [ apply safe_ret | apply safe_raise | apply safe_lift | apply safe_gets
    | apply safe_bind; [|intros ?]
    | apply safe_forM_; intros ?
    | match goal with
      | |- safe _ _ (if ?c then _ else _) => destruct c
      | |- safe _ _ (match ?x with _ => _ end) => destruct x
      end ].

Section training_mode.
Context (env : Externals) (g : bool).

Lemma safe_assign (f : Trainer.self → Trainer.self) :
  safe (in_training g) (call_in_training g) (Trainer.assign f).
Proof. intros ts HI. split; [constructor|]. by intros. Qed.

Lemma safe_liftW {A} (m : M World A) :
  (∀ w, training_with g w →
        Forall (call_in_training g) (log (m w))
        ∧ ∀ a, outcome (m w) = Ok a → training_with g (state (m w))) →
  safe (in_training g) (call_in_training g) (Trainer.liftW m).
Proof.
  intros Hm ts HI. destruct (Hm (Trainer.world ts) HI) as [H1 H2].
  unfold Trainer.liftW, state, log, outcome in *.
  by destruct (m (Trainer.world ts)) as [[o w] l].
Qed.

Lemma safe_emit (e : event) :
  call_in_training g e → safe (in_training g) (call_in_training g) (Trainer.liftW (emit e)).
Proof.
  intros He. apply safe_liftW. intros w Hw. split; [by repeat constructor|done].
Qed.

Lemma safe_test (t : Tester.self) :
  safe (in_training g) (call_in_training g) (Trainer.liftW (Tester.test env t)).
Proof.
  apply safe_liftW. intros w [Htr Hg]. split.
  - destruct (test_log env t w) as [sub ->]. by repeat constructor.
  - intros res Hres. pose proof (test_body_world env t w) as Hb.
    unfold Tester.test, scoped, state, outcome in *.
    destruct (Tester.test_body env t w) as [[o w'] l]. simpl in *.
    subst o w'. by split.
Qed.

Lemma safe_do_validation :
  safe (in_training g) (call_in_training g) (Trainer.do_validation env).
Proof.
  unfold Trainer.do_validation, Trainer.attr, Trainer.get_summary_writer,
    Trainer.add_scalar, Trainer.best_eval_result, Trainer.save_model, Trainer.attr.
  apply safe_bind; [apply safe_gets|]. intros [t|]; [|safe_tac].
  apply safe_bind; [apply safe_test|]. intros res.
  safe_tac; try apply safe_assign; by apply safe_emit.
Qed.

Lemma safe_train_batch model batch :
  safe (in_training g) (call_in_training g) (Trainer.train_batch env model batch).
Proof.
  destruct batch as [bx b_y].
  unfold Trainer.train_batch, Trainer.attr, Trainer.data_forward, Trainer.get_loss,
    Trainer.grad_backward, Trainer.update, Trainer.get_summary_writer,
    Trainer.add_scalar, Trainer.attr, _move_dict_value_to_device.
  apply safe_bind; [apply safe_gets|]. intros dev.
  apply safe_bind; [by apply safe_emit|]. intros [].
  apply safe_bind.
  { apply safe_bind.
    - apply safe_liftW. intros w [Htr Hg]. unfold call, bind, get, emit, lift.
      unfold log, outcome, state. simpl. split; [|done].
      constructor; [by split|constructor].
    - intros [y|]; safe_tac. }
  intros prediction.
  apply safe_bind.
  { apply safe_bind; [apply safe_gets|]. intros lo.
    apply safe_bind; [by apply safe_emit|]. intros []. safe_tac. }
  intros loss.
  apply safe_bind.
  { apply safe_bind; [by apply safe_emit|]. intros [].
    apply safe_bind; [by apply safe_emit|]. intros []. safe_tac. }
  intros [].
  apply safe_bind.
  { apply safe_liftW. intros w [Htr Hg]. unfold bind, emit, modify.
    unfold log, outcome, state. simpl. split; [by repeat constructor|done]. }
  intros [].
  do 2 (apply safe_bind; [safe_tac|intros ?]).
  apply safe_bind; [safe_tac; by apply safe_emit|]. intros [].
  apply safe_bind; [safe_tac|]. intros m.
  apply safe_bind; [safe_tac; by apply safe_emit|]. intros [].
  do 2 (apply safe_bind; [safe_tac|intros ?]).
  apply safe_bind; [destruct (_ && _); [by apply safe_emit|safe_tac]|]. intros [].
  do 2 (apply safe_bind; [safe_tac|intros ?]).
  apply safe_bind; [destruct (_ && _); [apply safe_do_validation|safe_tac]|].
  intros []. apply safe_bind; [safe_tac|]. intros st. apply safe_assign.
Qed.

Lemma safe_train_loop fuel : ∀ epoch,
  safe (in_training g) (call_in_training g) (Trainer.train_loop env fuel epoch).
Proof.
  induction fuel as [|fuel IH]; intros epoch; rewrite train_loop_unfold;
    unfold Trainer.attr.
  - safe_tac.
  - apply safe_bind; [safe_tac|]. intros n. destruct (_ <=? _); [|safe_tac].
    do 2 (apply safe_bind; [safe_tac|intros ?]).
    apply safe_bind.
    { apply safe_liftW. intros w [Htr Hg].
      destruct (Batch_random a a0 w) as (order & r & -> & _).
      unfold log, outcome, state. simpl. split; [by repeat constructor|done]. }
    intros batches.
    do 2 (apply safe_bind; [safe_tac|intros ?]).
    apply safe_bind.
    { unfold Trainer._train_epoch. apply safe_forM_. intros b.
      apply safe_train_batch. }
    intros [].
    do 2 (apply safe_bind; [safe_tac|intros ?]).
    apply safe_bind; [destruct (_ && _); [apply safe_do_validation|safe_tac]|].
    intros []. apply IH.
Qed.
End training_mode.

(** X15. Every forward pass that [train] makes itself is made in
    training mode, with the gradient switch as [train] found it, however
    [train] ends: a validation in between returns the module to training
    mode and restores the switch.  When [train] returns, the module is in
    training mode. *)
Theorem train_calls_in_training_mode (env : Externals) (ts : Trainer.TState) :
  let g := grad_enabled (Trainer.world ts) in
  Forall (call_in_training g) (log (Trainer.train env ts))
  ∧ match outcome (Trainer.train env ts) with
    | Ok _ => training_with g (Trainer.world (state (Trainer.train env ts)))
    | _ => True
    end.
Proof.
  intros g.
  pose proof (train_run env ts) as ((Ho & Hl & _ & Hw) & _ & _).
  assert (Hstart : in_training g (train_start env ts)).
  { unfold in_training, train_start, training_with. simpl. split; [done|].
    by destruct (cuda_is_available env && _). }
  destruct (safe_train_loop env g (Z.to_nat (Trainer.n_epochs (Trainer.obj ts))) 1
              (train_start env ts) Hstart) as [Hlog Hend].
  rewrite Hl, Ho, Hw. split.
  - do 2 (constructor; [done|]). apply Forall_app. split.
    { unfold writer_opened. destruct (Trainer.save_path _); by repeat constructor. }
    apply Forall_app. split; [done|].
    unfold writer_closed. destruct (Trainer.save_path _); by repeat constructor.
  - revert Hend.
    destruct (outcome (Trainer.train_loop env _ 1 (train_start env ts)))
      as [[]| |]; intros Hend; [by apply (Hend tt)|done|done].
Qed.

(** ** The text of the results *)

Lemma string_app_assoc (a b c : string) :
  String.append (String.append a b) c = String.append a (String.append b c).
Proof.
  induction a as [|x a IH]; [done|].
  change (String x (String.append (String.append a b) c)
          = String x (String.append a (String.append b c))).
  by rewrite IH.
Qed.

Lemma format_blocks (line : string) (l : list string) : ∀ acc : string,
  String.append
    (foldl (fun _str name =>
              String.append
                (String.append _str (String.append name (String.append newline tab)))
                line) acc l)
    newline
  = String.append acc
      (foldr (fun name text =>
                String.append name
                  (String.append newline (String.append tab (String.append line text))))
             newline l).
Proof.
  induction l as [|name l IH]; intros acc; [done|].
  simpl foldl. rewrite IH. simpl foldr. by rewrite !string_app_assoc.
Qed.

(** X16. The text [_format_eval_results] makes of the results is one
    block per result, in order, and a final newline; a block is the name
    of the metric, a newline and a tab, and then the same line in every
    block: all the results as [name=value], separated by commas.  For no
    result the text is a newline. *)
Theorem format_eval_results_text {V} (str : V → string) (results : list (string * V)) :
  let line := join ", " ((fun kv : string * V =>
                            String.append kv.1 (String.append "=" (str kv.2)))
                         <$> results) in
  Tester._format_eval_results str results
  = foldr (fun name text =>
             String.append name
               (String.append newline (String.append tab (String.append line text))))
          newline (fst <$> results).
Proof.
  intros line. unfold Tester._format_eval_results. fold line.
  etransitivity; [|exact (format_blocks line (fst <$> results) "")].
  f_equal. generalize "". generalize line. clear line.
  induction results as [|[name v] l IH]; intros line acc; [done|].
  simpl. apply IH.
Qed.

(** ** The summary scalars of a batch *)

Lemma add_scalar_SummaryWriter (path tag : string) (ts : Trainer.TState) :
  Trainer.add_scalar (Trainer.SummaryWriter path) tag ts
  = (Ok tt, ts, [EAddScalar tag (Trainer.step (Trainer.obj ts))]).
Proof.
  unfold Trainer.add_scalar, Trainer.attr. rewrite bind_gets.
  unfold Trainer.liftW, emit. by destruct ts.
Qed.

Lemma param_scalars_run (path : string) (params : list (string * bool * string))
    (ts : Trainer.TState) :
  Trainer._summary_writer (Trainer.obj ts) = Some (Trainer.SummaryWriter path) →
  forM_ (fun p : string * bool * string =>
           if p.1.2
           then bind Trainer.get_summary_writer
                     (fun sw => Trainer.add_scalar sw (String.append p.1.1 "_mean"))
           else ret tt) params ts
  = (Ok tt, ts,
     (fun p : string * bool * string =>
        EAddScalar (String.append p.1.1 "_mean") (Trainer.step (Trainer.obj ts)))
       <$> filter (fun p : string * bool * string => p.1.2 = true) params).
Proof.
  intros Hsw. unfold forM_. induction params as [|[[name rg] dev] params IH]; [done|].
  cbn [foldM]. destruct rg.
  - rewrite filter_cons_True by done. cbn [fst snd].
    rewrite bind_bind.
    erewrite bind_run; last by rewrite get_summary_writer_run, Hsw.
    erewrite bind_run; last by apply add_scalar_SummaryWriter.
    rewrite IH. reflexivity.
  - rewrite filter_cons_False by done. cbn [fst snd]. by rewrite bind_ret, IH.
Qed.

(** X17. With a tensorboard writer, a batch of training that returns
    writes, right after the optimizer update, the scalar ["loss"] and
    then one scalar [<name>_mean] for each parameter of [self.model] that
    requires a gradient, in the order of the parameters, all at
    [global_step] equal to the step counter before it is incremented;
    then it prints when [print_every] is positive and divides the step
    counter, and validates when [validate_every] does. *)
Theorem train_batch_scalars (env : Externals) (model : Module)
    (batch : fields * fields) (ts : Trainer.TState) (path : string) :
  Trainer._summary_writer (Trainer.obj ts) = Some (Trainer.SummaryWriter path) →
  outcome (Trainer.train_batch env model batch ts) = Ok tt →
  let s := Trainer.obj ts in
  let st := Trainer.step s in
  ∃ pred vl,
    log (Trainer.train_batch env model batch ts)
    = batch_core (Trainer._model_device s) model (Trainer.world ts) batch pred
      ++ EAddScalar "loss" st
      :: ((fun p : string * bool * string =>
             EAddScalar (String.append p.1.1 "_mean") st)
            <$> filter (fun p : string * bool * string => p.1.2 = true)
                       (named_parameters (Trainer.model s)))
      ++ (if (0 <? Trainer.print_every s) && (st mod Trainer.print_every s =? 0)
          then [EPrint] else [])
      ++ vl
    ∧ (if validates (Trainer.validate_every s) st then validation_log vl else vl = []).
Proof.
  intros Hsw Hout s st.
  destruct (Trainer.train_batch env model batch ts) as [[o ts'] l] eqn:H.
  unfold outcome in Hout. simpl in Hout. subst o. unfold log. simpl.
  destruct batch as [bx b_y].
  unfold Trainer.train_batch, Trainer.attr, _move_dict_value_to_device,
    Trainer.data_forward, call, Trainer.get_loss, Trainer.grad_backward,
    Trainer.update in H.
  mrun_in H.
  destruct (body (forward model) _ _) as [[pred|]| |] eqn:Hpred; try done.
  mrun_in H. unfold Trainer.attr in H. mrun_in H.
  destruct (loss_call _ _ _ _) as [loss| |] eqn:Hloss; try done.
  mrun_in H.
  destruct (backward loss) eqn:Hbw; try done.
  mrun_in H.
  rewrite !prepend_prepend in H. simpl app in H.
  apply prepend_Ok in H as (l0 & H & ->).
  set (tsu := {| Trainer.obj := Trainer.obj ts;
                 Trainer.world := set_updates (S (updates (Trainer.world ts)))
                                              (Trainer.world ts) |}) in *.
  rewrite (bind_run _ _ _ (Trainer.SummaryWriter path) tsu []) in H
    by (by rewrite get_summary_writer_run; simpl; rewrite Hsw).
  apply prepend_Ok in H as (l1 & H & ->).
  mrun_in H. destruct (item loss) as [[]| |]; try done.
  rewrite (bind_run _ _ _ _ _ _ (add_scalar_SummaryWriter path "loss" tsu)) in H.
  apply prepend_Ok in H as (l2 & H & ->).
  mrun_in H.
  rewrite (bind_run _ _ _ _ _ _
             (param_scalars_run path (named_parameters (Trainer.model (Trainer.obj tsu)))
                                tsu Hsw)) in H.
  apply prepend_Ok in H as (l3 & H & ->).
  mrun_in H.
  apply bind_Ok in H as ([] & ts4 & l7 & l8 & Hpr & H & ->).
  assert (ts4 = tsu
          ∧ l7 = (if (0 <? Trainer.print_every s) && (st mod Trainer.print_every s =? 0)
                  then [EPrint] else [])) as [-> ->].
  { change (Trainer.obj tsu) with s in Hpr. fold st in Hpr.
    destruct (_ && _).
    - rewrite liftW_emit in Hpr. by injection Hpr as <- <-.
    - by injection Hpr as <- <-. }
  mrun_in H.
  apply bind_Ok in H as ([] & tsv & vl & l9 & Hv & H & ->).
  mrun_in H. unfold Trainer.assign in H. mrun_in H. simpl in H.
  unfold ret in H. injection H as <- <-.
  change (Trainer.obj tsu) with s in *. fold st in Hv.
  fold (validates (Trainer.validate_every s) st) in Hv.
  exists pred, vl. split.
  - unfold batch_core. simpl. rewrite app_nil_r. reflexivity.
  - destruct (validates _ _).
    + by apply do_validation_frame in Hv as (Hvl & _).
    + by injection Hv as <- <-.
Qed.

Lemma train_batch_scalars_witness :
  let ts := train_start Sample.env (Sample.fresh 1 (-1) (Some "./save")) in
  let s := Trainer.obj ts in
  let st := Trainer.step s in
  ∃ pred vl,
    log (Trainer.train_batch Sample.env Sample.net Sample.batch0 ts)
    = batch_core (Trainer._model_device s) Sample.net (Trainer.world ts)
                 Sample.batch0 pred
      ++ EAddScalar "loss" st
      :: ((fun p : string * bool * string =>
             EAddScalar (String.append p.1.1 "_mean") st)
            <$> filter (fun p : string * bool * string => p.1.2 = true)
                       (named_parameters (Trainer.model s)))
      ++ (if (0 <? Trainer.print_every s) && (st mod Trainer.print_every s =? 0)
          then [EPrint] else [])
      ++ vl
    ∧ (if validates (Trainer.validate_every s) st then validation_log vl else vl = []).
Proof.
  apply (train_batch_scalars Sample.env Sample.net Sample.batch0
           (train_start Sample.env (Sample.fresh 1 (-1) (Some "./save")))
           (Trainer.path_join "./save"
              (String.append "tensorboard_logs_" (now Sample.world0)))).
  - reflexivity.
  - vm_compute. reflexivity.
Defined.
